(** * Investment research pipeline: shallow embedding and verified properties

    The development follows the Python sources of the repository:
    - [agents/coordinator.py]      the planner stage,
    - [agents/financial_agent.py]  the fundamentals/technicals stage,
    - [agents/sentiment_agent.py]  the news/sentiment stage,
    - [agents/synthesizer.py]      the synthesis stage,
    - [utils/__init__.py]          the response normalizer,
    - [graph/state.py], [graph/workflow.py], [main.py]  the shared state, its
      reducers and the stage graph.

    Python [str] values are modelled as [string] (sequences of 8-bit
    characters); the text operations below agree with Python's on ASCII
    text, bytes above 127 are treated as ordinary non-blank, caseless
    characters. *)

From Stdlib Require Import String Ascii List ZArith Bool Arith Lia.
From Stdlib Require Import DecimalString.
From Stdlib Require Import Sorted Permutation.
Import ListNotations.

Local Open Scope string_scope.
Local Open Scope list_scope.
Local Open Scope nat_scope.

Set Implicit Arguments.
Set Warnings "-register-all".

(* ================================================================== *)
(** ** Python text operations *)
(* ================================================================== *)

Module PyStr.

Definition chars := list ascii.

Definition unpack (s : string) : chars := list_ascii_of_string s.
Definition pack (l : chars) : string := string_of_list_ascii l.

(** [str.isspace] on one ASCII character: TAB, LF, VT, FF, CR, the four
    separators 0x1c-0x1f and the blank. *)
Definition isspace (c : ascii) : bool :=
  let n := nat_of_ascii c in
  ((9 <=? n) && (n <=? 13)) || ((28 <=? n) && (n <=? 32)).

Fixpoint drop_while (p : ascii -> bool) (l : chars) : chars :=
  match l with
  | [] => []
  | c :: r => if p c then drop_while p r else l
  end.

Definition lstrip_l (l : chars) : chars := drop_while isspace l.
Definition rstrip_l (l : chars) : chars := rev (drop_while isspace (rev l)).
Definition strip_l (l : chars) : chars := rstrip_l (lstrip_l l).

(** [s.strip()], [s.lstrip()] *)
Definition strip (s : string) : string := pack (strip_l (unpack s)).

Fixpoint startswith_l (p s : chars) : bool :=
  match p, s with
  | [], _ => true
  | _ :: _, [] => false
  | a :: p', b :: s' => Ascii.eqb a b && startswith_l p' s'
  end.

(** [s.startswith(p)] *)
Definition startswith (s p : string) : bool :=
  startswith_l (unpack p) (unpack s).

(** [sub in s] on strings *)
Fixpoint contains_l (sub s : chars) : bool :=
  startswith_l sub s ||
  match s with
  | [] => false
  | _ :: r => contains_l sub r
  end.

Definition contains (sub s : string) : bool :=
  contains_l (unpack sub) (unpack s).

Definition upper_char (c : ascii) : ascii :=
  let n := nat_of_ascii c in
  if (97 <=? n) && (n <=? 122) then ascii_of_nat (n - 32) else c.

Definition lower_char (c : ascii) : ascii :=
  let n := nat_of_ascii c in
  if (65 <=? n) && (n <=? 90) then ascii_of_nat (n + 32) else c.

(** [s.upper()], [s.lower()] *)
Definition upper (s : string) : string := pack (map upper_char (unpack s)).
Definition lower (s : string) : string := pack (map lower_char (unpack s)).

(** [s.split(sep)] for a one-character separator: never the empty list. *)
Fixpoint split_l (sep : ascii) (l : chars) : list chars :=
  match l with
  | [] => [[]]
  | c :: r =>
      if Ascii.eqb c sep then [] :: split_l sep r
      else match split_l sep r with
           | h :: t => (c :: h) :: t
           | [] => [[c]]
           end
  end.

(** [sep.join(parts)] *)
Fixpoint join_l (sep : chars) (parts : list chars) : chars :=
  match parts with
  | [] => []
  | [p] => p
  | p :: rest => p ++ sep ++ join_l sep rest
  end.

Definition join (sep : string) (parts : list string) : string :=
  String.concat sep parts.

(** [s[:n]] *)
Definition slice_to (n : nat) (s : string) : string :=
  pack (firstn n (unpack s)).

(** An f-string: the concatenation of its rendered pieces. *)
Definition fstring (parts : list string) : string := String.concat "" parts.

Definition nl : ascii := ascii_of_nat 10.
Definition dq : ascii := ascii_of_nat 34.

(** Literals that hold double quotes are written with apostrophes and
    passed through [q]. *)
Definition q (s : string) : string :=
  pack (map (fun c => if Ascii.eqb c "'"%char then dq else c) (unpack s)).

Definition is_empty (s : string) : bool := String.eqb s "".

End PyStr.
Import PyStr.

(* ================================================================== *)
(** ** Decoded JSON values and Python dictionaries *)
(* ================================================================== *)

(** A Python [float] is kept as the decimal it was written as
    ([Dec m e] stands for [m * 10^e]); rounding to binary64 is not
    modelled. *)
Inductive pyfloat : Type :=
| Dec (m e : Z)
| NaN
| Inf (negative : bool).

Inductive json : Type :=
| JNull
| JBool (b : bool)
| JInt (z : Z)
| JFloat (f : pyfloat)
| JStr (s : string)
| JList (items : list json)
| JDict (entries : list (string * json)).

(** A Python [dict] with string keys: insertion ordered, keys unique. *)
Definition Dict := list (string * json).

Fixpoint dict_get (k : string) (d : Dict) : option json :=
  match d with
  | [] => None
  | (k', v) :: r => if String.eqb k' k then Some v else dict_get k r
  end.

(** [d[k] = v] *)
Fixpoint dict_set (k : string) (v : json) (d : Dict) : Dict :=
  match d with
  | [] => [(k, v)]
  | (k', v') :: r =>
      if String.eqb k' k then (k', v) :: r else (k', v') :: dict_set k v r
  end.

(** [d.get(k, default)] *)
Definition dict_get_default (k : string) (default : json) (d : Dict) : json :=
  match dict_get k d with
  | Some v => v
  | None => default
  end.

(** Python truth value of a decoded value. *)
Definition truthy (v : json) : bool :=
  match v with
  | JNull => false
  | JBool b => b
  | JInt z => negb (z =? 0)%Z
  | JFloat (Dec m _) => negb (m =? 0)%Z
  | JFloat _ => true
  | JStr s => negb (is_empty s)
  | JList l => match l with [] => false | _ => true end
  | JDict d => match d with [] => false | _ => true end
  end.

(** Truth value of an [Optional[Dict]] state field. *)
Definition present (o : option Dict) : bool :=
  match o with
  | Some (_ :: _) => true
  | _ => false
  end.

Definition half : json := JFloat (Dec 5 (-1)).

(** Outcome of a Python expression that may raise; the payload of
    [Raise] is [str(e)]. *)
Inductive PyResult (A : Type) : Type :=
| Ok (a : A)
| Raise (msg : string).
Arguments Ok {A} a.
Arguments Raise {A} msg.

(* ================================================================== *)
(** ** [json.loads]: the strict decoder of the Python standard library *)
(* ================================================================== *)

(** The decoder follows [json.decoder] and [json.scanner]: blanks between
    tokens are the four characters SP, TAB, LF, CR; strings are scanned in
    strict mode; an integer literal decodes to [JInt], a literal with a
    fraction or an exponent to [JFloat]; the constants [NaN], [Infinity]
    and [-Infinity] are accepted; the last of several equal keys wins.
    Escapes [\uXXXX] are stored as the UTF-8 bytes of the code point.
    Nesting depth is not bounded here (CPython gives up beyond its
    recursion limit). *)
Module Json.

Definition ch (n : nat) : ascii := ascii_of_nat n.

Definition is_ws (c : ascii) : bool :=
  let n := nat_of_ascii c in
  (n =? 32) || (n =? 9) || (n =? 10) || (n =? 13).

Definition skip_ws (l : chars) : chars := drop_while is_ws l.

Definition is_digit (c : ascii) : bool :=
  let n := nat_of_ascii c in (48 <=? n) && (n <=? 57).

Definition digit_val (c : ascii) : Z := Z.of_nat (nat_of_ascii c - 48).

Fixpoint span_digits (l : chars) : chars * chars :=
  match l with
  | [] => ([], [])
  | c :: r =>
      if is_digit c
      then let (d, rest) := span_digits r in (c :: d, rest)
      else ([], l)
  end.

Definition digits_to_Z (d : chars) : Z :=
  fold_left (fun acc c => (acc * 10 + digit_val c)%Z) d 0%Z.

(** [NUMBER_RE]: an optional minus sign, then a single 0 or a nonzero
    digit followed by digits, then an optional fraction (a dot and at least
    one digit), then an optional exponent (e or E, an optional sign, at
    least one digit). *)
Definition scan_number (l : chars) : option (json * chars) :=
  let (neg, l1) :=
    match l with
    | c :: r => if Ascii.eqb c "-" then (true, r) else (false, l)
    | [] => (false, l)
    end in
  match l1 with
  | [] => None
  | c :: r1 =>
      if is_digit c then
        let (int_digits, l2) :=
          if Ascii.eqb c "0" then ([c], r1) else span_digits l1 in
        let (frac, l3) :=
          match l2 with
          | d :: r2 =>
              if Ascii.eqb d "." then
                match span_digits r2 with
                | ([], _) => ([], l2)
                | (fd, rest) => (fd, rest)
                end
              else ([], l2)
          | [] => ([], l2)
          end in
        let (expo, l4) :=
          match l3 with
          | e :: r3 =>
              if Ascii.eqb e "e" || Ascii.eqb e "E" then
                let (sgn, r4) :=
                  match r3 with
                  | s :: x =>
                      if Ascii.eqb s "-" then ((-1)%Z, x)
                      else if Ascii.eqb s "+" then (1%Z, x)
                      else (1%Z, r3)
                  | [] => (1%Z, r3)
                  end in
                match span_digits r4 with
                | ([], _) => (None, l3)
                | (ed, rest) => (Some (sgn * digits_to_Z ed)%Z, rest)
                end
              else (None, l3)
          | [] => (None, l3)
          end in
        let sign := if neg then (-1)%Z else 1%Z in
        match frac, expo with
        | [], None => Some (JInt (sign * digits_to_Z int_digits), l4)
        | _, _ =>
            let m := (sign * digits_to_Z (int_digits ++ frac))%Z in
            let e := (match expo with Some x => x | None => 0 end
                      - Z.of_nat (length frac))%Z in
            Some (JFloat (Dec m e), l4)
        end
      else None
  end.

Definition hex_val (c : ascii) : option N :=
  let n := N_of_ascii c in
  (if (48 <=? n) && (n <=? 57) then Some (n - 48)
   else if (97 <=? n) && (n <=? 102) then Some (n - 87)
   else if (65 <=? n) && (n <=? 70) then Some (n - 55)
   else None)%N.

Definition hex4 (a b c d : ascii) : option N :=
  match hex_val a, hex_val b, hex_val c, hex_val d with
  | Some x, Some y, Some z, Some w =>
      Some (((x * 16 + y) * 16 + z) * 16 + w)%N
  | _, _, _, _ => None
  end.

(** UTF-8 bytes of a code point (lone surrogates take the three-byte
    form). *)
Definition utf8 (cp : N) : chars :=
  let byte := ascii_of_N in
  (if cp <? 128 then [byte cp]
   else if cp <? 2048 then [byte (192 + cp / 64); byte (128 + cp mod 64)]
   else if cp <? 65536 then
     [byte (224 + cp / 4096); byte (128 + (cp / 64) mod 64);
      byte (128 + cp mod 64)]
   else
     [byte (240 + cp / 262144); byte (128 + (cp / 4096) mod 64);
      byte (128 + (cp / 64) mod 64); byte (128 + cp mod 64)])%N.

Definition is_high_surrogate (n : N) : bool :=
  ((55296 <=? n) && (n <=? 56319))%N.
Definition is_low_surrogate (n : N) : bool :=
  ((56320 <=? n) && (n <=? 57343))%N.

(** What follows a decoded high surrogate: a low surrogate escape joins it. *)
Definition join_surrogate (hi : N) (l : chars) : option (N * chars) :=
  match l with
  | b :: u :: h1 :: h2 :: h3 :: h4 :: rest =>
      if Ascii.eqb b "\" && Ascii.eqb u "u" then
        match hex4 h1 h2 h3 h4 with
        | Some lo =>
            if is_low_surrogate lo
            then Some (65536 + (hi - 55296) * 1024 + (lo - 56320), rest)%N
            else Some (hi, l)
        | None => None
        end
      else Some (hi, l)
  | _ => Some (hi, l)
  end.

(** [scanstring] in strict mode, entered after the opening quote; [acc]
    holds the decoded characters in reverse.  The fuel is the number of
    characters left, so it never runs out. *)
Fixpoint scan_string (fuel : nat) (l acc : chars) : option (string * chars) :=
  match fuel with
  | 0 => None
  | S fuel' =>
      match l with
      | [] => None
      | c :: r =>
          if Ascii.eqb c dq then Some (pack (rev acc), r)
          else if Ascii.eqb c "\" then
            match r with
            | [] => None
            | e :: r' =>
                let simple (x : ascii) := scan_string fuel' r' (x :: acc) in
                if Ascii.eqb e dq then simple dq
                else if Ascii.eqb e "\" then simple "\"%char
                else if Ascii.eqb e "/" then simple "/"%char
                else if Ascii.eqb e "b" then simple (ch 8)
                else if Ascii.eqb e "f" then simple (ch 12)
                else if Ascii.eqb e "n" then simple (ch 10)
                else if Ascii.eqb e "r" then simple (ch 13)
                else if Ascii.eqb e "t" then simple (ch 9)
                else if Ascii.eqb e "u" then
                  match r' with
                  | h1 :: h2 :: h3 :: h4 :: r'' =>
                      match hex4 h1 h2 h3 h4 with
                      | None => None
                      | Some cp =>
                          let next :=
                            if is_high_surrogate cp
                            then join_surrogate cp r''
                            else Some (cp, r'') in
                          match next with
                          | None => None
                          | Some (cp', rest) =>
                              scan_string fuel' rest (rev (utf8 cp') ++ acc)
                          end
                      end
                  | _ => None
                  end
                else None
            end
          else if nat_of_ascii c <? 32 then None
          else scan_string fuel' r (c :: acc)
      end
  end.

Inductive presult : Type :=
| POk (v : json) (rest : chars)
| PFail
| PFuel.

Definition literal (word : string) (v : json) (l : chars) : presult :=
  if startswith_l (unpack word) l
  then POk v (skipn (String.length word) l)
  else PFail.

(** [scan_once], [JSONObject] and [JSONArray]; every call spends one
    unit of fuel. *)
Fixpoint parse_value (fuel : nat) (l : chars) {struct fuel} : presult :=
  match fuel with
  | 0 => PFuel
  | S f =>
      match l with
      | [] => PFail
      | c :: r =>
          if Ascii.eqb c dq then
            match scan_string (length r) r [] with
            | Some (s, rest) => POk (JStr s) rest
            | None => PFail
            end
          else if Ascii.eqb c "{" then
            match skip_ws r with
            | [] => PFail
            | c1 :: r1 =>
                if Ascii.eqb c1 "}" then POk (JDict []) r1
                else parse_members f (c1 :: r1) []
            end
          else if Ascii.eqb c "[" then
            match skip_ws r with
            | [] => PFail
            | c1 :: r1 =>
                if Ascii.eqb c1 "]" then POk (JList []) r1
                else parse_elements f (c1 :: r1) []
            end
          else if Ascii.eqb c "n" then literal "null" JNull l
          else if Ascii.eqb c "t" then literal "true" (JBool true) l
          else if Ascii.eqb c "f" then literal "false" (JBool false) l
          else
            match scan_number l with
            | Some (v, rest) => POk v rest
            | None =>
                if Ascii.eqb c "N" then literal "NaN" (JFloat NaN) l
                else if Ascii.eqb c "I"
                then literal "Infinity" (JFloat (Inf false)) l
                else if Ascii.eqb c "-"
                then literal "-Infinity" (JFloat (Inf true)) l
                else PFail
            end
      end
  end

with parse_members (fuel : nat) (l : chars) (acc : Dict) {struct fuel}
  : presult :=
  match fuel with
  | 0 => PFuel
  | S f =>
      match l with
      | [] => PFail
      | c :: r =>
          if Ascii.eqb c dq then
            match scan_string (length r) r [] with
            | None => PFail
            | Some (key, r1) =>
                match skip_ws r1 with
                | [] => PFail
                | colon :: r2 =>
                    if Ascii.eqb colon ":" then
                      match parse_value f (skip_ws r2) with
                      | POk v r3 =>
                          let acc' := dict_set key v acc in
                          match skip_ws r3 with
                          | [] => PFail
                          | c4 :: r4 =>
                              if Ascii.eqb c4 "}" then POk (JDict acc') r4
                              else if Ascii.eqb c4 ","
                              then parse_members f (skip_ws r4) acc'
                              else PFail
                          end
                      | other => other
                      end
                    else PFail
                end
            end
          else PFail
      end
  end

with parse_elements (fuel : nat) (l : chars) (acc : list json) {struct fuel}
  : presult :=
  match fuel with
  | 0 => PFuel
  | S f =>
      match parse_value f l with
      | POk v r1 =>
          match skip_ws r1 with
          | [] => PFail
          | c2 :: r2 =>
              if Ascii.eqb c2 "]" then POk (JList (acc ++ [v])) r2
              else if Ascii.eqb c2 ","
              then parse_elements f (skip_ws r2) (acc ++ [v])
              else PFail
          end
      | other => other
      end
  end.

(** [json.loads(s)]: [None] stands for [JSONDecodeError].  Two units of
    fuel per character are enough for every text (see
    [json_loads_enough_fuel]). *)
Definition json_loads (s : string) : option json :=
  let l := skip_ws (unpack s) in
  match parse_value (2 * length l + 1) l with
  | POk v rest =>
      match skip_ws rest with
      | [] => Some v
      | _ :: _ => None
      end
  | _ => None
  end.

End Json.
Import Json.


(* ================================================================== *)
(** ** Python rendering of values: [str], [repr] and the [f] format *)
(* ================================================================== *)

Module PyFormat.

Definition digits (z : Z) : string := NilZero.string_of_int (Z.to_int z).

Definition zfill (width : nat) (s : string) : string :=
  pack (repeat "0"%char (width - String.length s) ++ unpack s).

(** Thousands separators of the [,] format option. *)
Fixpoint group3 (fuel : nat) (rev_digits : chars) : chars :=
  match fuel, rev_digits with
  | S f, a :: b :: c :: (_ :: _) as more =>
      a :: b :: c :: ","%char :: group3 f more
  | _, _ => rev_digits
  end.

Definition with_commas (int_digits : string) : string :=
  let l := unpack int_digits in
  pack (rev (group3 (length l) (rev l))).

(** Rounding of [n / d] to the nearest integer, ties to even. *)
Definition div_half_even (n d : Z) : Z :=
  let quo := (n / d)%Z in
  let r := (n mod d)%Z in
  if (2 * r <? d)%Z then quo
  else if (d <? 2 * r)%Z then (quo + 1)%Z
  else if Z.even quo then quo else (quo + 1)%Z.

(** [format(m * 10^e, ".<precision>f")] with optional grouping. *)
Definition fixed (precision : nat) (grouping : bool) (m e : Z) : string :=
  let k := (e + Z.of_nat precision)%Z in
  let scaled :=
    if (0 <=? k)%Z then (Z.abs m * 10 ^ k)%Z
    else div_half_even (Z.abs m) (10 ^ (- k))%Z in
  let unit := (10 ^ Z.of_nat precision)%Z in
  let int_part := digits (scaled / unit) in
  let int_part := if grouping then with_commas int_part else int_part in
  let frac_part :=
    match precision with
    | 0 => ""
    | _ => String "."%char (zfill precision (digits (scaled mod unit)))
    end in
  ((if (m <? 0)%Z then "-" else "") ++ int_part ++ frac_part)%string.

(** [format(v, "[,].<precision>f")]: numbers and booleans are rendered,
    every other value makes the format raise. *)
Definition format_f (precision : nat) (grouping : bool) (v : json)
  : PyResult string :=
  match v with
  | JInt z => Ok (fixed precision grouping z 0)
  | JBool b => Ok (fixed precision grouping (if b then 1 else 0)%Z 0)
  | JFloat (Dec m e) => Ok (fixed precision grouping m e)
  | JFloat NaN => Ok "nan"
  | JFloat (Inf neg) => Ok (if neg then "-inf" else "inf")
  | JStr _ => Raise "Unknown format code 'f' for object of type 'str'"
  | JNull => Raise "unsupported format string passed to NoneType.__format__"
  | JList _ => Raise "unsupported format string passed to list.__format__"
  | JDict _ => Raise "unsupported format string passed to dict.__format__"
  end.

Fixpoint rstrip_zeros (rev_digits : chars) : chars :=
  match rev_digits with
  | c :: r => if Ascii.eqb c "0" then rstrip_zeros r else rev_digits
  | [] => []
  end.

(** [repr] of a float, in positional notation (the exponent notation
    Python switches to for very large or very small values is not
    reproduced). *)
Definition float_repr (f : pyfloat) : string :=
  match f with
  | NaN => "nan"
  | Inf neg => if neg then "-inf" else "inf"
  | Dec m e =>
      let sign := if (m <? 0)%Z then "-" else "" in
      if (0 <=? e)%Z then (sign ++ digits (Z.abs m * 10 ^ e) ++ ".0")%string
      else
        let unit := (10 ^ (- e))%Z in
        let frac := zfill (Z.to_nat (- e)) (digits (Z.abs m mod unit)) in
        let frac := pack (rev (rstrip_zeros (rev (unpack frac)))) in
        (sign ++ digits (Z.abs m / unit) ++ "."
              ++ (if is_empty frac then "0" else frac))%string
  end.

(** [repr] of a string: apostrophes around it, unless it holds an
    apostrophe and no double quote; backslash, the quote and the usual
    control characters are escaped. *)
Definition str_repr (s : string) : string :=
  let l := unpack s in
  let has c := existsb (Ascii.eqb c) l in
  let quote := if has "'"%char && negb (has dq) then dq else "'"%char in
  let esc (c : ascii) : chars :=
    if Ascii.eqb c "\" then ["\"; "\"]%char
    else if Ascii.eqb c quote then ["\"%char; c]
    else if Ascii.eqb c nl then ["\"; "n"]%char
    else if Ascii.eqb c (ascii_of_nat 13) then ["\"; "r"]%char
    else if Ascii.eqb c (ascii_of_nat 9) then ["\"; "t"]%char
    else [c] in
  pack (quote :: flat_map esc l ++ [quote]).

Fixpoint py_repr (v : json) : string :=
  match v with
  | JNull => "None"
  | JBool b => if b then "True" else "False"
  | JInt z => digits z
  | JFloat f => float_repr f
  | JStr s => str_repr s
  | JList l => ("[" ++ String.concat ", " (map py_repr l) ++ "]")%string
  | JDict d =>
      ("{" ++ String.concat ", "
                (map (fun kv => (str_repr (fst kv) ++ ": " ++ py_repr (snd kv))%string) d)
           ++ "}")%string
  end.

(** [str(v)], what an f-string placeholder without format renders. *)
Definition py_str (v : json) : string :=
  match v with
  | JStr s => s
  | _ => py_repr v
  end.

End PyFormat.
Import PyFormat.

(* ================================================================== *)
(** ** The response normalizer ([clean_json_response], [parse_llm_json]) *)
(* ================================================================== *)

Definition fence : chars := unpack "```".

Definition chars_eq_dec : forall a b : chars, {a = b} + {a <> b} :=
  list_eq_dec ascii_dec.

(** [re.search(r'\{.*\}', text, re.DOTALL)]: the match starts at the first
    opening brace and, being greedy, ends at the last closing brace after
    it; there is a match exactly when such a closing brace exists. *)
Definition re_search_braces (response_text : chars) : option chars :=
  match drop_while (fun c => negb (Ascii.eqb c "{")) response_text with
  | [] => None
  | open :: tail =>
      match drop_while (fun c => negb (Ascii.eqb c "}")) (rev tail) with
      | [] => None
      | rev_body => Some (open :: rev rev_body)
      end
  end.

(** The body of [clean_json_response], on the characters of the text.  The
    same function is repeated verbatim in [utils/__init__.py] and in the
    three agents that decode a completion. *)
Definition clean_chars (response_text : chars) : chars :=
  let response_text := strip_l response_text in
  let response_text :=
    if startswith_l fence response_text then
      let lines := split_l nl response_text in
      let lines :=
        if startswith_l fence (hd [] lines) then tl lines else lines in
      let lines :=
        match lines with
        | [] => lines
        | _ :: _ =>
            if chars_eq_dec (strip_l (last lines [])) fence
            then removelast lines else lines
        end in
      strip_l (join_l [nl] lines)
    else response_text in
  match re_search_braces response_text with
  | Some json_match => json_match
  | None => response_text
  end.

Definition clean_json_response (response_text : string) : string :=
  pack (clean_chars (unpack response_text)).


(** The [try: json.loads(clean_json_response(text)) except ...: fallback]
    block of the three agents. *)
Definition loads_or (response_text : string) (fallback : Dict) : json :=
  match json_loads (clean_json_response response_text) with
  | Some v => v
  | None => JDict fallback
  end.

(* ================================================================== *)
(** ** The shared state ([graph/state.py]) and its reducers *)
(* ================================================================== *)

Record Message : Type := { role : string; content : string }.

Record PlanContext : Type := {
  user_intent : string;
  time_sensitivity : string
}.

(** The dictionary built by the coordinator. *)
Record AnalysisPlan : Type := {
  plan_ticker : string;
  perform_financial_analysis : bool;
  perform_sentiment_analysis : bool;
  focus_areas : list string;
  plan_context : PlanContext
}.

(** [InvestmentState]: every key is present from the initial state on;
    [None] is Python's [None]. *)
Record InvestmentState : Type := {
  ticker : string;
  user_query : string;
  analysis_plan : option AnalysisPlan;
  financial_analysis : option Dict;
  sentiment_analysis : option Dict;
  recommendation : option json;
  confidence : option json;
  reasoning : option json;
  messages : list Message;
  errors : list string
}.

Definition set_sentiment_analysis (s : InvestmentState) (v : option Dict) :=
  {| ticker := ticker s; user_query := user_query s;
     analysis_plan := analysis_plan s;
     financial_analysis := financial_analysis s;
     sentiment_analysis := v;
     recommendation := recommendation s; confidence := confidence s;
     reasoning := reasoning s; messages := messages s; errors := errors s |}.

Definition set_recommendation (s : InvestmentState) (v : option json) :=
  {| ticker := ticker s; user_query := user_query s;
     analysis_plan := analysis_plan s;
     financial_analysis := financial_analysis s;
     sentiment_analysis := sentiment_analysis s;
     recommendation := v; confidence := confidence s;
     reasoning := reasoning s; messages := messages s; errors := errors s |}.

Definition set_confidence (s : InvestmentState) (v : option json) :=
  {| ticker := ticker s; user_query := user_query s;
     analysis_plan := analysis_plan s;
     financial_analysis := financial_analysis s;
     sentiment_analysis := sentiment_analysis s;
     recommendation := recommendation s; confidence := v;
     reasoning := reasoning s; messages := messages s; errors := errors s |}.

Definition set_reasoning (s : InvestmentState) (v : option json) :=
  {| ticker := ticker s; user_query := user_query s;
     analysis_plan := analysis_plan s;
     financial_analysis := financial_analysis s;
     sentiment_analysis := sentiment_analysis s;
     recommendation := recommendation s; confidence := confidence s;
     reasoning := v; messages := messages s; errors := errors s |}.

Definition set_messages (s : InvestmentState) (v : list Message) :=
  {| ticker := ticker s; user_query := user_query s;
     analysis_plan := analysis_plan s;
     financial_analysis := financial_analysis s;
     sentiment_analysis := sentiment_analysis s;
     recommendation := recommendation s; confidence := confidence s;
     reasoning := reasoning s; messages := v; errors := errors s |}.

Definition set_errors (s : InvestmentState) (v : list string) :=
  {| ticker := ticker s; user_query := user_query s;
     analysis_plan := analysis_plan s;
     financial_analysis := financial_analysis s;
     sentiment_analysis := sentiment_analysis s;
     recommendation := recommendation s; confidence := confidence s;
     reasoning := reasoning s; messages := messages s; errors := v |}.

(** The dictionary a stage hands back to the graph: [None] for a key the
    dictionary does not hold. *)
Record Update : Type := {
  u_ticker : option string;
  u_user_query : option string;
  u_analysis_plan : option (option AnalysisPlan);
  u_financial_analysis : option (option Dict);
  u_sentiment_analysis : option (option Dict);
  u_recommendation : option (option json);
  u_confidence : option (option json);
  u_reasoning : option (option json);
  u_messages : option (list Message);
  u_errors : option (list string)
}.

Definition no_update : Update :=
  {| u_ticker := None; u_user_query := None; u_analysis_plan := None;
     u_financial_analysis := None; u_sentiment_analysis := None;
     u_recommendation := None; u_confidence := None; u_reasoning := None;
     u_messages := None; u_errors := None |}.

(** [return state]: the whole state dictionary is handed back. *)
Definition whole (s : InvestmentState) : Update :=
  {| u_ticker := Some (ticker s); u_user_query := Some (user_query s);
     u_analysis_plan := Some (analysis_plan s);
     u_financial_analysis := Some (financial_analysis s);
     u_sentiment_analysis := Some (sentiment_analysis s);
     u_recommendation := Some (recommendation s);
     u_confidence := Some (confidence s);
     u_reasoning := Some (reasoning s);
     u_messages := Some (messages s); u_errors := Some (errors s) |}.

Definition or_else {A : Type} (o : option A) (d : A) : A :=
  match o with Some v => v | None => d end.

(** How the graph folds a returned dictionary into the state:
    [messages] and [errors] are declared [Annotated[List[...], add]], so
    the returned list is appended to the current one ([operator.add]);
    every other key takes the returned value. *)
Definition apply_update (s : InvestmentState) (u : Update) : InvestmentState :=
  {| ticker := or_else (u_ticker u) (ticker s);
     user_query := or_else (u_user_query u) (user_query s);
     analysis_plan := or_else (u_analysis_plan u) (analysis_plan s);
     financial_analysis := or_else (u_financial_analysis u) (financial_analysis s);
     sentiment_analysis := or_else (u_sentiment_analysis u) (sentiment_analysis s);
     recommendation := or_else (u_recommendation u) (recommendation s);
     confidence := or_else (u_confidence u) (confidence s);
     reasoning := or_else (u_reasoning u) (reasoning s);
     messages := messages s ++ or_else (u_messages u) [];
     errors := errors s ++ or_else (u_errors u) [] |}.

(** [initial_state] of [run_analysis] in [main.py]. *)
Definition initial_state (ticker_arg : string) (user_query_arg : string)
  : InvestmentState :=
  let user_query_arg :=
    if is_empty user_query_arg
    then fstring ["Should I invest in "; ticker_arg; "?"]
    else user_query_arg in
  {| ticker := upper ticker_arg; user_query := user_query_arg;
     analysis_plan := None; financial_analysis := None;
     sentiment_analysis := None; recommendation := None;
     confidence := None; reasoning := None;
     messages := []; errors := [] |}.

(* ================================================================== *)
(** ** Collaborators and the effects of a stage *)
(* ================================================================== *)

(** What [MarketDataMCP.fetch_data] returns. *)
Record MarketData : Type := {
  md_success : bool;
  md_error : option string;
  md_info : option Dict;
  md_history : option Dict;
  md_fundamentals : option Dict
}.

(** What [NewsMCP.fetch_data] returns. *)
Record NewsData : Type := {
  nd_success : bool;
  nd_error : option string;
  nd_articles : list Dict
}.

(** The outside world: the data behind yfinance, the news wrapper and the
    completion service.  Each is a function of its request; [Raise] is an
    exception coming out of the call. *)
Record Env : Type := {
  yfinance : string -> PyResult (Dict * Dict * Dict);
  news : string -> json -> PyResult NewsData;
  completion : string -> PyResult string
}.

(** Collaborator calls, in the order they are made. *)
Inductive Call : Type :=
| CallMarketData (ticker_arg : string)
| CallNews (ticker_arg : string) (company_name : json)
| CallCompletion (prompt : string).


(** A stage body: it reads and rebinds keys of the state dictionary, calls
    collaborators and may raise; the state reached when an exception is
    raised is the one the handler sees. *)
Record Run (A : Type) : Type := {
  calls : list Call;
  final : InvestmentState;
  outcome : PyResult A
}.

Definition M (A : Type) : Type := InvestmentState -> Run A.

Definition ret {A : Type} (a : A) : M A :=
  fun s => {| calls := []; final := s; outcome := Ok a |}.

Definition bind {A B : Type} (m : M A) (k : A -> M B) : M B :=
  fun s =>
    match m s with
    | {| calls := c; final := s'; outcome := Ok a |} =>
        match k a s' with
        | {| calls := c'; final := s''; outcome := o |} =>
            {| calls := c ++ c'; final := s''; outcome := o |}
        end
    | {| calls := c; final := s'; outcome := Raise e |} =>
        {| calls := c; final := s'; outcome := Raise e |}
    end.

Definition lift {A : Type} (r : PyResult A) : M A :=
  fun s => {| calls := []; final := s; outcome := r |}.

Definition get_state : M InvestmentState :=
  fun s => {| calls := []; final := s; outcome := Ok s |}.

Definition assign (f : InvestmentState -> InvestmentState) : M unit :=
  fun s => {| calls := []; final := f s; outcome := Ok tt |}.

Definition call {A : Type} (c : Call) (r : PyResult A) : M A :=
  fun s => {| calls := [c]; final := s; outcome := r |}.

Declare Scope py_scope.
Delimit Scope py_scope with py.
Notation "x <- m ;; k" := (bind m (fun x => k))
  (at level 61, m at next level, right associativity) : py_scope.
Notation "m ;;; k" := (bind m (fun _ => k))
  (at level 61, right associativity) : py_scope.

(** The result of one stage invocation: the calls made and the dictionary
    returned to the graph ([Raise]: an exception left the stage). *)
Record StageRun : Type := {
  made : list Call;
  returned : PyResult Update
}.

Definition pret {A : Type} (a : A) : PyResult A := Ok a.

Definition pbind {A B : Type} (r : PyResult A) (k : A -> PyResult B)
  : PyResult B :=
  match r with
  | Ok a => k a
  | Raise e => Raise e
  end.

Declare Scope pyres_scope.
Delimit Scope pyres_scope with pyres.
Notation "x <- m ;; k" := (pbind m (fun x => k))
  (at level 61, m at next level, right associativity) : pyres_scope.

Definition type_name (v : json) : string :=
  match v with
  | JNull => "NoneType"
  | JBool _ => "bool"
  | JInt _ => "int"
  | JFloat _ => "float"
  | JStr _ => "str"
  | JList _ => "list"
  | JDict _ => "dict"
  end.

(** [v.get(k, default)] on a decoded value: only a dictionary has [get]. *)
Definition py_get (v : json) (k : string) (default : json) : PyResult json :=
  match v with
  | JDict d => Ok (dict_get_default k default d)
  | _ => Raise (fstring ["'"; type_name v; "' object has no attribute 'get'"])
  end.

(** [v[k] = x] with a string key. *)
Definition py_setitem (v : json) (k : string) (x : json) : PyResult Dict :=
  match v with
  | JDict d => Ok (dict_set k x d)
  | JList _ => Raise "list indices must be integers or slices, not str"
  | _ => Raise (fstring ["'"; type_name v;
                         "' object does not support item assignment"])
  end.

(** [plan.get(...)] when the state holds no plan. *)
Definition none_has_no_get : string :=
  "'NoneType' object has no attribute 'get'".

(* ================================================================== *)
(** ** The planner stage ([agents/coordinator.py]) *)
(* ================================================================== *)

(** [any(word in query_lower for word in words)] *)
Definition any_in (words : list string) (query_lower : string) : bool :=
  existsb (fun word => contains word query_lower) words.

Definition _determine_focus_areas (user_query : string) : list string :=
  let query_lower := lower user_query in
  let focus_areas := [] in
  let focus_areas :=
    if any_in ["risk"; "risky"; "safe"; "volatile"; "volatility"] query_lower
    then focus_areas ++ ["risk_assessment"] else focus_areas in
  let focus_areas :=
    if any_in ["value"; "fundamental"; "earnings"; "revenue"; "profit"] query_lower
    then focus_areas ++ ["fundamentals"] else focus_areas in
  let focus_areas :=
    if any_in ["price"; "trend"; "momentum"; "technical"; "chart"] query_lower
    then focus_areas ++ ["technical"] else focus_areas in
  let focus_areas :=
    if any_in ["news"; "sentiment"; "recent"; "latest"; "happening"] query_lower
    then focus_areas ++ ["news_sentiment"] else focus_areas in
  match focus_areas with
  | [] => ["comprehensive"]
  | _ :: _ => focus_areas
  end.

Definition buy_words : list string := ["buy"; "invest"; "purchase"; "should i get"].
Definition sell_words : list string := ["sell"; "exit"; "dump"; "get out"].
Definition hold_words : list string := ["hold"; "keep"; "maintain"; "stay in"].

Definition _classify_user_intent (user_query : string) : string :=
  let query_lower := lower user_query in
  if any_in buy_words query_lower then "buy_decision"
  else if any_in sell_words query_lower then "sell_decision"
  else if any_in hold_words query_lower then "hold_decision"
  else "research".

Definition _assess_time_sensitivity (user_query : string) : string :=
  let query_lower := lower user_query in
  let urgent_keywords :=
    ["today"; "now"; "urgent"; "immediate"; "asap"; "quick"; "right now"] in
  if any_in urgent_keywords query_lower then "urgent" else "normal".

Definition coordinator_agent (state : InvestmentState) : Update :=
  let ticker := strip (upper (ticker state)) in
  let user_query := user_query state in
  if is_empty ticker then
    let state := set_errors state (errors state ++ ["No ticker provided"]) in
    whole state
  else
    let analysis_plan :=
      {| plan_ticker := ticker;
         perform_financial_analysis := true;
         perform_sentiment_analysis := true;
         focus_areas := _determine_focus_areas user_query;
         plan_context :=
           {| user_intent := _classify_user_intent user_query;
              time_sensitivity := _assess_time_sensitivity user_query |} |} in
    let message :=
      {| role := "coordinator";
         content := fstring ["Planning analysis for "; ticker; ". Focus: ";
                             String.concat ", " (focus_areas analysis_plan)] |} in
    {| u_ticker := None; u_user_query := None;
       u_analysis_plan := Some (Some analysis_plan);
       u_financial_analysis := None; u_sentiment_analysis := None;
       u_recommendation := None; u_confidence := None; u_reasoning := None;
       u_messages := Some [message]; u_errors := None |}.


(* ================================================================== *)
(** ** The fundamentals stage ([agents/financial_agent.py]) *)
(* ================================================================== *)

Definition nls : string := String nl "".

(** [str(d.get(k, default))] inside an f-string. *)
Definition shown (d : Dict) (k : string) (default : json) : string :=
  py_str (dict_get_default k default d).

Definition opt_str (o : option string) : string :=
  match o with Some s => s | None => "None" end.

(** [BaseMCP.handle_error] *)
Definition handle_error (error : string) : MarketData :=
  {| md_success := false; md_error := Some error;
     md_info := None; md_history := None; md_fundamentals := None |}.

(** [MarketDataMCP.fetch_data(ticker, data_type="all", period="1y")]: the
    ticker check of the wrapper, then the yfinance-backed loading; every
    exception comes back as a failure dictionary. *)
Definition MarketDataMCP_fetch_data (env : Env) (ticker : string) : MarketData :=
  if is_empty ticker then handle_error "Ticker must be a non-empty string"
  else
    match yfinance env (upper ticker) with
    | Ok (info, history, fundamentals) =>
        {| md_success := true; md_error := None;
           md_info := Some info; md_history := Some history;
           md_fundamentals := Some fundamentals |}
    | Raise e => handle_error e
    end.

Definition na : json := JStr "N/A".
Definition unknown : json := JStr "Unknown".

Definition _build_analysis_prompt (ticker : string)
  (fundamentals history info : Dict) (plan : option AnalysisPlan)
  : PyResult string :=
  (plan <- match plan with
           | Some p => Ok p
           | None => Raise none_has_no_get
           end;;
   let focus_areas := focus_areas plan in
   market_cap <- format_f 0 true (dict_get_default "market_cap" (JInt 0) info);;
   Ok (fstring [
"You are a financial analyst. Analyze the following data for "; ticker;
" ("; shown info "company_name" unknown; ").

COMPANY INFO:
- Sector: "; shown info "sector" unknown; "
- Industry: "; shown info "industry" unknown; "
- Market Cap: $"; market_cap; "

FUNDAMENTAL METRICS:
- P/E Ratio: "; shown fundamentals "pe_ratio" na; "
- Forward P/E: "; shown fundamentals "forward_pe" na; "
- Profit Margin: "; shown fundamentals "profit_margin" na; "
- Revenue Growth: "; shown fundamentals "revenue_growth" na; "
- Earnings Growth: "; shown fundamentals "earnings_growth" na; "
- Debt-to-Equity: "; shown fundamentals "debt_to_equity" na; "
- ROE: "; shown fundamentals "roe" na; "
- Beta: "; shown fundamentals "beta" na; "

TECHNICAL INDICATORS:
- Current Price: $"; shown history "current_price" na; "
- 50-day MA: $"; shown history "ma_50" na; "
- 200-day MA: $"; shown history "ma_200" na; "
- RSI: "; shown history "rsi" na; "
- 52-week High: $"; shown history "52_week_high" na; "
- 52-week Low: $"; shown history "52_week_low" na; "
- 1-month change: "; shown history "price_change_1m" na; "%
- 3-month change: "; shown history "price_change_3m" na; "%
- Volatility (annualized): "; shown history "volatility" na; "%

FOCUS AREAS: "; String.concat ", " focus_areas; q "

Provide your analysis ONLY as a JSON object (no markdown, no code blocks):
{
    'fundamentals_summary': 'Brief summary of fundamental strength/weakness',
    'technical_summary': 'Brief summary of technical indicators and price action',
    'assessment': 'Overall financial assessment (2-3 sentences)',
    'strengths': ['strength 1', 'strength 2', 'strength 3'],
    'concerns': ['concern 1', 'concern 2', 'concern 3'],
    'valuation': 'Overvalued/Fairly Valued/Undervalued',
    'trend': 'Upward/Downward/Sideways'
}

IMPORTANT: Return ONLY the JSON object. No explanations, no markdown code blocks, just the raw JSON.

Be concise, factual, and balanced. Consider both bull and bear cases.
"]))%pyres.

Definition financial_fallback (response_text : string) : Dict :=
  [("fundamentals_summary", JStr (slice_to 500 response_text));
   ("technical_summary", JStr "See fundamentals summary");
   ("assessment", JStr (slice_to 500 response_text));
   ("strengths", JList []);
   ("concerns", JList []);
   ("valuation", JStr "Unknown");
   ("trend", JStr "Unknown")].

(** The [try] block of [financial_agent]; its value is the dictionary
    returned. *)
Definition financial_try (env : Env) : M Update :=
  (state <- get_state;;
   let ticker := ticker state in
   let analysis_plan := analysis_plan state in
   market_data <- call (CallMarketData ticker)
                       (Ok (MarketDataMCP_fetch_data env ticker));;
   if negb (md_success market_data) then
     let error_msg :=
       fstring ["Failed to fetch market data: "; opt_str (md_error market_data)] in
     assign (fun state => set_errors state (errors state ++ [error_msg]));;;
     state <- get_state;;
     ret (whole state)
   else
     let fundamentals := or_else (md_fundamentals market_data) [] in
     let history := or_else (md_history market_data) [] in
     let info := or_else (md_info market_data) [] in
     prompt <- lift (_build_analysis_prompt ticker fundamentals history info
                                            analysis_plan);;
     response_text <- call (CallCompletion prompt) (completion env prompt);;
     let analysis := loads_or response_text (financial_fallback response_text) in
     analysis <- lift (py_setitem analysis "raw_data"
                         (JDict [("fundamentals", JDict fundamentals);
                                 ("technical", JDict history);
                                 ("company_info", JDict info)]));;
     let message :=
       {| role := "financial_agent";
          content := fstring ["Completed financial analysis for "; ticker] |} in
     ret {| u_ticker := None; u_user_query := None; u_analysis_plan := None;
            u_financial_analysis := Some (Some analysis);
            u_sentiment_analysis := None;
            u_recommendation := None; u_confidence := None;
            u_reasoning := None;
            u_messages := Some [message]; u_errors := None |})%py.

(** A dictionary holding only [errors]. *)
Definition errors_only (es : list string) : Update :=
  {| u_ticker := None; u_user_query := None; u_analysis_plan := None;
     u_financial_analysis := None; u_sentiment_analysis := None;
     u_recommendation := None; u_confidence := None; u_reasoning := None;
     u_messages := None; u_errors := Some es |}.

Definition financial_agent (env : Env) (state : InvestmentState) : StageRun :=
  match financial_try env state with
  | {| calls := c; final := state; outcome := Ok result |} =>
      {| made := c; returned := Ok result |}
  | {| calls := c; final := state; outcome := Raise e |} =>
      let error_msg := fstring ["Financial agent error: "; e] in
      {| made := c; returned := Ok (errors_only (errors state ++ [error_msg])) |}
  end.

(* ================================================================== *)
(** ** The sentiment stage ([agents/sentiment_agent.py]) *)
(* ================================================================== *)

Fixpoint enumerate {A : Type} (i : nat) (l : list A) : list (nat * A) :=
  match l with
  | [] => []
  | x :: r => (i, x) :: enumerate (S i) r
  end.

Definition _build_sentiment_prompt (ticker : string) (articles : list Dict)
  (plan : option AnalysisPlan) : PyResult string :=
  let top_articles := firstn 20 articles in
  let articles_text :=
    String.concat (nls ++ nls)%string
      (map (fun ia : nat * Dict =>
              let (i, article) := ia in
              fstring ["Article "; digits (Z.of_nat (i + 1)); ":"; nls;
                       "Title: "; shown article "title" (JStr "No title"); nls;
                       "Source: "; shown article "source" unknown; nls;
                       "Date: "; shown article "published_at" unknown; nls;
                       "Description: ";
                       shown article "description" (JStr "No description")])
           (enumerate 0 top_articles)) in
  (plan <- match plan with
           | Some p => Ok p
           | None => Raise none_has_no_get
           end;;
   let focus_areas := focus_areas plan in
   Ok (fstring [
"You are a market sentiment analyst. Analyze the following news articles about ";
ticker; ".

ARTICLES TO ANALYZE ("; digits (Z.of_nat (length top_articles)); " most recent):

"; articles_text; "

FOCUS AREAS: "; String.concat ", " focus_areas; q "

Based on these articles, provide sentiment analysis ONLY as a JSON object (no markdown, no code blocks):
{
    'sentiment_score': 0.5,
    'overall_mood': 'Bullish',
    'key_themes': ['theme 1', 'theme 2', 'theme 3'],
    'catalysts': ['positive factor 1', 'positive factor 2'],
    'concerns': ['negative factor 1', 'negative factor 2'],
    'summary': '2-3 sentence summary of overall sentiment and why'
}

IMPORTANT: Return ONLY the JSON object. No explanations, no markdown code blocks, just the raw JSON.

Consider:
- Tone of headlines and content (positive vs negative)
- Recurring themes across articles
- Recent events or announcements
- Market reactions mentioned
- Analyst opinions cited

Be balanced and factual. Distinguish between hype and substance.
"]))%pyres.

(** The record of the zero-article path. *)
Definition no_news_analysis : Dict :=
  [("sentiment_score", half);
   ("article_count", JInt 0);
   ("key_themes", JList []);
   ("overall_mood", JStr "Neutral");
   ("concerns", JList [JStr "No recent news coverage found"]);
   ("catalysts", JList []);
   ("summary", JStr "Insufficient news data to determine sentiment")].

Definition sentiment_fallback (total_articles : nat) (response_text : string)
  : Dict :=
  [("sentiment_score", half);
   ("article_count", JInt (Z.of_nat total_articles));
   ("key_themes", JList []);
   ("overall_mood", JStr "Neutral");
   ("concerns", JList []);
   ("catalysts", JList []);
   ("summary", JStr (slice_to 500 response_text))].

(** The company name read from the fundamentals record, before the [try]
    block: an exception here leaves the stage. *)
Definition company_name_of (state : InvestmentState) : PyResult json :=
  if present (financial_analysis state) then
    (let raw_data :=
       dict_get_default "raw_data" (JDict []) (or_else (financial_analysis state) []) in
     company_info <- py_get raw_data "company_info" (JDict []);;
     py_get company_info "company_name" JNull)%pyres
  else Ok JNull.

(** The [try] block of [sentiment_agent]. *)
Definition sentiment_try (env : Env) (company_name : json) : M Update :=
  (state <- get_state;;
   let ticker := ticker state in
   let analysis_plan := analysis_plan state in
   news_data <- call (CallNews ticker company_name)
                     (news env ticker company_name);;
   if negb (nd_success news_data) then
     let error_msg :=
       fstring ["Failed to fetch news: "; opt_str (nd_error news_data)] in
     assign (fun state => set_errors state (errors state ++ [error_msg]));;;
     state <- get_state;;
     ret (whole state)
   else
     let articles := nd_articles news_data in
     let total_articles := length articles in
     if total_articles =? 0 then
       assign (fun state => set_sentiment_analysis state (Some no_news_analysis));;;
       let message :=
         {| role := "sentiment_agent";
            content := fstring ["No news articles found for "; ticker] |} in
       assign (fun state => set_messages state (messages state ++ [message]));;;
       state <- get_state;;
       ret (whole state)
     else
       prompt <- lift (_build_sentiment_prompt ticker articles analysis_plan);;
       response_text <- call (CallCompletion prompt) (completion env prompt);;
       let analysis :=
         loads_or response_text (sentiment_fallback total_articles response_text) in
       analysis <- lift (py_setitem analysis "article_count"
                                    (JInt (Z.of_nat total_articles)));;
       let analysis :=
         dict_set "sample_articles" (JList (map JDict (firstn 5 articles)))
                  analysis in
       let message :=
         {| role := "sentiment_agent";
            content := fstring ["Analyzed "; digits (Z.of_nat total_articles);
                                " articles for "; ticker; ". Mood: ";
                                shown analysis "overall_mood" unknown] |} in
       ret {| u_ticker := None; u_user_query := None; u_analysis_plan := None;
              u_financial_analysis := None;
              u_sentiment_analysis := Some (Some analysis);
              u_recommendation := None; u_confidence := None;
              u_reasoning := None;
              u_messages := Some [message]; u_errors := None |})%py.

Definition sentiment_agent (env : Env) (state : InvestmentState) : StageRun :=
  match company_name_of state with
  | Raise e => {| made := []; returned := Raise e |}
  | Ok company_name =>
      match sentiment_try env company_name state with
      | {| calls := c; final := state; outcome := Ok result |} =>
          {| made := c; returned := Ok result |}
      | {| calls := c; final := state; outcome := Raise e |} =>
          let error_msg := fstring ["Sentiment agent error: "; e] in
          {| made := c;
             returned := Ok (errors_only (errors state ++ [error_msg])) |}
      end
  end.

(* ================================================================== *)
(** ** The synthesis stage ([agents/synthesizer.py]) *)
(* ================================================================== *)

(** [chr(10).join(f"- {s}" for s in v[:n])]: a list or a string can be
    sliced, any other value makes the slice raise (for a dictionary the
    text of the exception is that of CPython before 3.12). *)
Definition bullets (v : json) (n : nat) : PyResult string :=
  let render (items : list string) :=
    String.concat nls (map (fun s => fstring ["- "; s]) items) in
  match v with
  | JList l => Ok (render (map py_str (firstn n l)))
  | JStr s => Ok (render (map (fun c => String c "") (firstn n (unpack s))))
  | JDict _ => Raise "unhashable type: 'slice'"
  | _ => Raise (fstring ["'"; type_name v; "' object is not subscriptable"])
  end.

Definition _build_synthesis_prompt (ticker user_query : string)
  (financial_analysis sentiment_analysis : Dict) (plan : option AnalysisPlan)
  : PyResult string :=
  let fin_assessment :=
    dict_get_default "assessment" (JStr "No assessment") financial_analysis in
  let fin_strengths := dict_get_default "strengths" (JList []) financial_analysis in
  let fin_concerns := dict_get_default "concerns" (JList []) financial_analysis in
  let fin_valuation := dict_get_default "valuation" unknown financial_analysis in
  let fin_trend := dict_get_default "trend" unknown financial_analysis in
  let sent_score := dict_get_default "sentiment_score" half sentiment_analysis in
  let sent_mood := dict_get_default "overall_mood" (JStr "Neutral") sentiment_analysis in
  let sent_themes := dict_get_default "key_themes" (JList []) sentiment_analysis in
  let sent_catalysts := dict_get_default "catalysts" (JList []) sentiment_analysis in
  let sent_concerns := dict_get_default "concerns" (JList []) sentiment_analysis in
  (plan <- match plan with
           | Some p => Ok p
           | None => Raise none_has_no_get
           end;;
   let user_intent := user_intent (plan_context plan) in
   strengths <- bullets fin_strengths 5;;
   concerns <- bullets fin_concerns 5;;
   score <- format_f 2 false sent_score;;
   themes <- bullets sent_themes 5;;
   catalysts <- bullets sent_catalysts 3;;
   news_concerns <- bullets sent_concerns 3;;
   Ok (fstring [
"You are an investment advisor synthesizing analysis for "; ticker; ".

USER QUESTION: "; String dq ""; user_query; String dq ""; "
USER INTENT: "; user_intent; "

FINANCIAL ANALYSIS:
Assessment: "; py_str fin_assessment; "
Valuation: "; py_str fin_valuation; "
Price Trend: "; py_str fin_trend; "

Strengths:
"; strengths; "

Concerns:
"; concerns; "

SENTIMENT ANALYSIS:
Overall Mood: "; py_str sent_mood; "
Sentiment Score: "; score; " (0=very negative, 1=very positive)

Key Themes:
"; themes; "

Positive Catalysts:
"; catalysts; "

Concerns from News:
"; news_concerns; q "

Provide your final investment recommendation ONLY as a JSON object (no markdown, no code blocks):
{
    'action': 'BUY',
    'confidence': 0.75,
    'reasoning': '3-4 sentence explanation addressing both bull and bear cases',
    'risk_level': 'Medium',
    'time_horizon': 'Long-term (1+ years)',
    'key_factors': ['factor 1', 'factor 2', 'factor 3'],
    'entry_strategy': 'Dollar-cost average over 3 months',
    'watch_for': ['risk 1 to monitor', 'risk 2 to monitor']
}

IMPORTANT: Return ONLY the JSON object. No explanations, no markdown code blocks, just the raw JSON.

DECISION GUIDELINES:
- BUY: Strong fundamentals + positive sentiment, or significantly undervalued
- HOLD: Mixed signals, fairly valued, or insufficient conviction either way  
- SELL: Weak fundamentals + negative sentiment, or significantly overvalued

- Confidence >0.7: Strong conviction with aligned signals
- Confidence 0.5-0.7: Moderate conviction, some conflicting signals
- Confidence <0.5: Low conviction, highly conflicting signals

Be honest about uncertainty. If financial and sentiment signals conflict, explain the tradeoff clearly.
"]))%pyres.

Definition synthesis_fallback (response_text : string) : Dict :=
  [("action", JStr "HOLD");
   ("confidence", half);
   ("reasoning", JStr (slice_to 1000 response_text));
   ("risk_level", JStr "Medium");
   ("time_horizon", JStr "Medium-term (3-12 months)");
   ("key_factors", JList []);
   ("entry_strategy", JStr "Consult with a financial advisor");
   ("watch_for", JList [])].

(** The [try] block of [synthesizer_agent]: it rebinds keys of the state
    as it goes and returns nothing. *)
Definition synthesizer_try (env : Env)
  (financial_analysis sentiment_analysis : Dict) : M unit :=
  (state <- get_state;;
   let ticker := ticker state in
   let user_query := user_query state in
   let analysis_plan := analysis_plan state in
   prompt <- lift (_build_synthesis_prompt ticker user_query financial_analysis
                                           sentiment_analysis analysis_plan);;
   response_text <- call (CallCompletion prompt) (completion env prompt);;
   let recommendation :=
     loads_or response_text (synthesis_fallback response_text) in
   assign (fun state => set_recommendation state (Some recommendation));;;
   c <- lift (py_get recommendation "confidence" half);;
   assign (fun state => set_confidence state (Some c));;;
   r <- lift (py_get recommendation "reasoning" (JStr ""));;
   assign (fun state => set_reasoning state (Some r));;;
   action <- lift (py_get recommendation "action" (JStr "UNKNOWN"));;
   confidence <- lift (py_get recommendation "confidence" (JInt 0));;
   shown_confidence <- lift (format_f 2 false confidence);;
   let message :=
     {| role := "synthesizer";
        content := fstring ["Final recommendation for "; ticker; ": ";
                            py_str action; " (confidence: ";
                            shown_confidence; ")"] |} in
   assign (fun state => set_messages state (messages state ++ [message])))%py.

Definition synthesizer_agent (env : Env) (state : InvestmentState) : StageRun :=
  let financial_analysis := financial_analysis state in
  let sentiment_analysis := sentiment_analysis state in
  if negb (present financial_analysis) || negb (present sentiment_analysis) then
    let error_msg := "Missing required analysis data for synthesis" in
    let state := set_errors state (errors state ++ [error_msg]) in
    {| made := []; returned := Ok (whole state) |}
  else
    match synthesizer_try env (or_else financial_analysis [])
                          (or_else sentiment_analysis []) state with
    | {| calls := c; final := state; outcome := Ok _ |} =>
        {| made := c; returned := Ok (whole state) |}
    | {| calls := c; final := state; outcome := Raise e |} =>
        let error_msg := fstring ["Synthesizer error: "; e] in
        {| made := c;
           returned :=
             Ok (whole (set_errors state (errors state ++ [error_msg]))) |}
    end.

(* ================================================================== *)
(** ** The stage graph ([graph/workflow.py]) *)
(* ================================================================== *)

(** One graph step with a single stage: the stage reads the current state
    and its returned dictionary is folded in by the reducers. *)
Definition run_stage (stage : InvestmentState -> StageRun)
  (s : InvestmentState) : list Call * PyResult InvestmentState :=
  let r := stage s in
  (made r,
   match returned r with
   | Ok u => Ok (apply_update s u)
   | Raise e => Raise e
   end).

(** A key without a reducer accepts one value per step. *)
Definition clash {A B : Type} (a : option A) (b : option B) : bool :=
  match a, b with
  | Some _, Some _ => true
  | _, _ => false
  end.

Definition scalar_clash (u v : Update) : bool :=
  clash (u_ticker u) (u_ticker v) || clash (u_user_query u) (u_user_query v)
  || clash (u_analysis_plan u) (u_analysis_plan v)
  || clash (u_financial_analysis u) (u_financial_analysis v)
  || clash (u_sentiment_analysis u) (u_sentiment_analysis v)
  || clash (u_recommendation u) (u_recommendation v)
  || clash (u_confidence u) (u_confidence v)
  || clash (u_reasoning u) (u_reasoning v).

(** [app.invoke(initial_state)]: the coordinator, then the two analysis
    stages in one step (both read the state the coordinator left, their
    dictionaries are folded in one after the other), then the
    synthesizer.  The graph runtime refuses a step in which two stages
    return a value for the same key without reducer. *)
Definition run_pipeline (env : Env) (s0 : InvestmentState)
  : list Call * PyResult InvestmentState :=
  let s1 := apply_update s0 (coordinator_agent s0) in
  let f := financial_agent env s1 in
  let n := sentiment_agent env s1 in
  match returned f, returned n with
  | Ok uf, Ok un =>
      if scalar_clash uf un
      then (made f ++ made n, Raise "InvalidUpdateError")
      else
        let s2 := apply_update (apply_update s1 uf) un in
        let '(c, r) := run_stage (synthesizer_agent env) s2 in
        (made f ++ made n ++ c, r)
  | Raise e, _ => (made f ++ made n, Raise e)
  | _, Raise e => (made f ++ made n, Raise e)
  end.

(* ================================================================== *)
(** ** Vocabulary of the statements *)
(* ================================================================== *)

(** The query text of the planner example. *)
Definition tsla_phrase : string := "is TSLA risky right now".

(** The two braces the normalizer looks for. *)
Definition ob : ascii := "{"%char.
Definition cb : ascii := "}"%char.

(** [is_record v]: the value is a dictionary. *)
Definition is_record (v : json) : Prop := exists d, v = JDict d.

(** What the [except Exception] handler of the sentiment stage returns. *)
Definition sentiment_error (state : InvestmentState) (e : string) : Update :=
  errors_only (errors state ++ [fstring ["Sentiment agent error: "; e]]).

(** What the sentiment stage returns once [article_count] is set. *)
Definition sentiment_delta (state : InvestmentState) (total_articles : nat)
  (sample : list Dict) (analysis : Dict) : Update :=
  let analysis := dict_set "sample_articles" (JList (map JDict sample)) analysis in
  {| u_ticker := None; u_user_query := None; u_analysis_plan := None;
     u_financial_analysis := None;
     u_sentiment_analysis := Some (Some analysis);
     u_recommendation := None; u_confidence := None; u_reasoning := None;
     u_messages :=
       Some [{| role := "sentiment_agent";
                content := fstring ["Analyzed "; digits (Z.of_nat total_articles);
                                    " articles for "; ticker state; ". Mood: ";
                                    shown analysis "overall_mood" unknown] |}];
     u_errors := None |}.


(** The two error texts of the synthesis stage. *)
Definition missing_analysis : string :=
  "Missing required analysis data for synthesis".

Definition synthesizer_error (e : string) : string :=
  fstring ["Synthesizer error: "; e].

(** The state left by the [try] block once the completion text has been
    decoded to the dictionary [d]. *)
Definition with_recommendation (state : InvestmentState) (d : Dict)
  : InvestmentState :=
  set_reasoning
    (set_confidence
       (set_recommendation state (Some (JDict d)))
       (Some (dict_get_default "confidence" half d)))
    (Some (dict_get_default "reasoning" (JStr "") d)).

(** The log entry of the synthesis stage. *)
Definition synthesizer_message (state : InvestmentState) (d : Dict)
  (shown_confidence : string) : Message :=
  {| role := "synthesizer";
     content := fstring ["Final recommendation for "; ticker state; ": ";
                         py_str (dict_get_default "action" (JStr "UNKNOWN") d);
                         " (confidence: "; shown_confidence; ")"] |}.

(** What the [except Exception] handler of the fundamentals stage
    returns. *)
Definition financial_error (state : InvestmentState) (e : string) : Update :=
  errors_only (errors state ++ [fstring ["Financial agent error: "; e]]).

(** What the fundamentals stage returns once [raw_data] is attached. *)
Definition financial_delta (state : InvestmentState) (analysis : Dict) : Update :=
  {| u_ticker := None; u_user_query := None; u_analysis_plan := None;
     u_financial_analysis := Some (Some analysis);
     u_sentiment_analysis := None;
     u_recommendation := None; u_confidence := None; u_reasoning := None;
     u_messages :=
       Some [{| role := "financial_agent";
                content := fstring ["Completed financial analysis for ";
                                    ticker state] |}];
     u_errors := None |}.

(** The dictionary stored under [raw_data]. *)
Definition raw_data_of (market_data : MarketData) : json :=
  JDict [("fundamentals", JDict (or_else (md_fundamentals market_data) []));
         ("technical", JDict (or_else (md_history market_data) []));
         ("company_info", JDict (or_else (md_info market_data) []))].

(** The state the graph holds after the planner has run on the initial
    state. *)
Definition planned (ticker_arg query : string) : InvestmentState :=
  let s0 := initial_state ticker_arg query in
  apply_update s0 (coordinator_agent s0).


(* ================================================================== *)
(** ** Sample collaborators and states *)
(* ================================================================== *)

(** The news fetch succeeds and finds nothing; no other collaborator is
    there to answer. *)
Definition quiet_news : Env :=
  {| yfinance := fun _ => Raise "unused";
     news := fun _ _ =>
       Ok {| nd_success := true; nd_error := None; nd_articles := [] |};
     completion := fun _ => Raise "unused" |}.

Definition headline (title : string) : Dict :=
  [("title", JStr title); ("source", JStr "Newswire")].

(** Five articles are fetched while the completion text claims
    seventeen. *)
Definition five_claimed_seventeen : Env :=
  {| yfinance := fun _ => Raise "unused";
     news := fun _ _ =>
       Ok {| nd_success := true; nd_error := None;
             nd_articles := map headline ["a"; "b"; "c"; "d"; "e"] |};
     completion := fun _ =>
       Ok (q "{'sentiment_score': 0.7, 'overall_mood': 'Bullish', 'article_count': 17}") |}.

Definition sample_financial : Dict :=
  [("assessment", JStr "Solid balance sheet");
   ("strengths", JList [JStr "margins"]);
   ("concerns", JList [JStr "valuation"]);
   ("valuation", JStr "Fairly Valued");
   ("trend", JStr "Upward")].

Definition sample_sentiment : Dict :=
  [("sentiment_score", JFloat (Dec 7 (-1)));
   ("overall_mood", JStr "Bullish");
   ("key_themes", JList [JStr "earnings"]);
   ("catalysts", JList []);
   ("concerns", JList [])].

Definition sample_plan : AnalysisPlan :=
  {| plan_ticker := "NVDA";
     perform_financial_analysis := true;
     perform_sentiment_analysis := true;
     focus_areas := ["comprehensive"];
     plan_context := {| user_intent := "buy_decision";
                        time_sensitivity := "normal" |} |}.

(** A state as the analysis stages leave it, with or without the two
    records. *)
Definition analysed (fin sent : option Dict) : InvestmentState :=
  {| ticker := "NVDA"; user_query := "Should I invest in NVDA?";
     analysis_plan := Some sample_plan;
     financial_analysis := fin; sentiment_analysis := sent;
     recommendation := None; confidence := None; reasoning := None;
     messages := [{| role := "coordinator";
                     content := "Planning analysis for NVDA. Focus: comprehensive" |}];
     errors := match sent with
               | None => ["Failed to fetch news: rate limited"]
               | Some _ => []
               end |}.

(** The completion service answers every prompt with the same text. *)
Definition answering (response_text : string) : Env :=
  {| yfinance := fun _ => Raise "unused";
     news := fun _ _ => Raise "unused";
     completion := fun _ => Ok response_text |}.

(** Both analysis records are there. *)
Definition both_analysed : InvestmentState :=
  analysed (Some sample_financial) (Some sample_sentiment).

Definition good_reply : string :=
  q "{'assessment': 'ok', 'overall_mood': 'Bullish', 'action': 'BUY', 'confidence': 0.8, 'reasoning': 'aligned'}".

(** Market data, one article and one completion text that serves the
    three prompts. *)
Definition all_good : Env :=
  {| yfinance := fun _ =>
       Ok ([("company_name", JStr "NVIDIA"); ("market_cap", JInt 1234567)],
           [("rsi", JFloat (Dec 555 (-1)))],
           [("pe_ratio", JFloat (Dec 312 (-1)))]);
     news := fun _ _ =>
       Ok {| nd_success := true; nd_error := None;
             nd_articles := [headline "Record quarter"] |};
     completion := fun _ => Ok good_reply |}.

(* ================================================================== *)
(** ** Vocabulary of the planner properties *)
(* ================================================================== *)

(** The four specific focus areas, in the order the planner tests them. *)
Definition focus_vocabulary : list string :=
  ["risk_assessment"; "fundamentals"; "technical"; "news_sentiment"].

(** A lower-case ASCII letter. *)
Definition is_lower_letter (c : ascii) : bool :=
  let n := nat_of_ascii c in (97 <=? n) && (n <=? 122).

(* ================================================================== *)
(** ** The market-data readers ([mcps/market_data.py]) *)
(* ================================================================== *)

(** [v[:n]] on a decoded value: a string or a list can be sliced, any
    other value makes the slice raise (for a dictionary the text of the
    exception is that of CPython before 3.12). *)
Definition py_slice_to (n : nat) (v : json) : PyResult json :=
  match v with
  | JStr s => Ok (JStr (slice_to n s))
  | JList l => Ok (JList (firstn n l))
  | JDict _ => Raise "unhashable type: 'slice'"
  | _ => Raise (fstring ["'"; type_name v; "' object is not subscriptable"])
  end.

(** A value that can be sliced. *)
Definition sliceable (v : json) : bool :=
  match v with
  | JStr _ | JList _ => true
  | _ => false
  end.

(** [info.get(k)] *)
Definition get_or_none (info : Dict) (k : string) : json :=
  dict_get_default k JNull info.

(** [MarketDataMCP._get_stock_info], on the dictionary [stock.info]. *)
Definition _get_stock_info (info : Dict) : PyResult Dict :=
  (description <-
     py_slice_to 500 (dict_get_default "longBusinessSummary" (JStr "") info);;
   Ok [("company_name",
        dict_get_default "longName"
          (dict_get_default "shortName" unknown info) info);
       ("sector", get_or_none info "sector");
       ("industry", get_or_none info "industry");
       ("market_cap", get_or_none info "marketCap");
       ("current_price",
        dict_get_default "currentPrice"
          (get_or_none info "regularMarketPrice") info);
       ("currency", dict_get_default "currency" (JStr "USD") info);
       ("exchange", get_or_none info "exchange");
       ("description", description)])%pyres.

(** [MarketDataMCP._get_fundamentals], on the dictionary [stock.info]. *)
Definition _get_fundamentals (info : Dict) : Dict :=
  [("pe_ratio", get_or_none info "trailingPE");
   ("forward_pe", get_or_none info "forwardPE");
   ("peg_ratio", get_or_none info "pegRatio");
   ("price_to_book", get_or_none info "priceToBook");
   ("price_to_sales", get_or_none info "priceToSalesTrailing12Months");
   ("profit_margin", get_or_none info "profitMargins");
   ("operating_margin", get_or_none info "operatingMargins");
   ("gross_margin", get_or_none info "grossMargins");
   ("roe", get_or_none info "returnOnEquity");
   ("roa", get_or_none info "returnOnAssets");
   ("revenue_growth", get_or_none info "revenueGrowth");
   ("earnings_growth", get_or_none info "earningsGrowth");
   ("earnings_quarterly_growth", get_or_none info "earningsQuarterlyGrowth");
   ("debt_to_equity", get_or_none info "debtToEquity");
   ("current_ratio", get_or_none info "currentRatio");
   ("quick_ratio", get_or_none info "quickRatio");
   ("beta", get_or_none info "beta");
   ("dividend_yield", get_or_none info "dividendYield");
   ("payout_ratio", get_or_none info "payoutRatio");
   ("analyst_recommendation", get_or_none info "recommendationKey");
   ("target_mean_price", get_or_none info "targetMeanPrice");
   ("number_of_analyst_opinions", get_or_none info "numberOfAnalystOpinions")].

(** The loading behind [MarketDataMCP.fetch_data(ticker, "all")]:
    [stock.info] read through the two readers above, the price history
    (a pandas computation) taken as it comes. *)
Definition yfinance_of (stock_info : string -> PyResult Dict)
  (price_history : string -> PyResult Dict)
  : string -> PyResult (Dict * Dict * Dict) :=
  fun ticker =>
    (info <- stock_info ticker;;
     company_info <- _get_stock_info info;;
     history <- price_history ticker;;
     info <- stock_info ticker;;
     Ok (company_info, history, _get_fundamentals info))%pyres.

(** Each metric of the fundamentals prompt and the key of [stock.info]
    it is read from. *)
Definition metric_sources : list (string * string) :=
  [("pe_ratio", "trailingPE"); ("forward_pe", "forwardPE");
   ("profit_margin", "profitMargins"); ("revenue_growth", "revenueGrowth");
   ("earnings_growth", "earningsGrowth"); ("debt_to_equity", "debtToEquity");
   ("roe", "returnOnEquity"); ("beta", "beta")].

(** The company information inside a fundamentals record, when both
    [raw_data] and its [company_info] are dictionaries. *)
Definition company_info_of (fin : Dict) : option Dict :=
  match dict_get_default "raw_data" (JDict []) fin with
  | JDict raw =>
      match dict_get_default "company_info" (JDict []) raw with
      | JDict info => Some info
      | _ => None
      end
  | _ => None
  end.

(* ================================================================== *)
(** ** The news wrapper ([mcps/news.py]) *)
(* ================================================================== *)

Definition quoted (s : string) : string := fstring [String dq ""; s; String dq ""].

(** [NewsMCP._build_query] *)
Definition _build_query (ticker : string) (company_name : json) : string :=
  if truthy company_name
  then fstring [quoted ticker; " OR "; quoted (py_str company_name)]
  else quoted ticker.

(** [v == s] for a string literal [s]. *)
Definition is_str (s : string) (v : json) : bool :=
  match v with
  | JStr t => String.eqb t s
  | _ => false
  end.

(** One turn of the loop of [_process_articles]: [None] when the article
    is skipped. *)
Definition process_article (article : json) : PyResult (option Dict) :=
  (title <- py_get article "title" JNull;;
   if negb (truthy title) then Ok None
   else
     published_at <- py_get article "publishedAt" JNull;;
     if negb (truthy published_at) then Ok None
     else if is_str "[Removed]" title then Ok None
     else
       description <- py_get article "description" (JStr "");;
       source <- py_get article "source" (JDict []);;
       source <- py_get source "name" unknown;;
       author <- py_get article "author" JNull;;
       url <- py_get article "url" JNull;;
       content <- py_get article "content" JNull;;
       content_snippet <-
         (if truthy content
          then (content <- py_get article "content" (JStr "");;
                py_slice_to 300 content)
          else Ok (JStr ""));;
       Ok (Some [("title", title);
                 ("description", description);
                 ("source", source);
                 ("author", author);
                 ("published_at", published_at);
                 ("url", url);
                 ("content_snippet", content_snippet)]))%pyres.

Fixpoint process_all (articles : list json) : PyResult (list Dict) :=
  match articles with
  | [] => Ok []
  | article :: rest =>
      (processed_article <- process_article article;;
       processed <- process_all rest;;
       Ok (match processed_article with
           | Some a => a :: processed
           | None => processed
           end))%pyres
  end.

(** The sort key, [x['published_at']], of a processed article whose date
    is a string (the dates of the news service are ISO 8601 texts;
    strings compare by code point). *)
Definition date_of (a : Dict) : string :=
  match dict_get "published_at" a with
  | Some (JStr s) => s
  | _ => ""
  end.

(** [processed.sort(key=..., reverse=True)]: a stable sort, so articles
    of equal date keep their order.  The keys are compared as the texts
    [date_of] gives; how Python orders keys of other kinds is not
    modelled, and the statements about the order assume dates that are
    texts. *)
Fixpoint insert_by_date (a : Dict) (sorted : list Dict) : list Dict :=
  match sorted with
  | [] => [a]
  | b :: rest =>
      if String.ltb (date_of a) (date_of b)
      then b :: insert_by_date a rest
      else a :: b :: rest
  end.

Definition sort_newest_first (processed : list Dict) : list Dict :=
  fold_right insert_by_date [] processed.

(** [NewsMCP._process_articles(articles, ticker)] *)
Definition _process_articles (articles : list json) : PyResult (list Dict) :=
  (processed <- process_all articles;;
   Ok (sort_newest_first processed))%pyres.

(** [for article in articles] on a decoded value. *)
Definition py_iter (v : json) : PyResult (list json) :=
  match v with
  | JList l => Ok l
  | JStr s => Ok (map (fun c => JStr (String c "")) (unpack s))
  | JDict d => Ok (map (fun kv => JStr (fst kv)) d)
  | _ => Raise (fstring ["'"; type_name v; "' object is not iterable"])
  end.

(** [BaseMCP.handle_error] for the news wrapper. *)
Definition news_error (error : string) : NewsData :=
  {| nd_success := false; nd_error := Some error; nd_articles := [] |}.

(** [NewsMCP.fetch_data(ticker, company_name, days, max_results)]: the
    request made of the news service is its query, the number of days
    looked back (the date range ends at the clock's now) and the page
    size; [total_results] is the length of [articles]. *)
Definition NewsMCP_fetch_data
  (get_everything : string -> Z -> Z -> PyResult json)
  (ticker : string) (company_name : json) (days : option Z) (max_results : Z)
  : NewsData :=
  let days :=
    match days with
    | Some n => if (n =? 0)%Z then 30%Z else n
    | None => 30%Z
    end in
  let query := _build_query ticker company_name in
  match (response <- get_everything query days (Z.min max_results 100);;
         articles <- py_get response "articles" (JList []);;
         articles <- py_iter articles;;
         _process_articles articles)%pyres with
  | Ok processed_articles =>
      {| nd_success := true; nd_error := None;
         nd_articles := processed_articles |}
  | Raise e => news_error e
  end.

(** [NewsMCP.get_top_headlines(ticker, company_name, max_results)] *)
Definition get_top_headlines
  (get_everything : string -> Z -> Z -> PyResult json)
  (ticker : string) (company_name : json) (max_results : nat) : NewsData :=
  let result := NewsMCP_fetch_data get_everything ticker company_name
                                   (Some 7%Z) 100 in
  if nd_success result
  then {| nd_success := nd_success result; nd_error := nd_error result;
          nd_articles := firstn max_results (nd_articles result) |}
  else result.

(** Newest first. *)
Definition not_older (a b : Dict) : Prop :=
  String.leb (date_of b) (date_of a) = true.

(** The processed articles of one date. *)
Definition of_date (date : string) (processed : list Dict) : list Dict :=
  filter (fun a => String.eqb (date_of a) date) processed.

(** The keys of a processed article. *)
Definition article_keys : list string :=
  ["title"; "description"; "source"; "author"; "published_at"; "url";
   "content_snippet"].

(** The raw articles whose date, when they have one, is a text. *)
Definition dated_by_text (article : json) : Prop :=
  forall d v, article = JDict d -> dict_get "publishedAt" d = Some v ->
              truthy v = true -> exists s, v = JStr s.

(** A snippet of at most 300 characters (or items). *)
Definition short_snippet (v : json) : Prop :=
  match v with
  | JStr s => String.length s <= 300
  | JList l => length l <= 300
  | _ => False
  end.

(** The processed article [a] comes from the raw article [raw]: it has
    the seven keys, a title that is truthy and not '[Removed]', a truthy
    date, both as in [raw], and a short snippet. *)
Definition processed_from (raw : Dict) (a : Dict) : Prop :=
  map fst a = article_keys
  /\ (exists title,
        dict_get "title" raw = Some title /\ dict_get "title" a = Some title
        /\ truthy title = true /\ title <> JStr "[Removed]")
  /\ (exists date,
        dict_get "publishedAt" raw = Some date
        /\ dict_get "published_at" a = Some date /\ truthy date = true)
  /\ (exists snippet,
        dict_get "content_snippet" a = Some snippet /\ short_snippet snippet).

(* ================================================================== *)
(** ** The HTTP endpoint ([api.py]) *)
(* ================================================================== *)

(** What the endpoint answers: the response built from the final state,
    or an [HTTPException] with its status code. *)
Inductive HttpAnswer (A : Type) : Type :=
| Answered (response : A)
| HttpError (status_code : nat).
Arguments Answered {A} response.
Arguments HttpError {A} status_code.

(** What leaves the body of the endpoint's [try]. *)
Inductive BodyResult (A : Type) : Type :=
| Returned (response : A)
| RaisedHTTPException (status_code : nat) (detail : string)
| RaisedOther (message : string).
Arguments Returned {A} response.
Arguments RaisedHTTPException {A} status_code detail.
Arguments RaisedOther {A} message.

(** The initial state of [analyze_stock]. *)
Definition api_initial_state (ticker user_query : string) : InvestmentState :=
  {| ticker := ticker; user_query := user_query;
     analysis_plan := None; financial_analysis := None;
     sentiment_analysis := None; recommendation := None;
     confidence := None; reasoning := None;
     messages := []; errors := [] |}.

(** [analyze_stock(request)]: [workflow] stands for running the graph and
    building the response.  [except Exception] catches the body's own
    [HTTPException] like any other exception and raises one of status
    500.  The second component tells whether the graph was run. *)
Definition analyze_stock {A : Type} (workflow : InvestmentState -> PyResult A)
  (request_ticker : string) (request_user_query : option string)
  : HttpAnswer A * bool :=
  let ticker := strip (upper request_ticker) in
  let user_query :=
    match request_user_query with
    | Some query =>
        if is_empty query then fstring ["Should I invest in "; ticker; "?"]
        else query
    | None => fstring ["Should I invest in "; ticker; "?"]
    end in
  let body : BodyResult A * bool :=
    if is_empty ticker || (10 <? String.length ticker)
    then (RaisedHTTPException 400 "Invalid ticker symbol", false)
    else
      (match workflow (api_initial_state ticker user_query) with
       | Ok response => Returned response
       | Raise e => RaisedOther e
       end, true) in
  match body with
  | (Returned response, ran) => (Answered response, ran)
  | (RaisedHTTPException _ _, ran) => (HttpError 500, ran)
  | (RaisedOther _, ran) => (HttpError 500, ran)
  end.

(* ================================================================== *)
(** ** What the stages read of the plan *)
(* ================================================================== *)

(** The state with another plan. *)
Definition with_plan (state : InvestmentState) (plan : option AnalysisPlan)
  : InvestmentState :=
  {| ticker := ticker state; user_query := user_query state;
     analysis_plan := plan;
     financial_analysis := financial_analysis state;
     sentiment_analysis := sentiment_analysis state;
     recommendation := recommendation state;
     confidence := confidence state; reasoning := reasoning state;
     messages := messages state; errors := errors state |}.

(** A returned dictionary without its [analysis_plan] key. *)
Definition forget_plan (u : Update) : Update :=
  {| u_ticker := u_ticker u; u_user_query := u_user_query u;
     u_analysis_plan := None;
     u_financial_analysis := u_financial_analysis u;
     u_sentiment_analysis := u_sentiment_analysis u;
     u_recommendation := u_recommendation u;
     u_confidence := u_confidence u; u_reasoning := u_reasoning u;
     u_messages := u_messages u; u_errors := u_errors u |}.

(** Two stage runs make the same calls and return the same dictionary,
    the [analysis_plan] key apart (or raise the same exception). *)
Definition agree_but_plan (r r' : StageRun) : Prop :=
  made r = made r'
  /\ match returned r, returned r' with
     | Ok u, Ok u' => forget_plan u = forget_plan u'
     | Raise e, Raise e' => e = e'
     | _, _ => False
     end.

(* ================================================================== *)
(** ** More sample data *)
(* ================================================================== *)

(** An index fund as the data source reports it: a name, no market
    capitalisation. *)
Definition fund_info : Dict := [("longName", JStr "Index Fund")].

Definition fund_only : Env :=
  {| yfinance := yfinance_of (fun _ => Ok fund_info) (fun _ => Ok []);
     news := fun _ _ => Raise "unused";
     completion := fun _ => Raise "unused" |}.

(** Three raw articles as the news service lists them, with one removed
    article and one without date between them. *)
Definition raw_article (title date : string) : json :=
  JDict [("source", JDict [("id", JNull); ("name", JStr "Newswire")]);
         ("title", JStr title);
         ("publishedAt", JStr date);
         ("content", JStr "Shares rose.")].

Definition sample_raw_articles : list json :=
  [raw_article "Record quarter" "2025-03-01T12:00:00Z";
   raw_article "[Removed]" "2025-03-03T08:00:00Z";
   raw_article "Guidance raised" "2025-03-02T09:00:00Z";
   JDict [("title", JStr "Undated")];
   raw_article "Analysts react" "2025-03-01T12:00:00Z"].

(** The articles the loop keeps of them, before sorting. *)
Definition sample_processed : list Dict :=
  match process_all sample_raw_articles with
  | Ok kept => kept
  | Raise _ => []
  end.

(** A listing whose second article has a null source. *)
Definition sourceless : json :=
  JDict [("source", JNull); ("title", JStr "Anonymous tip");
         ("publishedAt", JStr "2025-03-04T10:00:00Z")].

Definition listing_with_sourceless : string -> Z -> Z -> PyResult json :=
  fun _ _ _ =>
    Ok (JDict [("status", JStr "ok");
               ("articles",
                JList [raw_article "Record quarter" "2025-03-01T12:00:00Z";
                       sourceless])]).

Definition sample_listing : string -> Z -> Z -> PyResult json :=
  fun _ _ _ =>
    Ok (JDict [("status", JStr "ok"); ("articles", JList sample_raw_articles)]).

(* ================================================================== *)
(** * Properties *)
(* ================================================================== *)

(** ** Sample runs of the model *)

Example json_loads_demo1 :
  json_loads (q " {'a': [1, 2.50, true, null], 'b': {'c': 'x\ny'}, 'a': -3e2} ")
  = Some (JDict [("a", JFloat (Dec (-3) 2));
                 ("b", JDict [("c", JStr (pack ["x"%char; nl; "y"%char]))])]).
Proof. vm_compute. reflexivity. Qed.

Example coordinator_demo :
  coordinator_agent (initial_state "tsla" "is TSLA risky right now")
  = {| u_ticker := None; u_user_query := None;
       u_analysis_plan :=
         Some (Some {| plan_ticker := "TSLA";
                       perform_financial_analysis := true;
                       perform_sentiment_analysis := true;
                       focus_areas := ["risk_assessment"];
                       plan_context := {| user_intent := "research";
                                          time_sensitivity := "urgent" |} |});
       u_financial_analysis := None; u_sentiment_analysis := None;
       u_recommendation := None; u_confidence := None; u_reasoning := None;
       u_messages :=
         Some [{| role := "coordinator";
                  content := "Planning analysis for TSLA. Focus: risk_assessment" |}];
       u_errors := None |}.
Proof. vm_compute. reflexivity. Qed.

(** ** Facts about the text operations *)

Lemma unpack_pack (l : chars) : unpack (pack l) = l.
Proof. apply list_ascii_of_string_of_list_ascii. Qed.

Lemma pack_unpack (s : string) : pack (unpack s) = s.
Proof. apply string_of_list_ascii_of_string. Qed.

Lemma unpack_app (a b : string) :
  unpack (a ++ b)%string = unpack a ++ unpack b.
Proof.
  induction a as [|c a IH]; simpl; [reflexivity|].
  unfold unpack in *. simpl. now rewrite IH.
Qed.

Lemma pack_app (a b : chars) : pack (a ++ b) = (pack a ++ pack b)%string.
Proof.
  rewrite <- (pack_unpack (pack a ++ pack b)), unpack_app, !unpack_pack.
  reflexivity.
Qed.

Section DropWhile.

Variable p : ascii -> bool.

Lemma drop_while_all (l : chars) :
  forallb p l = true -> drop_while p l = [].
Proof.
  induction l as [|c l IH]; simpl; [reflexivity|].
  intros H. apply andb_true_iff in H as [Hc Hl]. rewrite Hc. auto.
Qed.

Lemma drop_while_stop (a b : chars) (c : ascii) :
  p c = false -> drop_while p (a ++ c :: b) = drop_while p a ++ c :: b.
Proof.
  intros Hc. induction a as [|x a IH]; simpl.
  - now rewrite Hc.
  - destruct (p x); [exact IH | reflexivity].
Qed.

Lemma drop_while_incl (l : chars) (c : ascii) :
  In c (drop_while p l) -> In c l.
Proof.
  induction l as [|x l IH]; simpl; [tauto|].
  destruct (p x); simpl; intuition.
Qed.

Lemma drop_while_keeps (l : chars) (c : ascii) :
  In c l -> p c = false -> In c (drop_while p l).
Proof.
  intros Hin Hc. induction l as [|x l IH]; simpl in *; [tauto|].
  destruct Hin as [->|Hin].
  - rewrite Hc. now left.
  - destruct (p x); [auto | now right].
Qed.

End DropWhile.

Lemma forallb_not_in (c : ascii) (l : chars) :
  ~ In c l -> forallb (fun x => negb (Ascii.eqb x c)) l = true.
Proof.
  induction l as [|x l IH]; simpl; [reflexivity|].
  intros H. apply andb_true_iff. split.
  - destruct (Ascii.eqb_spec x c); [subst; exfalso; apply H; now left | reflexivity].
  - apply IH. intros Hin. apply H. now right.
Qed.

Lemma lstrip_stop (a b : chars) (c : ascii) :
  isspace c = false -> lstrip_l (a ++ c :: b) = lstrip_l a ++ c :: b.
Proof. apply drop_while_stop. Qed.

Lemma rstrip_stop (a b : chars) (c : ascii) :
  isspace c = false -> rstrip_l (a ++ c :: b) = a ++ c :: rstrip_l b.
Proof.
  intros Hc. unfold rstrip_l.
  rewrite rev_app_distr. simpl. rewrite <- app_assoc. simpl.
  rewrite drop_while_stop by exact Hc.
  rewrite rev_app_distr. simpl. rewrite rev_involutive, <- app_assoc.
  reflexivity.
Qed.

Lemma lstrip_incl (l : chars) (c : ascii) : In c (lstrip_l l) -> In c l.
Proof. apply drop_while_incl. Qed.

Lemma rstrip_incl (l : chars) (c : ascii) : In c (rstrip_l l) -> In c l.
Proof.
  unfold rstrip_l. intros H. apply in_rev in H.
  apply drop_while_incl in H. now apply in_rev.
Qed.

Lemma strip_keeps (l : chars) (c : ascii) :
  In c l -> isspace c = false -> In c (strip_l l).
Proof.
  intros Hin Hc. unfold strip_l, rstrip_l. apply in_rev.
  rewrite rev_involutive. apply drop_while_keeps; [|exact Hc].
  apply -> in_rev. now apply drop_while_keeps.
Qed.

Lemma strip_blank (l : chars) : forallb isspace l = true -> strip_l l = [].
Proof.
  intros H. unfold strip_l, lstrip_l. now rewrite drop_while_all.
Qed.

Lemma isspace_upper (c : ascii) : isspace (upper_char c) = isspace c.
Proof.
  destruct c as [[] [] [] [] [] [] [] []]; vm_compute; reflexivity.
Qed.

Lemma blank_upper (l : chars) :
  forallb isspace l = true -> forallb isspace (map upper_char l) = true.
Proof.
  induction l as [|c l IH]; simpl; [reflexivity|].
  intros H. apply andb_true_iff in H as [Hc Hl].
  now rewrite isspace_upper, Hc, IH.
Qed.

(** A blank ticker is empty once upper-cased and stripped. *)
Lemma strip_upper_blank (t : string) :
  forallb isspace (unpack t) = true -> strip (upper t) = "".
Proof.
  intros H. unfold strip, upper. rewrite unpack_pack.
  rewrite strip_blank by now apply blank_upper. reflexivity.
Qed.

(** ** The planner on a blank ticker *)



(** ** Keyword classification of the query *)

Lemma startswith_l_app (sub s y : chars) :
  startswith_l sub s = true -> startswith_l sub (s ++ y) = true.
Proof.
  revert s. induction sub as [|a sub IH]; intros s; [reflexivity|].
  destruct s as [|b s]; simpl; [discriminate|].
  intros H. apply andb_true_iff in H as [Hab Hs].
  now rewrite Hab, IH.
Qed.

Lemma contains_l_app_r (sub s y : chars) :
  contains_l sub s = true -> contains_l sub (s ++ y) = true.
Proof.
  induction s as [|c s IH]; simpl.
  - rewrite orb_false_r. destruct sub; [|discriminate].
    intros _. destruct y; reflexivity.
  - intros H. apply orb_true_iff in H as [H|H].
    + change (c :: s ++ y) with ((c :: s) ++ y).
      now rewrite startswith_l_app.
    + rewrite IH by exact H. apply orb_true_r.
Qed.

Lemma contains_l_app_l (sub x s : chars) :
  contains_l sub s = true -> contains_l sub (x ++ s) = true.
Proof.
  intros H. induction x as [|c x IH]; simpl; [exact H|].
  rewrite IH. apply orb_true_r.
Qed.

Lemma contains_l_middle (sub x m y : chars) :
  contains_l sub m = true -> contains_l sub (x ++ m ++ y) = true.
Proof.
  intros H. apply contains_l_app_l. now apply contains_l_app_r.
Qed.

Lemma lower_app (a b : string) : lower (a ++ b) = (lower a ++ lower b)%string.
Proof.
  unfold lower. now rewrite unpack_app, map_app, pack_app.
Qed.

(** A word found in the lowered phrase is found in every lowered query
    that holds the phrase. *)
Lemma contains_phrase (word phrase a b : string) :
  contains word (lower phrase) = true ->
  contains word (lower (a ++ phrase ++ b)) = true.
Proof.
  intros H. unfold contains in *.
  rewrite !lower_app, !unpack_app. now apply contains_l_middle.
Qed.

(** Claim C9 (amended): for every query that holds the text "is TSLA risky
    right now", the focus areas include [risk_assessment] and the urgency
    is [urgent]; the intent is [research] when the lowered query holds
    none of the buy, sell and hold keywords, as is the case for the query
    that is exactly that text. *)
Theorem planner_tsla_query (a b : string) :
  let query := (a ++ tsla_phrase ++ b)%string in
  In "risk_assessment" (_determine_focus_areas query)
  /\ _assess_time_sensitivity query = "urgent"
  /\ (any_in (buy_words ++ sell_words ++ hold_words) (lower query) = false ->
      _classify_user_intent query = "research")
  /\ _classify_user_intent tsla_phrase = "research".
Proof.
  intros query. repeat split.
  - unfold _determine_focus_areas.
    assert (H : any_in ["risk"; "risky"; "safe"; "volatile"; "volatility"]
                       (lower query) = true).
    { unfold any_in. simpl. unfold query.
      rewrite (contains_phrase "risk" tsla_phrase a b); reflexivity. }
    rewrite H.
    repeat match goal with
           | |- context [any_in ?ws ?t] => destruct (any_in ws t)
           end; simpl; auto.
  - unfold _assess_time_sensitivity.
    assert (H : contains "now" (lower query) = true).
    { unfold query. apply contains_phrase. reflexivity. }
    unfold any_in. simpl. rewrite H. rewrite orb_true_r. reflexivity.
  - intros H. unfold _classify_user_intent.
    unfold any_in in *. rewrite !existsb_app in H.
    apply orb_false_iff in H as [Hb H].
    apply orb_false_iff in H as [Hs Hh].
    now rewrite Hb, Hs, Hh.
Qed.

Lemma planner_tsla_query_witness :
  let query := "Tell me, is TSLA risky right now?" in
  In "risk_assessment" (_determine_focus_areas query)
  /\ _assess_time_sensitivity query = "urgent"
  /\ _classify_user_intent query = "research".
Proof.
  destruct (planner_tsla_query "Tell me, " "?") as (H1 & H2 & H3 & _).
  intros query.
  split; [exact H1 | split; [exact H2 | apply H3; reflexivity]].
Defined.

(** A query that holds the text and a buy keyword is classified as a buy
    decision: the claim as first stated (intent [research] for every query
    holding the text) fails. *)
Lemma planner_tsla_query_counterexample :
  let query := "Should I buy, or is TSLA risky right now?" in
  contains tsla_phrase query = true
  /\ _classify_user_intent query = "buy_decision"
  /\ _classify_user_intent query <> "research".
Proof.
  simpl. repeat split; try reflexivity. vm_compute. discriminate.
Qed.

(** ** The response normalizer *)

Lemma drop_while_found (p : ascii -> bool) (a b : chars) (c : ascii) :
  forallb p a = true -> p c = false -> drop_while p (a ++ c :: b) = c :: b.
Proof.
  intros Ha Hc. rewrite drop_while_stop by exact Hc.
  now rewrite drop_while_all.
Qed.

(** The brace search returns the object when no opening brace comes
    before it and no closing brace after it. *)
Lemma re_search_braces_object (pre mid post : chars) :
  ~ In ob pre -> ~ In cb post ->
  re_search_braces (pre ++ ob :: mid ++ cb :: post) = Some (ob :: mid ++ [cb]).
Proof.
  intros Hpre Hpost. unfold re_search_braces.
  rewrite drop_while_found;
    [| now apply forallb_not_in | reflexivity].
  rewrite rev_app_distr. simpl. rewrite <- app_assoc. simpl.
  rewrite drop_while_found;
    [| apply forallb_not_in; intros H; apply Hpost; now apply in_rev
     | reflexivity].
  simpl. now rewrite rev_involutive.
Qed.

Lemma strip_object (pre mid post : chars) :
  strip_l (pre ++ ob :: mid ++ cb :: post)
  = lstrip_l pre ++ ob :: mid ++ cb :: rstrip_l post.
Proof.
  unfold strip_l. rewrite lstrip_stop by reflexivity.
  change (lstrip_l pre ++ ob :: mid ++ cb :: post)
    with (lstrip_l pre ++ (ob :: mid) ++ cb :: post).
  rewrite app_assoc, rstrip_stop by reflexivity.
  now rewrite <- app_assoc.
Qed.

(** Stripping, then the brace search. *)
Lemma search_stripped_object (pre mid post : chars) :
  ~ In ob pre -> ~ In cb post ->
  re_search_braces (strip_l (pre ++ ob :: mid ++ cb :: post))
  = Some (ob :: mid ++ [cb]).
Proof.
  intros Hpre Hpost. rewrite strip_object.
  apply re_search_braces_object.
  - intros H. apply Hpre. now apply lstrip_incl.
  - intros H. apply Hpost. now apply rstrip_incl.
Qed.

Lemma split_l_nonempty (sep : ascii) (l : chars) : split_l sep l <> [].
Proof.
  destruct l as [|c r]; simpl; [discriminate|].
  destruct (Ascii.eqb c sep); [discriminate|].
  destruct (split_l sep r); discriminate.
Qed.

Lemma split_l_first (sep : ascii) (a b : chars) :
  ~ In sep a -> split_l sep (a ++ sep :: b) = a :: split_l sep b.
Proof.
  induction a as [|c a IH]; intros Ha; simpl.
  - now rewrite Ascii.eqb_refl.
  - destruct (Ascii.eqb_spec c sep) as [->|_].
    + exfalso. apply Ha. now left.
    + rewrite IH; [reflexivity|]. intros H. apply Ha. now right.
Qed.

Lemma join_split (sep : ascii) (l : chars) :
  join_l [sep] (split_l sep l) = l.
Proof.
  induction l as [|c r IH]; [reflexivity|].
  simpl. destruct (Ascii.eqb_spec c sep) as [->|Hc].
  - destruct (split_l sep r) as [|h t] eqn:E.
    + now apply split_l_nonempty in E.
    + change (join_l [sep] ([] :: h :: t)) with (sep :: join_l [sep] (h :: t)).
      now rewrite IH.
  - destruct (split_l sep r) as [|h t] eqn:E.
    + now apply split_l_nonempty in E.
    + rewrite <- IH. destruct t; reflexivity.
Qed.

(** The lines of a text: either a single line, or the lines of what comes
    before the last separator followed by the last line. *)
Lemma split_l_last (sep : ascii) (u : chars) :
  (~ In sep u /\ split_l sep u = [u])
  \/ (exists u0 w, u = u0 ++ sep :: w /\ ~ In sep w
                   /\ split_l sep u = split_l sep u0 ++ [w]).
Proof.
  induction u as [|c r IH].
  - left. split; [tauto | reflexivity].
  - simpl. destruct (Ascii.eqb_spec c sep) as [->|Hc].
    + right. destruct IH as [[Hr Er] | (u0 & w & -> & Hw & E)].
      * exists [], r. rewrite Er. repeat split; auto.
      * exists (sep :: u0), w. repeat split; auto.
        simpl. rewrite Ascii.eqb_refl, E. reflexivity.
    + destruct IH as [[Hr Er] | (u0 & w & -> & Hw & E)].
      * left. rewrite Er. split; [|reflexivity].
        intros [H|H]; [now apply Hc | now apply Hr].
      * right. exists (c :: u0), w. repeat split; auto.
        rewrite E. simpl.
        destruct (Ascii.eqb_spec c sep) as [->|_]; [now elim Hc|].
        destruct (split_l sep u0) as [|h t] eqn:E0;
          [now apply split_l_nonempty in E0 | reflexivity].
Qed.

Lemma app_cut (x y u0 w : chars) (c d : ascii) :
  x ++ c :: y = u0 ++ d :: w -> c <> d -> ~ In c w ->
  exists y', y = y' ++ d :: w /\ u0 = x ++ c :: y'.
Proof.
  revert u0. induction x as [|a x IH]; intros u0 E Hcd Hw.
  - destruct u0 as [|b u0]; simpl in E.
    + injection E as E _. now elim Hcd.
    + injection E as -> ->. now exists u0.
  - destruct u0 as [|b u0]; simpl in E.
    + injection E as _ E. exfalso. apply Hw. rewrite <- E.
      apply in_or_app. right. now left.
    + injection E as -> E. destruct (IH u0 E Hcd Hw) as (y' & -> & ->).
      now exists y'.
Qed.

Lemma fence_only_backticks (c : ascii) : In c fence -> c = "`"%char.
Proof. simpl. intuition. Qed.

(** Dropping a closing fence line, if there is one, leaves the text up to
    a closing brace and what follows it untouched, or shortens what
    follows it. *)
Lemma closing_fence_removed (x y : chars) :
  ~ In cb y ->
  let lines := split_l nl (x ++ cb :: y) in
  let lines' :=
    match lines with
    | [] => lines
    | _ :: _ =>
        if chars_eq_dec (strip_l (last lines [])) fence
        then removelast lines else lines
    end in
  exists y', join_l [nl] lines' = x ++ cb :: y' /\ ~ In cb y'.
Proof.
  intros Hy lines lines'.
  assert (Hkeep : forall w, In cb w -> strip_l w <> fence).
  { intros w Hin E.
    assert (H : In cb (strip_l w)) by now apply strip_keeps.
    rewrite E in H. apply fence_only_backticks in H. discriminate. }
  subst lines'. destruct lines as [|l0 ls] eqn:El.
  { now apply split_l_nonempty in El. }
  rewrite <- El. clear l0 ls El.
  destruct (chars_eq_dec (strip_l (last lines [])) fence) as [Ef|_].
  2:{ exists y. split; [apply join_split | exact Hy]. }
  subst lines.
  destruct (split_l_last nl (x ++ cb :: y)) as [[_ E] | (u0 & w & Eu & Hw & E)].
  - exfalso. rewrite E in Ef. simpl in Ef.
    apply (Hkeep (x ++ cb :: y)); [|exact Ef].
    apply in_or_app. right. now left.
  - rewrite E in *. rewrite last_last in Ef. rewrite removelast_last.
    rewrite join_split.
    assert (Hcw : ~ In cb w) by (intros H; now apply (Hkeep w)).
    destruct (app_cut x y u0 w Eu) as (y' & -> & ->);
      [discriminate | exact Hcw |].
    exists y'. split; [reflexivity|].
    intros H. apply Hy. apply in_or_app. now left.
Qed.

Lemma startswith_l_cut (p a b : chars) (c : ascii) :
  startswith_l p (a ++ c :: b) = true -> ~ In c p -> startswith_l p a = true.
Proof.
  revert a. induction p as [|x p IH]; intros a H Hc; [reflexivity|].
  destruct a as [|y a]; simpl in *.
  - apply andb_true_iff in H as [H _].
    apply Ascii.eqb_eq in H. subst. exfalso. apply Hc. now left.
  - apply andb_true_iff in H as [Hxy H]. rewrite Hxy. simpl.
    apply (IH a H). intros Hin. apply Hc. now right.
Qed.

Lemma in_split_first (c : ascii) (l : chars) :
  In c l -> exists l1 l2, l = l1 ++ c :: l2 /\ ~ In c l1.
Proof.
  induction l as [|x l IH]; [intros []|].
  intros Hin. destruct (ascii_dec x c) as [->|Hx].
  - exists [], l. split; [reflexivity | tauto].
  - destruct Hin as [->|Hin]; [now elim Hx|].
    destruct (IH Hin) as (l1 & l2 & -> & H1).
    exists (x :: l1), l2. split; [reflexivity|].
    intros [H|H]; [now apply Hx | now apply H1].
Qed.

(** The cleaning step returns the object: the characters before it hold
    no opening brace, those after it no closing brace, and when the
    stripped text begins with a fence, the line of the fence ends before
    the object. *)
Lemma clean_chars_object (pre mid post : chars) :
  ~ In ob pre -> ~ In cb post ->
  (startswith_l fence (lstrip_l pre) = true -> In nl (lstrip_l pre)) ->
  clean_chars (pre ++ ob :: mid ++ cb :: post) = ob :: mid ++ [cb].
Proof.
  intros Hpre Hpost Hfence. unfold clean_chars.
  destruct (startswith_l fence (strip_l (pre ++ ob :: mid ++ cb :: post)))
    eqn:Efence.
  2:{ now rewrite search_stripped_object. }
  rewrite strip_object in *.
  assert (Hstart : startswith_l fence (lstrip_l pre) = true).
  { apply (startswith_l_cut _ _ _ _ Efence). simpl. intuition discriminate. }
  destruct (in_split_first _ _ (Hfence Hstart)) as (line0 & pre1 & Epre & Hline0).
  assert (Hpre1 : ~ In ob pre1).
  { intros H. apply Hpre. apply lstrip_incl. rewrite Epre.
    apply in_or_app. right. now right. }
  rewrite Epre in *. rewrite <- app_assoc, <- app_comm_cons.
  rewrite split_l_first by exact Hline0.
  unfold hd, tl.
  rewrite (startswith_l_cut _ _ _ _ Hstart)
    by (simpl; intuition discriminate).
  change (pre1 ++ ob :: mid ++ cb :: rstrip_l post)
    with (pre1 ++ (ob :: mid) ++ cb :: rstrip_l post).
  rewrite app_assoc.
  assert (Hpost' : ~ In cb (rstrip_l post))
    by (intros H; apply Hpost; now apply rstrip_incl).
  destruct (closing_fence_removed (pre1 ++ ob :: mid) _ Hpost')
    as (y' & Ejoin & Hy').
  cbv zeta in Ejoin. rewrite Ejoin.
  rewrite <- app_assoc, <- app_comm_cons.
  now rewrite search_stripped_object.
Qed.









(** ** Dictionaries *)

Lemma dict_get_set_same (k : string) (v : json) (d : Dict) :
  dict_get k (dict_set k v d) = Some v.
Proof.
  induction d as [|[k' v'] d IH]; simpl.
  - now rewrite String.eqb_refl.
  - destruct (String.eqb k' k) eqn:E; simpl; rewrite E; auto.
Qed.

Lemma dict_get_set_other (k k' : string) (v : json) (d : Dict) :
  k' <> k -> dict_get k (dict_set k' v d) = dict_get k d.
Proof.
  intros Hk. induction d as [|[k0 v0] d IH]; simpl.
  - destruct (String.eqb_spec k' k); [contradiction | reflexivity].
  - destruct (String.eqb_spec k0 k') as [->|Hk0]; simpl.
    + destruct (String.eqb_spec k' k); [contradiction | reflexivity].
    + now rewrite IH.
Qed.

(** ** The sentiment stage *)

(** The stage after a successful fetch of at least one article, case by
    case. *)
Lemma sentiment_agent_articles (env : Env) (state : InvestmentState)
  (company_name : json) (nd : NewsData) :
  company_name_of state = Ok company_name ->
  news env (ticker state) company_name = Ok nd ->
  nd_success nd = true ->
  nd_articles nd <> [] ->
  let articles := nd_articles nd in
  let total := length articles in
  let fetch := CallNews (ticker state) company_name in
  sentiment_agent env state =
  match _build_sentiment_prompt (ticker state) articles (analysis_plan state) with
  | Raise e => {| made := [fetch]; returned := Ok (sentiment_error state e) |}
  | Ok prompt =>
      match completion env prompt with
      | Raise e =>
          {| made := [fetch; CallCompletion prompt];
             returned := Ok (sentiment_error state e) |}
      | Ok response_text =>
          match py_setitem (loads_or response_text
                              (sentiment_fallback total response_text))
                           "article_count" (JInt (Z.of_nat total)) with
          | Raise e =>
              {| made := [fetch; CallCompletion prompt];
                 returned := Ok (sentiment_error state e) |}
          | Ok analysis =>
              {| made := [fetch; CallCompletion prompt];
                 returned :=
                   Ok (sentiment_delta state total (firstn 5 articles) analysis) |}
          end
      end
  end.
Proof.
  intros Hname Hnews Hok Hsome articles total fetch.
  unfold sentiment_agent. rewrite Hname.
  unfold sentiment_try, bind, get_state, call, lift, assign, ret.
  cbn beta iota. rewrite Hnews. cbn beta iota.
  rewrite Hok. cbn [negb].
  fold articles. destruct articles as [|a rest] eqn:Ea; [contradiction|].
  cbn [length Nat.eqb]. rewrite <- Ea. fold total.
  cbn beta iota delta [app].
  destruct (_build_sentiment_prompt _ _ _) as [prompt|e];
    cbn beta iota delta [app]; [|reflexivity].
  destruct (completion env prompt) as [text|e];
    cbn beta iota delta [app]; [|reflexivity].
  subst total. rewrite Ea. cbn [length].
  destruct (py_setitem _ _ _) as [analysis|e];
    cbn beta iota delta [app]; reflexivity.
Qed.




(** Claim C6: after a successful fetch of at least one article, every
    record the sentiment stage produces has [article_count] equal to the
    number of fetched articles, whatever count the completion text
    claims, and carries under [sample_articles] the first five fetched
    articles unchanged (all of them when fewer than five were fetched).
    The record is produced whenever the prompt is built, the completion
    call returns, and its text decodes to an object or does not decode. *)
Theorem sentiment_article_count (env : Env) (state : InvestmentState)
  (company_name : json) (nd : NewsData) :
  company_name_of state = Ok company_name ->
  news env (ticker state) company_name = Ok nd ->
  nd_success nd = true ->
  nd_articles nd <> [] ->
  let articles := nd_articles nd in
  let sample := firstn 5 articles in
  (forall u analysis,
      returned (sentiment_agent env state) = Ok u ->
      u_sentiment_analysis u = Some (Some analysis) ->
      dict_get "article_count" analysis = Some (JInt (Z.of_nat (length articles)))
      /\ dict_get "sample_articles" analysis = Some (JList (map JDict sample))
      /\ length sample <= 5
      /\ (forall a, In a sample -> In a articles))
  /\
  (forall prompt response_text,
      _build_sentiment_prompt (ticker state) articles (analysis_plan state)
      = Ok prompt ->
      completion env prompt = Ok response_text ->
      json_loads (clean_json_response response_text) = None
      \/ is_record (loads_or response_text
                             (sentiment_fallback (length articles) response_text)) ->
      exists u analysis,
        returned (sentiment_agent env state) = Ok u
        /\ u_sentiment_analysis u = Some (Some analysis)).
Proof.
  intros Hname Hnews Hok Hsome articles sample.
  pose proof (sentiment_agent_articles env state Hname Hnews Hok Hsome) as E.
  cbv zeta in E. fold articles in E. split.
  - intros u analysis Hret Hrec. rewrite E in Hret.
    destruct (_build_sentiment_prompt _ _ _) as [prompt|e].
    2:{ injection Hret as <-. discriminate. }
    destruct (completion env prompt) as [text|e].
    2:{ injection Hret as <-. discriminate. }
    destruct (py_setitem _ _ _) as [d|e] eqn:Eset.
    2:{ injection Hret as <-. discriminate. }
    injection Hret as <-. injection Hrec as <-.
    assert (Hd : dict_get "article_count" d
                 = Some (JInt (Z.of_nat (length articles)))).
    { unfold py_setitem in Eset.
      destruct (loads_or _ _); try discriminate.
      injection Eset as <-. apply dict_get_set_same. }
    repeat split.
    + rewrite dict_get_set_other by discriminate. exact Hd.
    + apply dict_get_set_same.
    + apply firstn_le_length.
    + intros a Ha. rewrite <- (firstn_skipn 5 articles).
      apply in_or_app. now left.
  - intros prompt text Hprompt Htext Hdecode. rewrite E, Hprompt, Htext.
    assert (Hrec : is_record (loads_or text (sentiment_fallback (length articles) text))).
    { destruct Hdecode as [Hnone|Hrec]; [|exact Hrec].
      unfold loads_or. rewrite Hnone. red. eauto. }
    destruct Hrec as [d ->]. cbn [py_setitem].
    eexists. eexists. split; reflexivity.
Qed.

Lemma sentiment_article_count_witness :
  let state := apply_update (initial_state "nvda" "")
                            (coordinator_agent (initial_state "nvda" "")) in
  exists u analysis,
    returned (sentiment_agent five_claimed_seventeen state) = Ok u
    /\ u_sentiment_analysis u = Some (Some analysis)
    /\ dict_get "article_count" analysis = Some (JInt 5).
Proof.
  intros state.
  pose (nd := {| nd_success := true; nd_error := None;
                 nd_articles := map headline ["a"; "b"; "c"; "d"; "e"] |}).
  destruct (sentiment_article_count five_claimed_seventeen state
              (company_name := JNull) (nd := nd))
    as [Hcount Hmade]; try reflexivity.
  { discriminate. }
  destruct (_build_sentiment_prompt (ticker state) (nd_articles nd)
                                    (analysis_plan state)) as [prompt|e] eqn:Ep.
  2:{ vm_compute in Ep. discriminate. }
  destruct (Hmade prompt _ eq_refl eq_refl) as (u & analysis & Hu & Ha).
  { right. vm_compute. eauto. }
  exists u, analysis. split; [exact Hu|]. split; [exact Ha|].
  exact (proj1 (Hcount u analysis Hu Ha)).
Defined.

(** ** The synthesis stage *)

(** Claim C7: whenever the synthesis stage runs with [financial_analysis]
    or [sentiment_analysis] absent (or empty), it makes no collaborator
    call, so no completion call, and hands back the state it was given
    with exactly one entry, "Missing required analysis data for
    synthesis", appended to [errors]; [recommendation] keeps the value it
    had, so none is produced. *)
Theorem synthesizer_missing_analysis (env : Env) (state : InvestmentState) :
  present (financial_analysis state) = false
  \/ present (sentiment_analysis state) = false ->
  let r := synthesizer_agent env state in
  made r = []
  /\ returned r = Ok (whole (set_errors state (errors state ++ [missing_analysis])))
  /\ (forall u, returned r = Ok u ->
                u_recommendation u = Some (recommendation state)
                /\ u_errors u = Some (errors state ++ [missing_analysis])).
Proof.
  intros H r.
  assert (E : r = {| made := [];
                     returned := Ok (whole (set_errors state
                                              (errors state ++ [missing_analysis]))) |}).
  { unfold r, synthesizer_agent.
    destruct H as [H|H]; rewrite H; [|rewrite orb_true_r]; reflexivity. }
  rewrite E. split; [reflexivity|]. split; [reflexivity|].
  intros u Hu. injection Hu as <-. split; reflexivity.
Qed.

Lemma synthesizer_missing_analysis_witness :
  let state := analysed (Some sample_financial) None in
  made (synthesizer_agent (answering "unused") state) = []
  /\ returned (synthesizer_agent (answering "unused") state)
     = Ok (whole (set_errors state
                    ["Failed to fetch news: rate limited"; missing_analysis])).
Proof.
  intros state.
  destruct (synthesizer_missing_analysis (answering "unused") state)
    as (H1 & H2 & _).
  - right. reflexivity.
  - split; [exact H1 | exact H2].
Defined.

(** The stage once both records are there, the prompt is built, the
    completion call has returned and the recommendation is a dictionary
    (decoded, or the fallback). *)
Lemma synthesizer_agent_record (env : Env) (state : InvestmentState)
  (fin sent : Dict) (prompt response_text : string) (d : Dict) :
  financial_analysis state = Some fin -> fin <> [] ->
  sentiment_analysis state = Some sent -> sent <> [] ->
  _build_synthesis_prompt (ticker state) (user_query state) fin sent
                          (analysis_plan state) = Ok prompt ->
  completion env prompt = Ok response_text ->
  loads_or response_text (synthesis_fallback response_text) = JDict d ->
  synthesizer_agent env state =
  {| made := [CallCompletion prompt];
     returned :=
       let state' := with_recommendation state d in
       match format_f 2 false (dict_get_default "confidence" (JInt 0) d) with
       | Ok shown_confidence =>
           Ok (whole (set_messages state'
                        (messages state
                         ++ [synthesizer_message state d shown_confidence])))
       | Raise e =>
           Ok (whole (set_errors state' (errors state ++ [synthesizer_error e])))
       end |}.
Proof.
  intros Hfin Hfin' Hsent Hsent' Hprompt Htext Hd.
  unfold synthesizer_agent. rewrite Hfin, Hsent.
  destruct fin as [|f0 fin]; [contradiction|].
  destruct sent as [|s0 sent]; [contradiction|].
  cbn [present negb orb or_else].
  unfold synthesizer_try, bind, get_state, call, lift, assign, ret.
  cbn beta iota. rewrite Hprompt. cbn beta iota delta [app].
  rewrite Htext. cbn beta iota delta [app]. rewrite Hd.
  cbn beta iota delta [py_get app].
  destruct (format_f 2 false (dict_get_default "confidence" (JInt 0) d));
    reflexivity.
Qed.

Section Synthesis.

Variables (env : Env) (state : InvestmentState) (fin sent : Dict).
Variables (prompt response_text : string).

Hypothesis Hfin : financial_analysis state = Some fin /\ fin <> [].
Hypothesis Hsent : sentiment_analysis state = Some sent /\ sent <> [].
Hypothesis Hprompt :
  _build_synthesis_prompt (ticker state) (user_query state) fin sent
                          (analysis_plan state) = Ok prompt.
Hypothesis Hcompletion : completion env prompt = Ok response_text.

Let decoded : option json := json_loads (clean_json_response response_text).

Lemma synthesizer_returns (d : Dict) :
  loads_or response_text (synthesis_fallback response_text) = JDict d ->
  exists u,
    returned (synthesizer_agent env state) = Ok u
    /\ u_recommendation u = Some (Some (JDict d))
    /\ forall shown_confidence,
        format_f 2 false (dict_get_default "confidence" (JInt 0) d)
        = Ok shown_confidence ->
        u_messages u
        = Some (messages state ++ [synthesizer_message state d shown_confidence]).
Proof.
  intros Hd. destruct Hfin as [Hf Hf'], Hsent as [Hs Hs'].
  rewrite (synthesizer_agent_record env state Hf Hf' Hs Hs' Hprompt Hcompletion Hd).
  cbn [returned].
  destruct (format_f 2 false (dict_get_default "confidence" (JInt 0) d)) as [sc|e].
  - eexists. split; [reflexivity|]. split; [reflexivity|].
    intros sc' E. injection E as <-. reflexivity.
  - eexists. split; [reflexivity|]. split; [reflexivity|]. discriminate.
Qed.

(** Claim C3 (amended): the recommendation record is the decoded
    completion output as it came, so its [action] is whatever the
    completion text supplied, one of BUY, HOLD or SELL or not, or absent;
    when the text does not decode, the fallback record is used and its
    [action] is "HOLD"; "UNKNOWN" stands in for a missing [action] in the
    log message only. *)
Theorem synthesizer_action :
  (forall d, decoded = Some (JDict d) ->
     exists u, returned (synthesizer_agent env state) = Ok u
               /\ u_recommendation u = Some (Some (JDict d)))
  /\
  (decoded = None ->
     exists u, returned (synthesizer_agent env state) = Ok u
               /\ u_recommendation u
                  = Some (Some (JDict (synthesis_fallback response_text)))
               /\ dict_get "action" (synthesis_fallback response_text)
                  = Some (JStr "HOLD"))
  /\
  (forall d shown_confidence,
     decoded = Some (JDict d) ->
     dict_get "action" d = None ->
     format_f 2 false (dict_get_default "confidence" (JInt 0) d)
     = Ok shown_confidence ->
     exists u, returned (synthesizer_agent env state) = Ok u
               /\ u_recommendation u = Some (Some (JDict d))
               /\ u_messages u
                  = Some (messages state
                          ++ [{| role := "synthesizer";
                                 content :=
                                   fstring ["Final recommendation for ";
                                            ticker state; ": "; "UNKNOWN";
                                            " (confidence: ";
                                            shown_confidence; ")"] |}])).
Proof.
  unfold decoded. repeat split.
  - intros d Hd.
    destruct (synthesizer_returns (d := d)) as (u & Hu & Hr & _).
    { unfold loads_or. now rewrite Hd. }
    eauto.
  - intros Hnone.
    destruct (synthesizer_returns (d := synthesis_fallback response_text))
      as (u & Hu & Hr & _).
    { unfold loads_or. now rewrite Hnone. }
    exists u. repeat split; assumption.
  - intros d sc Hd Haction Hsc.
    destruct (synthesizer_returns (d := d)) as (u & Hu & Hr & Hm).
    { unfold loads_or. now rewrite Hd. }
    exists u. split; [exact Hu|]. split; [exact Hr|].
    rewrite (Hm sc Hsc). unfold synthesizer_message, dict_get_default.
    now rewrite Haction.
Qed.

(** Claim C10: the synthesis stage is not atomic on its catch-all error
    path.  When the completion text decodes to an object whose
    [confidence] cannot be rendered by the [.2f] format of the log
    message (a string, null, a list or an object), the stage appends a
    "Synthesizer error" entry to [errors] and the state it hands back
    nevertheless holds the decoded object in [recommendation] and the
    values read from it in [confidence] and [reasoning]; no message is
    appended. *)
Theorem synthesizer_not_atomic (d : Dict) (e : string) :
  decoded = Some (JDict d) ->
  format_f 2 false (dict_get_default "confidence" (JInt 0) d) = Raise e ->
  exists u,
    returned (synthesizer_agent env state) = Ok u
    /\ u_errors u = Some (errors state ++ [synthesizer_error e])
    /\ u_recommendation u = Some (Some (JDict d))
    /\ u_confidence u = Some (Some (dict_get_default "confidence" half d))
    /\ u_reasoning u = Some (Some (dict_get_default "reasoning" (JStr "") d))
    /\ u_messages u = Some (messages state).
Proof.
  intros Hd He. destruct Hfin as [Hf Hf'], Hsent as [Hs Hs'].
  assert (Hl : loads_or response_text (synthesis_fallback response_text) = JDict d).
  { unfold loads_or. fold decoded. now rewrite Hd. }
  rewrite (synthesizer_agent_record env state Hf Hf' Hs Hs' Hprompt Hcompletion Hl).
  cbn [returned]. rewrite He.
  eexists. repeat split.
Qed.

End Synthesis.

Lemma synthesizer_action_witness :
  let env := answering (q "{'action': 'BUY', 'confidence': 0.8, 'reasoning': 'aligned'}") in
  exists u,
    returned (synthesizer_agent env both_analysed) = Ok u
    /\ u_recommendation u
       = Some (Some (JDict [("action", JStr "BUY");
                            ("confidence", JFloat (Dec 8 (-1)));
                            ("reasoning", JStr "aligned")])).
Proof.
  intros env.
  destruct (_build_synthesis_prompt (ticker both_analysed)
              (user_query both_analysed) sample_financial sample_sentiment
              (analysis_plan both_analysed)) as [prompt|e] eqn:Ep.
  2:{ vm_compute in Ep. discriminate. }
  assert (Hf : financial_analysis both_analysed = Some sample_financial
               /\ sample_financial <> [])
    by (split; [reflexivity | discriminate]).
  assert (Hs : sentiment_analysis both_analysed = Some sample_sentiment
               /\ sample_sentiment <> [])
    by (split; [reflexivity | discriminate]).
  assert (Hc : completion env prompt
               = Ok (q "{'action': 'BUY', 'confidence': 0.8, 'reasoning': 'aligned'}"))
    by reflexivity.
  destruct (synthesizer_action env both_analysed Hf Hs Ep Hc) as (H & _ & _).
  apply H. vm_compute. reflexivity.
Defined.

(** The claim as first stated fails: the action is not checked against
    BUY, HOLD and SELL, and the fallback record carries "HOLD", not
    "UNKNOWN". *)
Lemma synthesizer_action_counterexample :
  (let env := answering (q "{'action': 'STRONG BUY', 'confidence': 0.9, 'reasoning': 'momentum'}") in
   exists u d,
     returned (synthesizer_agent env both_analysed) = Ok u
     /\ u_recommendation u = Some (Some (JDict d))
     /\ dict_get "action" d = Some (JStr "STRONG BUY")
     /\ ~ In "STRONG BUY" ["BUY"; "HOLD"; "SELL"; "UNKNOWN"])
  /\
  (let env := answering "I would rather not commit to a call." in
   exists u d,
     returned (synthesizer_agent env both_analysed) = Ok u
     /\ u_recommendation u = Some (Some (JDict d))
     /\ json_loads (clean_json_response "I would rather not commit to a call.")
        = None
     /\ dict_get "action" d = Some (JStr "HOLD")).
Proof.
  split.
  - eexists. eexists. split; [vm_compute; reflexivity|].
    split; [reflexivity|]. split; [reflexivity|].
    simpl. intuition discriminate.
  - eexists. eexists. split; [vm_compute; reflexivity|].
    split; [reflexivity|]. split; reflexivity.
Qed.

Lemma synthesizer_not_atomic_witness :
  let env := answering (q "{'action': 'BUY', 'confidence': 'high', 'reasoning': 'aligned'}") in
  exists u,
    returned (synthesizer_agent env both_analysed) = Ok u
    /\ u_errors u
       = Some ["Synthesizer error: Unknown format code 'f' for object of type 'str'"]
    /\ u_recommendation u
       = Some (Some (JDict [("action", JStr "BUY");
                            ("confidence", JStr "high");
                            ("reasoning", JStr "aligned")]))
    /\ u_confidence u = Some (Some (JStr "high"))
    /\ u_reasoning u = Some (Some (JStr "aligned"))
    /\ u_messages u = Some (messages both_analysed).
Proof.
  intros env.
  destruct (_build_synthesis_prompt (ticker both_analysed)
              (user_query both_analysed) sample_financial sample_sentiment
              (analysis_plan both_analysed)) as [prompt|e] eqn:Ep.
  2:{ vm_compute in Ep. discriminate. }
  assert (Hf : financial_analysis both_analysed = Some sample_financial
               /\ sample_financial <> [])
    by (split; [reflexivity | discriminate]).
  assert (Hs : sentiment_analysis both_analysed = Some sample_sentiment
               /\ sample_sentiment <> [])
    by (split; [reflexivity | discriminate]).
  assert (Hc : completion env prompt
               = Ok (q "{'action': 'BUY', 'confidence': 'high', 'reasoning': 'aligned'}"))
    by reflexivity.
  apply (@synthesizer_not_atomic env both_analysed _ _ _ _ Hf Hs Ep Hc
           [("action", JStr "BUY"); ("confidence", JStr "high");
            ("reasoning", JStr "aligned")]).
  - vm_compute. reflexivity.
  - reflexivity.
Defined.

(** ** The fundamentals stage *)

(** The stage, case by case. *)
Lemma financial_agent_cases (env : Env) (state : InvestmentState) :
  let market_data := MarketDataMCP_fetch_data env (ticker state) in
  let fetch := CallMarketData (ticker state) in
  financial_agent env state =
  if md_success market_data then
    match _build_analysis_prompt (ticker state)
            (or_else (md_fundamentals market_data) [])
            (or_else (md_history market_data) [])
            (or_else (md_info market_data) [])
            (analysis_plan state) with
    | Raise e => {| made := [fetch]; returned := Ok (financial_error state e) |}
    | Ok prompt =>
        match completion env prompt with
        | Raise e =>
            {| made := [fetch; CallCompletion prompt];
               returned := Ok (financial_error state e) |}
        | Ok response_text =>
            match py_setitem (loads_or response_text
                                (financial_fallback response_text))
                             "raw_data" (raw_data_of market_data) with
            | Raise e =>
                {| made := [fetch; CallCompletion prompt];
                   returned := Ok (financial_error state e) |}
            | Ok analysis =>
                {| made := [fetch; CallCompletion prompt];
                   returned := Ok (financial_delta state analysis) |}
            end
        end
    end
  else
    {| made := [fetch];
       returned :=
         Ok (whole (set_errors state
                      (errors state
                       ++ [fstring ["Failed to fetch market data: ";
                                    opt_str (md_error market_data)]]))) |}.
Proof.
  intros market_data fetch.
  unfold financial_agent, financial_try, bind, get_state, call, lift, assign, ret.
  cbn beta iota. fold market_data.
  destruct (md_success market_data); cbn beta iota delta [negb app];
    [|reflexivity].
  destruct (_build_analysis_prompt _ _ _ _ _) as [prompt|e];
    cbn beta iota delta [app]; [|reflexivity].
  destruct (completion env prompt) as [text|e];
    cbn beta iota delta [app]; [|reflexivity].
  fold (raw_data_of market_data).
  destruct (py_setitem _ _ _) as [analysis|e];
    cbn beta iota delta [app]; reflexivity.
Qed.

(** Without a plan the fundamentals stage still fetches the market data;
    it makes no completion call, produces no record and hands back one new
    error entry. *)
Lemma financial_agent_without_plan (env : Env) (state : InvestmentState) :
  analysis_plan state = None ->
  made (financial_agent env state) = [CallMarketData (ticker state)]
  /\ exists e,
      returned (financial_agent env state)
      = Ok (whole (set_errors state (errors state ++ [e])))
      \/ returned (financial_agent env state)
         = Ok (errors_only (errors state ++ [e])).
Proof.
  intros Hplan. rewrite financial_agent_cases. cbv zeta.
  destruct (md_success _).
  - unfold _build_analysis_prompt. rewrite Hplan. cbn [pbind made returned].
    split; [reflexivity|]. eexists. right. reflexivity.
  - cbn [made returned]. split; [reflexivity|]. eexists. left. reflexivity.
Qed.

(** Without a plan and without a fundamentals record the sentiment stage
    still fetches the news; it makes no completion call, and on a fetch
    without articles it writes the canned record. *)
Lemma sentiment_agent_without_plan (env : Env) (state : InvestmentState) :
  analysis_plan state = None ->
  financial_analysis state = None ->
  made (sentiment_agent env state) = [CallNews (ticker state) JNull]
  /\ forall nd,
      news env (ticker state) JNull = Ok nd ->
      nd_success nd = true -> nd_articles nd = [] ->
      exists u, returned (sentiment_agent env state) = Ok u
                /\ u_sentiment_analysis u = Some (Some no_news_analysis).
Proof.
  intros Hplan Hfin.
  unfold sentiment_agent, company_name_of. rewrite Hfin. cbn [present].
  unfold sentiment_try, bind, get_state, call, lift, assign, ret.
  cbn beta iota. rewrite Hplan.
  destruct (news env (ticker state) JNull) as [nd|e]; cbn beta iota delta [made].
  2:{ split; [reflexivity|]. discriminate. }
  destruct (nd_success nd) eqn:Hok; cbn beta iota delta [negb made app].
  2:{ split; [reflexivity|]. intros nd' E. injection E as <-. congruence. }
  destruct (nd_articles nd) as [|a rest] eqn:Ea;
    cbn beta iota delta [length Nat.eqb made app pbind _build_sentiment_prompt].
  - split; [reflexivity|]. intros nd' E _ _. eexists. split; reflexivity.
  - split; [reflexivity|]. intros nd' E. injection E as <-. congruence.
Qed.

(** What the synthesis stage does when a record is missing. *)
Lemma synthesizer_agent_missing (env : Env) (state : InvestmentState) :
  present (financial_analysis state) = false
  \/ present (sentiment_analysis state) = false ->
  synthesizer_agent env state
  = {| made := [];
       returned := Ok (whole (set_errors state
                                (errors state ++ [missing_analysis]))) |}.
Proof.
  intros H. unfold synthesizer_agent.
  destruct H as [H|H]; rewrite H; [|rewrite orb_true_r]; reflexivity.
Qed.

(** ** After a failed planner *)

Lemma planned_blank (t query : string) :
  forallb isspace (unpack t) = true ->
  planned t query = set_errors (initial_state t query) ["No ticker provided"].
Proof.
  intros H. unfold planned, coordinator_agent.
  assert (Hs0 : forallb isspace (unpack (ticker (initial_state t query))) = true).
  { unfold initial_state, upper. simpl. rewrite unpack_pack.
    now apply blank_upper. }
  rewrite (strip_upper_blank _ Hs0). reflexivity.
Qed.

(** Claim C2 (amended): when the planner fails validation it leaves no
    plan and the single entry "No ticker provided" in [errors].  No
    downstream stage looks at the plan before it acts.  The fundamentals
    stage still calls the market-data collaborator, makes no completion
    call, produces no record and hands back one further error entry.  The
    sentiment stage still calls the news collaborator, makes no
    completion call, and when the fetch succeeds with zero articles it
    produces the canned neutral record.  The synthesis stage, run without
    a fundamentals record, makes no call, produces no recommendation and
    hands back the entry "Missing required analysis data for synthesis". *)
Theorem downstream_after_failed_planner (env : Env) (t query : string) :
  forallb isspace (unpack t) = true ->
  let s1 := planned t query in
  (analysis_plan s1 = None /\ errors s1 = ["No ticker provided"])
  /\
  (made (financial_agent env s1) = [CallMarketData (ticker s1)]
   /\ exists u e,
       returned (financial_agent env s1) = Ok u
       /\ u_errors u = Some (errors s1 ++ [e])
       /\ (u_financial_analysis u = None \/ u_financial_analysis u = Some None))
  /\
  (made (sentiment_agent env s1) = [CallNews (ticker s1) JNull]
   /\ forall nd,
       news env (ticker s1) JNull = Ok nd ->
       nd_success nd = true -> nd_articles nd = [] ->
       exists u, returned (sentiment_agent env s1) = Ok u
                 /\ u_sentiment_analysis u = Some (Some no_news_analysis))
  /\
  (forall s2,
      financial_analysis s2 = None ->
      made (synthesizer_agent env s2) = []
      /\ exists u,
          returned (synthesizer_agent env s2) = Ok u
          /\ u_recommendation u = Some (recommendation s2)
          /\ u_errors u = Some (errors s2 ++ [missing_analysis])).
Proof.
  intros Hblank s1.
  assert (E : s1 = set_errors (initial_state t query) ["No ticker provided"])
    by now apply planned_blank.
  assert (Hplan : analysis_plan s1 = None) by now rewrite E.
  assert (Hfin : financial_analysis s1 = None) by now rewrite E.
  split; [split; [exact Hplan | now rewrite E]|].
  split; [|split].
  - destruct (financial_agent_without_plan env s1 Hplan) as (Hmade & e & [Hr|Hr]).
    + split; [exact Hmade|]. eexists. exists e. split; [exact Hr|].
      split; [reflexivity|]. right.
      change (Some (financial_analysis s1) = Some None). now rewrite Hfin.
    + split; [exact Hmade|]. eexists. exists e. split; [exact Hr|].
      split; [reflexivity|]. left. reflexivity.
  - now apply sentiment_agent_without_plan.
  - intros s2 Hs2. rewrite synthesizer_agent_missing
      by (left; now rewrite Hs2).
    split; [reflexivity|]. eexists. repeat split.
Qed.

Lemma downstream_after_failed_planner_witness :
  let s1 := planned "" "Should I buy?" in
  made (financial_agent quiet_news s1) = [CallMarketData ""]
  /\ made (sentiment_agent quiet_news s1) = [CallNews "" JNull]
  /\ exists u, returned (sentiment_agent quiet_news s1) = Ok u
               /\ u_sentiment_analysis u = Some (Some no_news_analysis).
Proof.
  intros s1.
  destruct (downstream_after_failed_planner quiet_news "" "Should I buy?")
    as (_ & [Hf _] & [Hn Hrec] & _).
  { reflexivity. }
  split; [exact Hf|]. split; [exact Hn|].
  apply (Hrec {| nd_success := true; nd_error := None; nd_articles := [] |});
    reflexivity.
Defined.

(** The claim as first stated fails.  After the planner has rejected the
    empty ticker, the fundamentals stage calls the market-data
    collaborator and a second, different error entry reaches [errors];
    the sentiment stage calls the news collaborator and, the fetch
    returning no article, produces a sentiment record and a message. *)
Lemma downstream_after_failed_planner_counterexample :
  let s1 := planned "" "Should I buy?" in
  analysis_plan s1 = None
  /\ errors s1 = ["No ticker provided"]
  /\ run_stage (financial_agent quiet_news) s1
     = ([CallMarketData ""],
        Ok (set_errors s1
              ["No ticker provided"; "No ticker provided";
               "Failed to fetch market data: Ticker must be a non-empty string"]))
  /\ made (sentiment_agent quiet_news s1) = [CallNews "" JNull]
  /\ exists s2,
      snd (run_stage (sentiment_agent quiet_news) s1) = Ok s2
      /\ sentiment_analysis s2 = Some no_news_analysis
      /\ messages s2 = [{| role := "sentiment_agent";
                           content := "No news articles found for " |}].
Proof.
  vm_compute. repeat split. eexists. repeat split.
Qed.

(** ** The message log *)




(** ** The decoder terminates within its fuel *)

Lemma drop_while_length (p : ascii -> bool) (l : chars) :
  length (drop_while p l) <= length l.
Proof.
  induction l as [|c l IH]; simpl; [lia|].
  destruct (p c); simpl; lia.
Qed.

Lemma skip_ws_length (l : chars) : length (skip_ws l) <= length l.
Proof. apply drop_while_length. Qed.

Lemma span_digits_length (l d rest : chars) :
  span_digits l = (d, rest) -> length rest <= length l.
Proof.
  revert d rest. induction l as [|c l IH]; intros d rest; simpl.
  - intros H. injection H as <- <-. simpl. lia.
  - destruct (is_digit c).
    + destruct (span_digits l) as [d' rest'] eqn:E.
      intros H. injection H as <- <-. specialize (IH _ _ eq_refl). lia.
    + intros H. injection H as <- <-. simpl. lia.
Qed.

Lemma join_surrogate_length (hi : N) (l : chars) (cp : N) (rest : chars) :
  join_surrogate hi l = Some (cp, rest) -> length rest <= length l.
Proof.
  unfold join_surrogate.
  destruct l as [|b [|u [|h1 [|h2 [|h3 [|h4 r]]]]]];
    try (intros H; injection H as <- <-; simpl; lia).
  destruct (Ascii.eqb b "\" && Ascii.eqb u "u").
  - destruct (hex4 h1 h2 h3 h4); [|discriminate].
    destruct (is_low_surrogate n); intros H; injection H as <- <-; simpl; lia.
  - intros H; injection H as <- <-; simpl; lia.
Qed.

Lemma scan_string_length (f : nat) :
  forall (l acc : chars) (s : string) (rest : chars),
    scan_string f l acc = Some (s, rest) -> length rest < length l.
Proof.
  induction f as [|f IH]; intros l acc s rest H; [discriminate|].
  destruct l as [|c r]; [discriminate|]. cbn [scan_string] in H.
  destruct (Ascii.eqb c dq).
  { injection H as <- <-. simpl. lia. }
  destruct (Ascii.eqb c "\").
  - destruct r as [|e r']; [discriminate|].
    repeat match type of H with
           | (if ?b then _ else _) = _ =>
               destruct b;
               [try (apply IH in H; simpl in *; lia)|]
           end; try discriminate.
    destruct r' as [|h1 [|h2 [|h3 [|h4 r'']]]]; try discriminate.
    destruct (hex4 h1 h2 h3 h4) as [cp|]; [|discriminate].
    destruct (is_high_surrogate cp).
    + destruct (join_surrogate cp r'') as [[cp' rest']|] eqn:E; [|discriminate].
      apply join_surrogate_length in E. apply IH in H. simpl in *. lia.
    + apply IH in H. simpl in *. lia.
  - destruct (nat_of_ascii c <? 32); [discriminate|].
    apply IH in H. simpl in *. lia.
Qed.

(** The string scanner gives the same result for every fuel that covers
    the characters left: its [None] is a malformed or unterminated
    string. *)
Lemma scan_string_fuel (n : nat) :
  forall (f1 f2 : nat) (l acc : chars),
    length l <= n -> length l <= f1 -> length l <= f2 ->
    scan_string f1 l acc = scan_string f2 l acc.
Proof.
  induction n as [|n IH]; intros f1 f2 l acc Hn H1 H2.
  - destruct l; [|simpl in Hn; lia]. destruct f1, f2; reflexivity.
  - destruct l as [|c r]; [destruct f1, f2; reflexivity|].
    destruct f1 as [|f1]; [simpl in H1; lia|].
    destruct f2 as [|f2]; [simpl in H2; lia|].
    simpl in Hn, H1, H2. cbn [scan_string].
    destruct (Ascii.eqb c dq); [reflexivity|].
    destruct (Ascii.eqb c "\").
    + destruct r as [|e r']; [reflexivity|]. simpl in Hn, H1, H2.
      repeat match goal with
             | |- (if ?b then _ else _) = (if ?b then _ else _) =>
                 destruct b; [apply IH; lia|]
             end.
      destruct (Ascii.eqb e "u"); [|reflexivity].
      destruct r' as [|h1 [|h2 [|h3 [|h4 r'']]]]; try reflexivity.
      destruct (hex4 h1 h2 h3 h4) as [cp|]; [|reflexivity].
      simpl in Hn, H1, H2.
      destruct (is_high_surrogate cp).
      * destruct (join_surrogate cp r'') as [[cp' rest']|] eqn:E; [|reflexivity].
        apply join_surrogate_length in E. apply IH; lia.
      * apply IH; lia.
    + destruct (nat_of_ascii c <? 32); [reflexivity|]. apply IH; lia.
Qed.

Lemma scan_number_length (l : chars) (v : json) (rest : chars) :
  scan_number l = Some (v, rest) -> length rest < length l.
Proof.
  unfold scan_number.
  assert (Hneg : forall neg l1,
             match l with
             | c :: r => if Ascii.eqb c "-" then (true, r) else (false, l)
             | [] => (false, l)
             end = (neg, l1) -> length l1 <= length l).
  { intros neg l1. destruct l as [|c r].
    - intros H. injection H as <- <-. lia.
    - destruct (Ascii.eqb c "-"); intros H; injection H as <- <-; simpl; lia. }
  destruct (match l with
            | c :: r => if Ascii.eqb c "-" then (true, r) else (false, l)
            | [] => (false, l)
            end) as [neg l1] eqn:E1.
  specialize (Hneg _ _ eq_refl).
  destruct l1 as [|c r1]; [discriminate|].
  destruct (is_digit c) eqn:Hc; [|discriminate].
  destruct (if Ascii.eqb c "0" then ([c], r1) else span_digits (c :: r1))
    as [int_digits l2] eqn:E2.
  assert (H2 : length l2 <= length r1).
  { destruct (Ascii.eqb c "0").
    - injection E2 as <- <-. lia.
    - simpl in E2. rewrite Hc in E2.
      destruct (span_digits r1) as [d' rest'] eqn:E.
      injection E2 as <- <-. now apply span_digits_length in E. }
  match goal with
  | |- context [let (frac, l3) := ?e in _] => destruct e as [frac l3] eqn:E3
  end.
  assert (H3 : length l3 <= length l2).
  { destruct l2 as [|d r2]; [injection E3 as <- <-; lia|].
    destruct (Ascii.eqb d ".").
    - destruct (span_digits r2) as [[|x fd] rest'] eqn:E;
        injection E3 as <- <-; [lia|].
      apply span_digits_length in E. simpl. lia.
    - injection E3 as <- <-. lia. }
  match goal with
  | |- context [let (expo, l4) := ?e in _] => destruct e as [expo l4] eqn:E4
  end.
  assert (H4 : length l4 <= length l3).
  { destruct l3 as [|e r3]; [injection E4 as <- <-; lia|].
    destruct (Ascii.eqb e "e" || Ascii.eqb e "E").
    - match type of E4 with
      | (let (sgn, r4) := ?x in _) = _ => destruct x as [sgn r4] eqn:E5
      end.
      assert (H5 : length r4 <= length r3).
      { destruct r3 as [|s x]; [injection E5 as <- <-; lia|].
        destruct (Ascii.eqb s "-"); [injection E5 as <- <-; simpl; lia|].
        destruct (Ascii.eqb s "+"); injection E5 as <- <-; simpl; lia. }
      destruct (span_digits r4) as [[|y ed] rest'] eqn:E;
        injection E4 as <- <-; [lia|].
      apply span_digits_length in E. simpl. lia.
    - injection E4 as <- <-. lia. }
  simpl in Hneg.
  destruct frac, expo; intros H; injection H as <- <-; simpl in *; lia.
Qed.

Lemma literal_length (word : string) (v v' : json) (l rest : chars) :
  literal word v l = POk v' rest -> l <> [] -> word <> ""%string ->
  length rest < length l.
Proof.
  unfold literal. destruct (startswith_l (unpack word) l); [|discriminate].
  intros H Hl Hw. injection H as <- <-.
  rewrite length_skipn. destruct l; [contradiction|].
  destruct word; [contradiction|]. simpl. lia.
Qed.

Ltac skip_facts :=
  repeat match goal with
         | E : skip_ws ?x = _ |- _ =>
             let H := fresh "Hskip" in
             pose proof (skip_ws_length x) as H; rewrite E in H;
             simpl in H; revert E
         end; intros.

(** Every successful parse consumes at least one character. *)
Lemma parse_length (f : nat) :
  (forall l v rest, parse_value f l = POk v rest -> length rest < length l)
  /\ (forall l acc v rest,
        parse_members f l acc = POk v rest -> length rest < length l)
  /\ (forall l acc v rest,
        parse_elements f l acc = POk v rest -> length rest < length l).
Proof.
  induction f as [|f (IHv & IHm & IHe)].
  { repeat split; intros; discriminate. }
  repeat split.
  - intros l v rest H. destruct l as [|c r]; [discriminate|].
    cbn [parse_value] in H.
    destruct (Ascii.eqb c dq).
    { destruct (scan_string _ r []) as [[s rest']|] eqn:E; [|discriminate].
      injection H as <- <-. apply scan_string_length in E. simpl. lia. }
    destruct (Ascii.eqb c "{").
    { destruct (skip_ws r) as [|c1 r1] eqn:E; [discriminate|]. skip_facts.
      destruct (Ascii.eqb c1 "}").
      - injection H as <- <-. simpl. lia.
      - apply IHm in H. simpl in *. lia. }
    destruct (Ascii.eqb c "[").
    { destruct (skip_ws r) as [|c1 r1] eqn:E; [discriminate|]. skip_facts.
      destruct (Ascii.eqb c1 "]").
      - injection H as <- <-. simpl. lia.
      - apply IHe in H. simpl in *. lia. }
    destruct (Ascii.eqb c "n").
    { apply literal_length in H; [exact H | discriminate | discriminate]. }
    destruct (Ascii.eqb c "t").
    { apply literal_length in H; [exact H | discriminate | discriminate]. }
    destruct (Ascii.eqb c "f").
    { apply literal_length in H; [exact H | discriminate | discriminate]. }
    destruct (scan_number (c :: r)) as [[v' rest']|] eqn:E.
    { injection H as <- <-. now apply scan_number_length in E. }
    repeat match type of H with
           | (if ?b then _ else _) = _ =>
               destruct b;
               [apply literal_length in H;
                [exact H | discriminate | discriminate]|]
           end.
    discriminate.
  - intros l acc v rest H. destruct l as [|c r]; [discriminate|].
    cbn [parse_members] in H.
    destruct (Ascii.eqb c dq); [|discriminate].
    destruct (scan_string _ r []) as [[key r1]|] eqn:Ek; [|discriminate].
    apply scan_string_length in Ek.
    destruct (skip_ws r1) as [|colon r2] eqn:E1; [discriminate|].
    destruct (Ascii.eqb colon ":"); [|discriminate].
    destruct (parse_value f (skip_ws r2)) as [v3 r3| |] eqn:Ev; try discriminate.
    apply IHv in Ev. pose proof (skip_ws_length r2) as H2.
    destruct (skip_ws r3) as [|c4 r4] eqn:E3; [discriminate|]. skip_facts.
    destruct (Ascii.eqb c4 "}").
    { injection H as <- <-. simpl in *. lia. }
    destruct (Ascii.eqb c4 ","); [|discriminate].
    apply IHm in H. pose proof (skip_ws_length r4). simpl in *. lia.
  - intros l acc v rest H. cbn [parse_elements] in H.
    destruct (parse_value f l) as [v1 r1| |] eqn:Ev; try discriminate.
    apply IHv in Ev.
    destruct (skip_ws r1) as [|c2 r2] eqn:E1; [discriminate|]. skip_facts.
    destruct (Ascii.eqb c2 "]").
    { injection H as <- <-. simpl in *. lia. }
    destruct (Ascii.eqb c2 ","); [|discriminate].
    apply IHe in H. pose proof (skip_ws_length r2). simpl in *. lia.
Qed.

Lemma literal_fuel (word : string) (v : json) (l : chars) :
  literal word v l <> PFuel.
Proof. unfold literal. destruct (startswith_l _ _); discriminate. Qed.

(** Two units of fuel per character (and one or two more) are enough. *)
Lemma parse_fuel (f : nat) :
  (forall l, 2 * length l + 1 <= f -> parse_value f l <> PFuel)
  /\ (forall l acc, 2 * length l + 2 <= f -> parse_members f l acc <> PFuel)
  /\ (forall l acc, 2 * length l + 2 <= f -> parse_elements f l acc <> PFuel).
Proof.
  induction f as [|f (IHv & IHm & IHe)].
  { repeat split; intros; lia. }
  destruct (parse_length f) as (Lv & Lm & Le).
  repeat split.
  - intros l Hf. destruct l as [|c r]; [discriminate|].
    cbn [parse_value]. simpl in Hf.
    destruct (Ascii.eqb c dq).
    { destruct (scan_string _ r []) as [[s rest']|]; discriminate. }
    destruct (Ascii.eqb c "{").
    { destruct (skip_ws r) as [|c1 r1] eqn:E; [discriminate|]. skip_facts.
      destruct (Ascii.eqb c1 "}"); [discriminate|].
      apply IHm. simpl. lia. }
    destruct (Ascii.eqb c "[").
    { destruct (skip_ws r) as [|c1 r1] eqn:E; [discriminate|]. skip_facts.
      destruct (Ascii.eqb c1 "]"); [discriminate|].
      apply IHe. simpl. lia. }
    repeat match goal with
           | |- (if ?b then _ else _) <> _ =>
               destruct b; [apply literal_fuel|]
           end.
    destruct (scan_number (c :: r)) as [[v' rest']|]; [discriminate|].
    repeat match goal with
           | |- (if ?b then _ else _) <> _ =>
               destruct b; [apply literal_fuel|]
           end.
    discriminate.
  - intros l acc Hf. destruct l as [|c r]; [discriminate|].
    cbn [parse_members]. simpl in Hf.
    destruct (Ascii.eqb c dq); [|discriminate].
    destruct (scan_string _ r []) as [[key r1]|] eqn:Ek; [|discriminate].
    apply scan_string_length in Ek.
    destruct (skip_ws r1) as [|colon r2] eqn:E1; [discriminate|]. skip_facts.
    destruct (Ascii.eqb colon ":"); [|discriminate].
    pose proof (skip_ws_length r2) as H2.
    destruct (parse_value f (skip_ws r2)) as [v3 r3| |] eqn:Ev;
      [| discriminate | exfalso; revert Ev; apply IHv; lia].
    apply Lv in Ev.
    destruct (skip_ws r3) as [|c4 r4] eqn:E3; [discriminate|]. skip_facts.
    destruct (Ascii.eqb c4 "}"); [discriminate|].
    destruct (Ascii.eqb c4 ","); [|discriminate].
    apply IHm. pose proof (skip_ws_length r4). simpl in *. lia.
  - intros l acc Hf. cbn [parse_elements].
    destruct (parse_value f l) as [v1 r1| |] eqn:Ev;
      [| discriminate | exfalso; revert Ev; apply IHv; lia].
    apply Lv in Ev.
    destruct (skip_ws r1) as [|c2 r2] eqn:E1; [discriminate|]. skip_facts.
    destruct (Ascii.eqb c2 "]"); [discriminate|].
    destruct (Ascii.eqb c2 ","); [|discriminate].
    apply IHe. pose proof (skip_ws_length r2). simpl in *. lia.
Qed.

(** The decoder never runs out of fuel: [None] from [json_loads] is a
    decoding error. *)
Lemma json_loads_enough_fuel (s : string) :
  let l := skip_ws (unpack s) in
  parse_value (2 * length l + 1) l <> PFuel.
Proof. intros l. apply (proj1 (parse_fuel _)). lia. Qed.

(** ** More on the planner *)





(** Property X2.  The focus areas of a query are never empty and hold no
    area twice; they are either the single area "comprehensive" or a
    selection of the four specific areas in the order risk_assessment,
    fundamentals, technical, news_sentiment; "comprehensive" never comes
    with another area. *)
Theorem focus_areas_shape (query : string) :
  let areas := _determine_focus_areas query in
  areas <> []
  /\ NoDup areas
  /\ (areas = ["comprehensive"]
      \/ exists keep, areas = filter keep focus_vocabulary)
  /\ (In "comprehensive" areas -> areas = ["comprehensive"]).
Proof.
  unfold _determine_focus_areas.
  repeat match goal with
         | |- context [any_in ?ws ?t] => destruct (any_in ws t)
         end; cbn [app]; (split; [discriminate|]); (split; [|split]);
    try (left; reflexivity);
    try (repeat constructor; simpl; intuition discriminate);
    try (simpl; intuition discriminate).
  all: right.
  all: match goal with
       | |- exists keep, ?l = _ =>
           exists (fun a => existsb (String.eqb a) l); reflexivity
       end.
Qed.

Lemma any_in_embed (words : list string) (a q b : string) :
  any_in words (lower q) = true ->
  any_in words (lower (a ++ q ++ b)) = true.
Proof.
  unfold any_in. rewrite !existsb_exists.
  intros (w & Hw & Hc). exists w. split; [exact Hw|].
  now apply contains_phrase.
Qed.

(** Property X3.  Keyword matching is by containment, so what one phrase
    triggers, any longer query around it triggers too: urgency "urgent",
    the intent "buy_decision" (the first one tested) and every specific
    focus area. *)
Theorem keywords_survive_embedding (a query b : string) :
  (_assess_time_sensitivity query = "urgent" ->
   _assess_time_sensitivity (a ++ query ++ b) = "urgent")
  /\ (_classify_user_intent query = "buy_decision" ->
      _classify_user_intent (a ++ query ++ b) = "buy_decision")
  /\ (forall area, area <> "comprehensive" ->
        In area (_determine_focus_areas query) ->
        In area (_determine_focus_areas (a ++ query ++ b))).
Proof.
  split; [|split].
  - unfold _assess_time_sensitivity.
    destruct (any_in _ (lower query)) eqn:E; [|discriminate].
    intros _. now rewrite (@any_in_embed _ a query b E).
  - unfold _classify_user_intent.
    destruct (any_in buy_words (lower query)) eqn:E.
    + intros _. now rewrite (@any_in_embed _ a query b E).
    + repeat match goal with
             | |- context [if ?c then _ else _] => destruct c
             end; discriminate.
  - intros area Harea. unfold _determine_focus_areas.
    destruct (any_in ["risk"; "risky"; "safe"; "volatile"; "volatility"]
                     (lower query)) eqn:E1;
    destruct (any_in ["value"; "fundamental"; "earnings"; "revenue"; "profit"]
                     (lower query)) eqn:E2;
    destruct (any_in ["price"; "trend"; "momentum"; "technical"; "chart"]
                     (lower query)) eqn:E3;
    destruct (any_in ["news"; "sentiment"; "recent"; "latest"; "happening"]
                     (lower query)) eqn:E4;
    try rewrite (@any_in_embed _ a query b E1);
    try rewrite (@any_in_embed _ a query b E2);
    try rewrite (@any_in_embed _ a query b E3);
    try rewrite (@any_in_embed _ a query b E4);
    cbn [app]; intros Hin;
    repeat match goal with
           | |- context [any_in ?ws ?t] => destruct (any_in ws t)
           end; cbn [app]; simpl in Hin |- *; intuition congruence.
Qed.

(** [fstring] of three pieces. *)
Lemma fstring3 (a b c : string) : fstring [a; b; c] = (a ++ b ++ c)%string.
Proof. reflexivity. Qed.

(** Property X4.  Without a user query the run asks "Should I invest in
    <ticker>?", with the ticker as it was typed; this default query
    holds the keyword "invest", so the planner reads it as a buy
    decision whatever the ticker. *)
Theorem default_query_is_buy_decision (t : string) :
  let state := initial_state t "" in
  user_query state = ("Should I invest in " ++ t ++ "?")%string
  /\ _classify_user_intent (user_query state) = "buy_decision"
  /\ (strip (upper (ticker state)) <> "" ->
      exists plan,
        u_analysis_plan (coordinator_agent state) = Some (Some plan)
        /\ user_intent (plan_context plan) = "buy_decision").
Proof.
  intros state.
  assert (Hq : user_query state = ("Should I invest in " ++ t ++ "?")%string)
    by reflexivity.
  assert (Hi : _classify_user_intent (user_query state) = "buy_decision").
  { rewrite Hq. unfold _classify_user_intent.
    assert (H : any_in buy_words (lower ("" ++ "Should I invest in " ++ (t ++ "?")))
                = true).
    { apply any_in_embed. reflexivity. }
    change ("" ++ "Should I invest in " ++ (t ++ "?"))%string
      with ("Should I invest in " ++ t ++ "?")%string in H.
    now rewrite H. }
  split; [exact Hq|]. split; [exact Hi|].
  intros Hticker. unfold coordinator_agent, is_empty.
  destruct (String.eqb_spec (strip (upper (ticker state))) "") as [E|_];
    [contradiction|].
  eexists. split; [reflexivity|]. exact Hi.
Qed.

Lemma upper_char_not_lower (c : ascii) : is_lower_letter (upper_char c) = false.
Proof. destruct c as [[] [] [] [] [] [] [] []]; vm_compute; reflexivity. Qed.

Lemma strip_l_incl (l : chars) (c : ascii) : In c (strip_l l) -> In c l.
Proof.
  unfold strip_l. intros H. apply rstrip_incl in H. now apply lstrip_incl in H.
Qed.

Lemma drop_while_head (p : ascii -> bool) (l : chars) (c : ascii) (r : chars) :
  drop_while p l = c :: r -> p c = false.
Proof.
  induction l as [|x l IH]; simpl; [discriminate|].
  destruct (p x) eqn:E; [exact IH|].
  intros H. injection H as <- _. exact E.
Qed.

Lemma drop_while_fixed (p : ascii -> bool) (l : chars) :
  (forall c r, l = c :: r -> p c = false) -> drop_while p l = l.
Proof.
  destruct l as [|c r]; [reflexivity|]. intros H. simpl.
  now rewrite (H c r eq_refl).
Qed.

(** The ends of a stripped text are not blank. *)
Lemma strip_l_ends (l : chars) :
  (forall c r, strip_l l = c :: r -> isspace c = false)
  /\ (forall c r, rev (strip_l l) = c :: r -> isspace c = false).
Proof.
  split.
  - intros c r H. unfold strip_l, rstrip_l in H.
    destruct (lstrip_l l) as [|c0 r0] eqn:E.
    { simpl in H. discriminate. }
    assert (Hc0 : isspace c0 = false) by (eapply drop_while_head; exact E).
    (* the head survives the right strip *)
    assert (H' : rstrip_l (c0 :: r0) = c0 :: rstrip_l r0).
    { apply (@rstrip_stop [] r0 c0 Hc0). }
    unfold rstrip_l in H'. rewrite H' in H. injection H as <- _. exact Hc0.
  - intros c r H. unfold strip_l, rstrip_l in H. rewrite rev_involutive in H.
    eapply drop_while_head. exact H.
Qed.

Lemma strip_l_idempotent (l : chars) : strip_l (strip_l l) = strip_l l.
Proof.
  destruct (strip_l_ends l) as [Hhead Hlast].
  unfold strip_l at 1. unfold lstrip_l.
  rewrite drop_while_fixed by exact Hhead.
  unfold rstrip_l. rewrite drop_while_fixed by exact Hlast.
  apply rev_involutive.
Qed.

Lemma strip_idempotent (s : string) : strip (strip s) = strip s.
Proof. unfold strip. now rewrite unpack_pack, strip_l_idempotent. Qed.

(** Property X5.  For a ticker that is not blank the planner makes a
    plan whose ticker is the state's ticker upper-cased and trimmed
    (trimming it again changes nothing and it holds no lower-case
    letter) and whose two [perform] flags are set; folded into the
    state, its dictionary leaves the state's own ticker (not trimmed),
    the query, the errors, the two analysis records and the
    recommendation as they were. *)
Theorem planner_plan_shape (state : InvestmentState) :
  strip (upper (ticker state)) <> "" ->
  (exists plan,
      u_analysis_plan (coordinator_agent state) = Some (Some plan)
      /\ plan_ticker plan = strip (upper (ticker state))
      /\ perform_financial_analysis plan = true
      /\ perform_sentiment_analysis plan = true
      /\ strip (plan_ticker plan) = plan_ticker plan
      /\ forallb (fun c => negb (is_lower_letter c)) (unpack (plan_ticker plan))
         = true)
  /\
  (let state' := apply_update state (coordinator_agent state) in
   ticker state' = ticker state
   /\ user_query state' = user_query state
   /\ errors state' = errors state
   /\ financial_analysis state' = financial_analysis state
   /\ sentiment_analysis state' = sentiment_analysis state
   /\ recommendation state' = recommendation state).
Proof.
  intros Hticker. unfold coordinator_agent, is_empty.
  destruct (String.eqb_spec (strip (upper (ticker state))) "") as [E|_];
    [contradiction|].
  split.
  - eexists. split; [reflexivity|]. cbn [plan_ticker perform_financial_analysis
                                         perform_sentiment_analysis].
    repeat split.
    + apply strip_idempotent.
    + apply forallb_forall. intros c Hc.
      unfold strip, upper in Hc. rewrite !unpack_pack in Hc.
      apply strip_l_incl in Hc. apply in_map_iff in Hc as (c0 & <- & _).
      now rewrite upper_char_not_lower.
  - cbn. rewrite app_nil_r. repeat split.
Qed.

Lemma keywords_survive_embedding_witness :
  _assess_time_sensitivity "Tell me, is it urgent? Thanks" = "urgent"
  /\ In "risk_assessment"
        (_determine_focus_areas "Honestly: how risky is it? Thanks").
Proof.
  split.
  - apply (proj1 (keywords_survive_embedding "Tell me, " "is it urgent"
                    "? Thanks")).
    reflexivity.
  - apply (proj2 (proj2 (keywords_survive_embedding "Honestly: "
                           "how risky is it" "? Thanks"))
             "risk_assessment").
    + discriminate.
    + cbn. now left.
Defined.

Lemma default_query_is_buy_decision_witness :
  exists plan,
    u_analysis_plan (coordinator_agent (initial_state "nvda" ""))
    = Some (Some plan)
    /\ user_intent (plan_context plan) = "buy_decision".
Proof.
  apply (proj2 (proj2 (default_query_is_buy_decision "nvda"))).
  vm_compute. discriminate.
Defined.

Lemma planner_plan_shape_witness :
  exists plan,
    u_analysis_plan (coordinator_agent (initial_state "  nvda " "Is it risky?"))
    = Some (Some plan)
    /\ plan_ticker plan = "NVDA"
    /\ ticker (apply_update (initial_state "  nvda " "Is it risky?")
                 (coordinator_agent (initial_state "  nvda " "Is it risky?")))
       = "  NVDA ".
Proof.
  assert (Hne : strip (upper (ticker (initial_state "  nvda " "Is it risky?")))
                <> "") by (vm_compute; discriminate).
  destruct (planner_plan_shape (initial_state "  nvda " "Is it risky?") Hne)
    as [(plan & Hplan & Hticker & _) (Hkeep & _)].
  exists plan. split; [exact Hplan|]. split.
  - rewrite Hticker. vm_compute. reflexivity.
  - rewrite Hkeep. vm_compute. reflexivity.
Defined.

(** ** More on the normalizer *)

Lemma drop_while_split (p : ascii -> bool) (l : chars) :
  exists a, l = a ++ drop_while p l /\ forallb p a = true.
Proof.
  induction l as [|c l (a & E & Ha)]; simpl.
  - exists []. split; reflexivity.
  - destruct (p c) eqn:Hc.
    + exists (c :: a). simpl. rewrite Hc, Ha. split; [now rewrite <- E | reflexivity].
    + exists []. split; reflexivity.
Qed.

Lemma forallb_neq_not_in (c : ascii) (l : chars) :
  forallb (fun x => negb (Ascii.eqb x c)) l = true -> ~ In c l.
Proof.
  intros H Hin. rewrite forallb_forall in H. specialize (H c Hin).
  now rewrite Ascii.eqb_refl in H.
Qed.

(** Property X6.  The brace search, read backwards: a match is the span
    from the first opening brace of the text to its last closing brace. *)
Theorem brace_span_is_first_to_last (text span : chars) :
  re_search_braces text = Some span ->
  exists pre mid post,
    text = pre ++ span ++ post
    /\ span = ob :: mid ++ [cb]
    /\ ~ In ob pre /\ ~ In cb post.
Proof.
  unfold re_search_braces.
  destruct (drop_while_split (fun c => negb (Ascii.eqb c "{")) text)
    as (pre & Etext & Hpre).
  destruct (drop_while (fun c => negb (Ascii.eqb c "{")) text)
    as [|open tail] eqn:Eopen; [discriminate|].
  assert (Hopen : open = ob).
  { apply drop_while_head in Eopen. apply negb_false_iff in Eopen.
    now apply Ascii.eqb_eq in Eopen. }
  subst open.
  destruct (drop_while_split (fun c => negb (Ascii.eqb c "}")) (rev tail))
    as (rpost & Etail & Hpost).
  destruct (drop_while (fun c => negb (Ascii.eqb c "}")) (rev tail))
    as [|close rmid] eqn:Eclose; [discriminate|].
  assert (Hclose : close = cb).
  { apply drop_while_head in Eclose. apply negb_false_iff in Eclose.
    now apply Ascii.eqb_eq in Eclose. }
  subst close. intros H. injection H as <-.
  exists pre, (rev rmid), (rev rpost).
  assert (Et : tail = rev rmid ++ [cb] ++ rev rpost).
  { rewrite <- (rev_involutive tail), Etail, rev_app_distr. simpl.
    now rewrite <- app_assoc. }
  repeat split.
  - rewrite Etext at 1. rewrite Et. simpl. now rewrite <- app_assoc.
  - now apply forallb_neq_not_in.
  - intros Hin. apply in_rev in Hin. revert Hin. now apply forallb_neq_not_in.
Qed.

(** Property X7.  No match means that no closing brace follows an
    opening brace. *)
Theorem no_brace_span (text : chars) :
  re_search_braces text = None <->
  (forall pre mid post, text <> pre ++ ob :: mid ++ cb :: post).
Proof.
  split.
  - intros Hnone pre mid post ->. revert Hnone. unfold re_search_braces.
    rewrite drop_while_stop by reflexivity.
    destruct (drop_while _ pre ++ ob :: mid ++ cb :: post) as [|open tail] eqn:E.
    { destruct (drop_while _ pre); discriminate. }
    assert (Hin : In cb tail).
    { assert (H : In cb (open :: tail)).
      { rewrite <- E. apply in_or_app. right. right.
        apply in_or_app. right. now left. }
      destruct H as [H|H]; [|exact H].
      subst open. exfalso.
      destruct (drop_while (fun c => negb (Ascii.eqb c "{")) pre) as [|x r] eqn:Ed.
      - simpl in E. discriminate.
      - simpl in E. injection E as -> _.
        apply drop_while_head in Ed. discriminate. }
    destruct (drop_while (fun c => negb (Ascii.eqb c "}")) (rev tail)) eqn:Er;
      [|discriminate].
    exfalso.
    assert (H : In cb (drop_while (fun c => negb (Ascii.eqb c "}")) (rev tail))).
    { apply drop_while_keeps; [now apply -> in_rev | reflexivity]. }
    rewrite Er in H. destruct H.
  - intros H. destruct (re_search_braces text) as [span|] eqn:E; [|reflexivity].
    destruct (@brace_span_is_first_to_last _ _ E) as (pre & mid & post & Et & -> & _).
    exfalso. apply (H pre mid post). rewrite Et. simpl.
    now rewrite <- app_assoc.
Qed.

(** What the cleaning returns: a trimmed text; either the brace span, which
    cleaning again leaves as it is, or a text without any brace span. *)
Lemma clean_chars_result (text : chars) :
  let cleaned := clean_chars text in
  strip_l cleaned = cleaned
  /\ (startswith_l fence cleaned = false -> clean_chars cleaned = cleaned)
  /\ ((exists mid, cleaned = ob :: mid ++ [cb])
      \/ re_search_braces cleaned = None).
Proof.
  intros cleaned.
  assert (Hdef : exists t, strip_l t = t
            /\ cleaned = match re_search_braces t with
                         | Some span => span | None => t end).
  { unfold cleaned, clean_chars. cbv zeta.
    set (t := if startswith_l fence (strip_l text) then _ else _).
    exists t. split; [|reflexivity].
    unfold t. destruct (startswith_l fence (strip_l text));
      apply strip_l_idempotent. }
  destruct Hdef as (t & Ht & Hdef). clearbody cleaned. subst cleaned.
  destruct (re_search_braces t) as [span|] eqn:E.
  - destruct (@brace_span_is_first_to_last _ _ E) as (pre & mid & post & _ & -> & _).
    assert (Hclean : clean_chars (ob :: mid ++ [cb]) = ob :: mid ++ [cb]).
    { apply (@clean_chars_object [] mid []); simpl; try tauto. discriminate. }
    split; [|split].
    + pose proof (strip_object [] mid []) as H. simpl in H. exact H.
    + intros _. exact Hclean.
    + left. exists mid. reflexivity.
  - split; [exact Ht|]. split; [|right; exact E].
    intros Hf. unfold clean_chars. cbv zeta. rewrite Ht, Hf, E. reflexivity.
Qed.

(** Property X8.  The cleaned text is trimmed, and cleaning is stable on
    its own results: unless the cleaned text itself begins with a fence
    of three backticks, cleaning it again gives it back unchanged. *)
Theorem clean_json_response_stable (response_text : string) :
  let cleaned := clean_json_response response_text in
  strip cleaned = cleaned
  /\ (startswith cleaned (pack fence) = false ->
      clean_json_response cleaned = cleaned).
Proof.
  unfold clean_json_response, strip, startswith.
  destruct (clean_chars_result (unpack response_text)) as (Hs & Hc & _).
  cbv zeta in *. rewrite !unpack_pack. split.
  - now rewrite Hs.
  - intros Hf. now rewrite (Hc Hf).
Qed.

Lemma brace_span_is_first_to_last_witness :
  exists pre mid post,
    unpack "Sure: {'a': {'b': 1}} done" = pre ++ unpack "{'a': {'b': 1}}" ++ post
    /\ unpack "{'a': {'b': 1}}" = ob :: mid ++ [cb]
    /\ ~ In ob pre /\ ~ In cb post.
Proof.
  apply (@brace_span_is_first_to_last (unpack "Sure: {'a': {'b': 1}} done")
           (unpack "{'a': {'b': 1}}")).
  vm_compute. reflexivity.
Defined.

Lemma clean_json_response_stable_witness :
  clean_json_response (clean_json_response "Here you go: {'a': 1} Bye")
  = clean_json_response "Here you go: {'a': 1} Bye".
Proof.
  apply (proj2 (clean_json_response_stable "Here you go: {'a': 1} Bye")).
  vm_compute. reflexivity.
Defined.

(** ** More on the fundamentals stage *)




(** Property X10.  Every record the fundamentals stage produces after a
    successful fetch carries the fetched data under [raw_data], whatever
    the completion text said under that key, and agrees with the decoded
    object (or the fallback record) on every other key. *)
Theorem financial_record_raw_data (env : Env) (state : InvestmentState)
  (u : Update) (analysis : Dict) :
  let market_data := MarketDataMCP_fetch_data env (ticker state) in
  md_success market_data = true ->
  returned (financial_agent env state) = Ok u ->
  u_financial_analysis u = Some (Some analysis) ->
  dict_get "raw_data" analysis = Some (raw_data_of market_data)
  /\ exists prompt response_text d,
      made (financial_agent env state)
      = [CallMarketData (ticker state); CallCompletion prompt]
      /\ completion env prompt = Ok response_text
      /\ loads_or response_text (financial_fallback response_text) = JDict d
      /\ forall k, k <> "raw_data" -> dict_get k analysis = dict_get k d.
Proof.
  intros market_data Hok. rewrite financial_agent_cases. cbv zeta.
  fold market_data. rewrite Hok.
  destruct (_build_analysis_prompt _ _ _ _ _) as [prompt|e];
    [|cbn; intros [= <-]; discriminate].
  destruct (completion env prompt) as [text|e] eqn:Ec;
    [|cbn; intros [= <-]; discriminate].
  destruct (loads_or text (financial_fallback text)) as [| | | | | |d] eqn:El;
    try (cbn; intros [= <-]; discriminate).
  cbn [py_setitem returned made]. intros [= <-]. cbn [financial_delta u_financial_analysis].
  intros [= <-]. split.
  - apply dict_get_set_same.
  - exists prompt, text, d. repeat split; try assumption.
    intros k Hk. apply dict_get_set_other. congruence.
Qed.

Lemma financial_record_raw_data_witness :
  exists analysis,
    u_financial_analysis
      (financial_delta (planned "nvda" "") analysis) = Some (Some analysis)
    /\ returned (financial_agent all_good (planned "nvda" ""))
       = Ok (financial_delta (planned "nvda" "") analysis)
    /\ dict_get "raw_data" analysis
       = Some (raw_data_of (MarketDataMCP_fetch_data all_good "NVDA"))
    /\ dict_get "assessment" analysis = Some (JStr "ok").
Proof.
  eexists. split; [reflexivity|]. split; [vm_compute; reflexivity|].
  split.
  - eapply proj1.
    eapply (@financial_record_raw_data all_good (planned "nvda" ""));
      vm_compute; reflexivity.
  - vm_compute. reflexivity.
Defined.

(** ** Which stage lets an exception out *)

Lemma financial_agent_returns (env : Env) (state : InvestmentState) :
  exists u, returned (financial_agent env state) = Ok u.
Proof.
  rewrite financial_agent_cases. cbv zeta.
  destruct (md_success _); [|eexists; reflexivity].
  destruct (_build_analysis_prompt _ _ _ _ _); [|eexists; reflexivity].
  destruct (completion env _); [|eexists; reflexivity].
  destruct (py_setitem _ _ _); eexists; reflexivity.
Qed.

Lemma sentiment_try_returns (env : Env) (name : json) (state : InvestmentState) :
  exists u, returned
              (match sentiment_try env name state with
               | {| calls := c; final := state; outcome := Ok result |} =>
                   {| made := c; returned := Ok result |}
               | {| calls := c; final := state; outcome := Raise e |} =>
                   {| made := c;
                      returned :=
                        Ok (errors_only
                              (errors state
                               ++ [fstring ["Sentiment agent error: "; e]])) |}
               end) = Ok u.
Proof.
  destruct (sentiment_try env name state) as [c s [r|e]]; eexists; reflexivity.
Qed.

Lemma synthesizer_agent_returns (env : Env) (state : InvestmentState) :
  exists u, returned (synthesizer_agent env state) = Ok u.
Proof.
  unfold synthesizer_agent. cbv zeta.
  destruct (negb _ || negb _); [eexists; reflexivity|].
  destruct (synthesizer_try _ _ _ _) as [c s [r|e]]; eexists; reflexivity.
Qed.

(** The company name the sentiment stage reads for its news query. *)
Lemma company_name_of_cases (state : InvestmentState) :
  company_name_of state
  = match financial_analysis state with
    | Some (kv :: fin) =>
        match company_info_of (kv :: fin) with
        | Some info => Ok (dict_get_default "company_name" JNull info)
        | None =>
            match dict_get_default "raw_data" (JDict []) (kv :: fin) with
            | JDict raw =>
                Raise (fstring ["'";
                                type_name (dict_get_default "company_info"
                                             (JDict []) raw);
                                "' object has no attribute 'get'"])
            | v => Raise (fstring ["'"; type_name v;
                                   "' object has no attribute 'get'"])
            end
        end
    | _ => Ok JNull
    end.
Proof.
  unfold company_name_of, company_info_of.
  destruct (financial_analysis state) as [[|kv fin]|]; try reflexivity.
  cbn [present or_else].
  destruct (dict_get_default "raw_data" (JDict []) (kv :: fin)) as [| | | | | |raw];
    try reflexivity.
  cbn [py_get pbind].
  destruct (dict_get_default "company_info" (JDict []) raw); reflexivity.
Qed.

(** Property X11.  The fundamentals and the synthesis stage hand back a
    dictionary whatever their collaborators do. The sentiment stage lets
    an exception out in one case only, and then before any call is made:
    the state holds a non-empty fundamentals record whose [raw_data], or
    the [company_info] inside it, is not a dictionary. *)
Theorem stage_exceptions (env : Env) (state : InvestmentState) :
  (exists u, returned (financial_agent env state) = Ok u)
  /\ (exists u, returned (synthesizer_agent env state) = Ok u)
  /\ ((exists e, returned (sentiment_agent env state) = Raise e)
      <-> exists fin,
           financial_analysis state = Some fin /\ fin <> []
           /\ company_info_of fin = None)
  /\ (forall e, returned (sentiment_agent env state) = Raise e ->
        made (sentiment_agent env state) = []).
Proof.
  split; [apply financial_agent_returns|].
  split; [apply synthesizer_agent_returns|].
  assert (Hraise : forall e,
             returned (sentiment_agent env state) = Raise e
             <-> company_name_of state = Raise e).
  { intros e. unfold sentiment_agent.
    destruct (company_name_of state) as [name|e0].
    - destruct (sentiment_try_returns env name state) as [u Hu].
      rewrite Hu. split; discriminate.
    - cbn [returned]. split; intros [= ->]; reflexivity. }
  split.
  - split.
    + intros [e H]. apply Hraise in H. rewrite company_name_of_cases in H.
      destruct (financial_analysis state) as [[|kv fin]|]; try discriminate.
      exists (kv :: fin). split; [reflexivity|]. split; [discriminate|].
      destruct (company_info_of (kv :: fin)); [discriminate | reflexivity].
    + intros (fin & Hfin & Hne & Hinfo).
      assert (exists e, company_name_of state = Raise e) as [e He].
      { rewrite company_name_of_cases, Hfin.
        destruct fin as [|kv fin]; [contradiction|]. rewrite Hinfo.
        destruct (dict_get_default "raw_data" (JDict []) (kv :: fin));
          eexists; reflexivity. }
      exists e. apply Hraise. exact He.
  - intros e H. apply Hraise in H. unfold sentiment_agent. rewrite H.
    reflexivity.
Qed.

Lemma stage_exceptions_witness :
  returned (sentiment_agent all_good
              (analysed (Some [("raw_data", JNull)]) None))
  = Raise "'NoneType' object has no attribute 'get'"
  /\ made (sentiment_agent all_good
             (analysed (Some [("raw_data", JNull)]) None)) = [].
Proof.
  split; [vm_compute; reflexivity|].
  apply (proj2 (proj2 (proj2
           (stage_exceptions all_good
              (analysed (Some [("raw_data", JNull)]) None))))
           "'NoneType' object has no attribute 'get'").
  vm_compute. reflexivity.
Defined.

(** Property X12.  A record written by the fundamentals stage never
    makes the sentiment stage raise: the company name read from it is
    the [company_name] of the fetched company information, [None] when
    that has none. *)
Theorem company_name_after_fundamentals (env : Env)
  (state later : InvestmentState) (u : Update) (analysis : Dict) :
  let market_data := MarketDataMCP_fetch_data env (ticker state) in
  md_success market_data = true ->
  returned (financial_agent env state) = Ok u ->
  u_financial_analysis u = Some (Some analysis) ->
  financial_analysis later = Some analysis ->
  company_name_of later
  = Ok (dict_get_default "company_name" JNull
          (or_else (md_info market_data) [])).
Proof.
  intros market_data Hok. rewrite financial_agent_cases. cbv zeta.
  fold market_data. rewrite Hok.
  destruct (_build_analysis_prompt _ _ _ _ _) as [prompt|e];
    [|cbn; intros [= <-]; discriminate].
  destruct (completion env prompt) as [text|e] eqn:Ec;
    [|cbn; intros [= <-]; discriminate].
  destruct (loads_or text (financial_fallback text)) as [| | | | | |d] eqn:El;
    try (cbn; intros [= <-]; discriminate).
  cbn [py_setitem returned]. intros [= <-].
  cbn [financial_delta u_financial_analysis]. intros [= <-] Hlater.
  rewrite company_name_of_cases, Hlater.
  assert (Hraw : dict_get_default "raw_data" (JDict [])
                   (dict_set "raw_data" (raw_data_of market_data) d)
                 = raw_data_of market_data).
  { unfold dict_get_default. now rewrite dict_get_set_same. }
  destruct (dict_set "raw_data" (raw_data_of market_data) d) as [|kv r] eqn:Es.
  { destruct d as [|[k v] d]; [discriminate|]. cbn in Es.
    destruct (String.eqb k "raw_data"); discriminate. }
  unfold company_info_of. rewrite Hraw. reflexivity.
Qed.

Lemma company_name_after_fundamentals_witness :
  exists analysis,
    returned (financial_agent all_good (planned "nvda" ""))
    = Ok (financial_delta (planned "nvda" "") analysis)
    /\ company_name_of
         (apply_update (planned "nvda" "")
            (financial_delta (planned "nvda" "") analysis))
       = Ok (JStr "NVIDIA").
Proof.
  eexists. split; [vm_compute; reflexivity|].
  eapply (@company_name_after_fundamentals all_good (planned "nvda" ""));
    vm_compute; reflexivity.
Defined.

(** ** More on the sentiment stage *)



Lemma firstn_firstn_same {A : Type} (n : nat) (l : list A) :
  firstn n (firstn n l) = firstn n l.
Proof. rewrite firstn_firstn. now rewrite Nat.min_id. Qed.

(** Property X14.  The sentiment prompt is built from the first twenty
    articles only: articles beyond the twentieth do not reach the
    completion service, although the record's [article_count] counts
    them. *)
Theorem sentiment_prompt_first_twenty (ticker_arg : string)
  (articles : list Dict) (plan : option AnalysisPlan) :
  _build_sentiment_prompt ticker_arg articles plan
  = _build_sentiment_prompt ticker_arg (firstn 20 articles) plan
  /\ forall more,
      20 <= length articles ->
      _build_sentiment_prompt ticker_arg (articles ++ more) plan
      = _build_sentiment_prompt ticker_arg articles plan.
Proof.
  unfold _build_sentiment_prompt. cbv zeta. split.
  - now rewrite firstn_firstn_same.
  - intros more Hlen. rewrite firstn_app.
    replace (20 - length articles) with 0 by lia.
    cbn [firstn]. now rewrite app_nil_r.
Qed.

Lemma sentiment_prompt_first_twenty_witness :
  _build_sentiment_prompt "NVDA"
    (repeat (headline "a") 20 ++ [headline "late"]) (Some sample_plan)
  = _build_sentiment_prompt "NVDA" (repeat (headline "a") 20)
      (Some sample_plan).
Proof.
  apply (proj2 (sentiment_prompt_first_twenty "NVDA"
                  (repeat (headline "a") 20) (Some sample_plan))).
  cbn. lia.
Defined.

(** ** More on the synthesis stage *)

Lemma pack_length (l : chars) : String.length (pack l) = length l.
Proof. induction l as [|c l IH]; cbn; [reflexivity | now rewrite <- IH]. Qed.

Lemma slice_to_length (n : nat) (s : string) :
  String.length (slice_to n s) <= n.
Proof. unfold slice_to. rewrite pack_length. apply firstn_le_length. Qed.

Lemma slice_to_prefix (n : nat) (s : string) :
  exists rest, s = (slice_to n s ++ rest)%string.
Proof.
  exists (pack (skipn n (unpack s))). unfold slice_to.
  now rewrite <- pack_app, firstn_skipn, pack_unpack.
Qed.

Lemma synthesizer_agent_shape (env : Env) (state : InvestmentState) :
  exists s',
    returned (synthesizer_agent env state) = Ok (whole s')
    /\ ticker s' = ticker state /\ user_query s' = user_query state
    /\ analysis_plan s' = analysis_plan state
    /\ financial_analysis s' = financial_analysis state
    /\ sentiment_analysis s' = sentiment_analysis state
    /\ ((exists m, role m = "synthesizer"
                   /\ messages s' = messages state ++ [m]
                   /\ errors s' = errors state)
        \/ (exists e, messages s' = messages state
                      /\ errors s' = errors state ++ [e])).
Proof.
  unfold synthesizer_agent. cbv zeta.
  destruct (negb _ || negb _).
  { eexists. split; [reflexivity|]. repeat (split; [reflexivity|]).
    right. eexists. split; reflexivity. }
  unfold synthesizer_try, bind, get_state, call, lift, assign, ret.
  cbn beta iota.
  destruct (_build_synthesis_prompt _ _ _ _ _) as [prompt|e];
    cbn beta iota delta [app].
  2:{ eexists. split; [reflexivity|]. repeat (split; [reflexivity|]).
      right. eexists. split; reflexivity. }
  destruct (completion env prompt) as [text|e]; cbn beta iota delta [app].
  2:{ eexists. split; [reflexivity|]. repeat (split; [reflexivity|]).
      right. eexists. split; reflexivity. }
  destruct (loads_or text (synthesis_fallback text)) as [| | | | | |d];
    cbn beta iota delta [py_get app];
    try (eexists; split; [reflexivity|]; repeat (split; [reflexivity|]);
         right; eexists; split; reflexivity).
  destruct (format_f 2 false (dict_get_default "confidence" (JInt 0) d));
    cbn beta iota delta [app].
  - eexists. split; [reflexivity|]. repeat (split; [reflexivity|]).
    left. refine (ex_intro _ {| role := "synthesizer"; content := _ |} _).
    split; [|split]; reflexivity.
  - eexists. split; [reflexivity|]. repeat (split; [reflexivity|]).
    right. eexists. split; reflexivity.
Qed.

(** Property X15.  Whatever the collaborators do, the synthesis stage
    hands back the whole state with [ticker], [user_query], the plan and
    the two analysis records as it found them, and logs exactly once:
    either one message of its own is appended and [errors] is as it was,
    or one error entry is appended and [messages] is as it was. *)
Theorem synthesizer_logs_once (env : Env) (state : InvestmentState) :
  exists s',
    returned (synthesizer_agent env state) = Ok (whole s')
    /\ ticker s' = ticker state /\ user_query s' = user_query state
    /\ analysis_plan s' = analysis_plan state
    /\ financial_analysis s' = financial_analysis state
    /\ sentiment_analysis s' = sentiment_analysis state
    /\ ((exists m, role m = "synthesizer"
                   /\ messages s' = messages state ++ [m]
                   /\ errors s' = errors state)
        \/ (exists e, messages s' = messages state
                      /\ errors s' = errors state ++ [e])).
Proof. apply synthesizer_agent_shape. Qed.

(** Property X16.  When the decoded recommendation has no [confidence]
    key, the state records the confidence 0.5 while the stage's message
    reports 0.00: the two reads of the key use different defaults. *)
Theorem synthesizer_confidence_defaults (env : Env) (state : InvestmentState)
  (fin sent : Dict) (prompt response_text : string) (d : Dict) :
  financial_analysis state = Some fin -> fin <> [] ->
  sentiment_analysis state = Some sent -> sent <> [] ->
  _build_synthesis_prompt (ticker state) (user_query state) fin sent
                          (analysis_plan state) = Ok prompt ->
  completion env prompt = Ok response_text ->
  json_loads (clean_json_response response_text) = Some (JDict d) ->
  dict_get "confidence" d = None ->
  exists u,
    returned (synthesizer_agent env state) = Ok u
    /\ u_confidence u = Some (Some half)
    /\ u_messages u
       = Some (messages state ++ [synthesizer_message state d "0.00"]).
Proof.
  intros Hf Hf' Hs Hs' Hp Hc Hd Hk.
  assert (Hl : loads_or response_text (synthesis_fallback response_text)
               = JDict d).
  { unfold loads_or. now rewrite Hd. }
  rewrite (synthesizer_agent_record env state Hf Hf' Hs Hs' Hp Hc Hl).
  cbn [returned]. unfold dict_get_default at 1. rewrite Hk.
  cbn [format_f]. eexists. split; [reflexivity|]. split.
  - cbn. unfold dict_get_default. now rewrite Hk.
  - reflexivity.
Qed.

(** Property X17.  When the completion text does not decode, the
    recommendation is the fallback record: action HOLD, confidence 0.5,
    and as reasoning the first 1000 characters of the text; the message
    reports "HOLD (confidence: 0.50)" and no error is logged. *)
Theorem synthesizer_fallback_record (env : Env) (state : InvestmentState)
  (fin sent : Dict) (prompt response_text : string) :
  financial_analysis state = Some fin -> fin <> [] ->
  sentiment_analysis state = Some sent -> sent <> [] ->
  _build_synthesis_prompt (ticker state) (user_query state) fin sent
                          (analysis_plan state) = Ok prompt ->
  completion env prompt = Ok response_text ->
  json_loads (clean_json_response response_text) = None ->
  exists u reason,
    returned (synthesizer_agent env state) = Ok u
    /\ u_recommendation u = Some (Some (JDict (synthesis_fallback response_text)))
    /\ u_confidence u = Some (Some half)
    /\ u_reasoning u = Some (Some (JStr reason))
    /\ String.length reason <= 1000
    /\ (exists rest, response_text = (reason ++ rest)%string)
    /\ u_errors u = Some (errors state)
    /\ u_messages u
       = Some (messages state
               ++ [{| role := "synthesizer";
                      content :=
                        fstring ["Final recommendation for "; ticker state;
                                 ": HOLD (confidence: 0.50)"] |}]).
Proof.
  intros Hf Hf' Hs Hs' Hp Hc Hd.
  assert (Hl : loads_or response_text (synthesis_fallback response_text)
               = JDict (synthesis_fallback response_text)).
  { unfold loads_or. now rewrite Hd. }
  rewrite (synthesizer_agent_record env state Hf Hf' Hs Hs' Hp Hc Hl).
  cbn [returned].
  exists (whole (set_messages
                   (with_recommendation state (synthesis_fallback response_text))
                   (messages state
                    ++ [synthesizer_message state
                          (synthesis_fallback response_text) "0.50"]))),
    (slice_to 1000 response_text).
  split; [reflexivity|]. split; [reflexivity|]. split; [reflexivity|].
  split; [reflexivity|]. split; [apply slice_to_length|].
  split; [apply slice_to_prefix|]. split; reflexivity.
Qed.

Lemma synthesizer_confidence_defaults_witness :
  let env := answering (q "{'action': 'BUY', 'reasoning': 'aligned'}") in
  exists u,
    returned (synthesizer_agent env both_analysed) = Ok u
    /\ u_confidence u = Some (Some half)
    /\ u_messages u
       = Some (messages both_analysed
               ++ [{| role := "synthesizer";
                      content :=
                        "Final recommendation for NVDA: BUY (confidence: 0.00)" |}]).
Proof.
  intros env.
  destruct (_build_synthesis_prompt (ticker both_analysed)
              (user_query both_analysed) sample_financial sample_sentiment
              (analysis_plan both_analysed)) as [prompt|e] eqn:Ep.
  2:{ vm_compute in Ep. discriminate. }
  assert (Hc : completion env prompt
               = Ok (q "{'action': 'BUY', 'reasoning': 'aligned'}"))
    by reflexivity.
  apply (@synthesizer_confidence_defaults env both_analysed
           sample_financial sample_sentiment prompt _
           [("action", JStr "BUY"); ("reasoning", JStr "aligned")]
           eq_refl ltac:(discriminate) eq_refl ltac:(discriminate) Ep Hc).
  - vm_compute. reflexivity.
  - reflexivity.
Defined.

Lemma synthesizer_fallback_record_witness :
  let env := answering "I would rather not commit to a call." in
  exists u reason,
    returned (synthesizer_agent env both_analysed) = Ok u
    /\ u_recommendation u
       = Some (Some (JDict (synthesis_fallback
                              "I would rather not commit to a call.")))
    /\ u_confidence u = Some (Some half)
    /\ u_reasoning u = Some (Some (JStr reason))
    /\ String.length reason <= 1000
    /\ (exists rest,
          "I would rather not commit to a call." = (reason ++ rest)%string)
    /\ u_errors u = Some (errors both_analysed)
    /\ u_messages u
       = Some (messages both_analysed
               ++ [{| role := "synthesizer";
                      content :=
                        fstring ["Final recommendation for ";
                                 ticker both_analysed;
                                 ": HOLD (confidence: 0.50)"] |}]).
Proof.
  intros env.
  destruct (_build_synthesis_prompt (ticker both_analysed)
              (user_query both_analysed) sample_financial sample_sentiment
              (analysis_plan both_analysed)) as [prompt|e] eqn:Ep.
  2:{ vm_compute in Ep. discriminate. }
  assert (Hc : completion env prompt
               = Ok "I would rather not commit to a call.")
    by reflexivity.
  apply (@synthesizer_fallback_record env both_analysed
           sample_financial sample_sentiment prompt _
           eq_refl ltac:(discriminate) eq_refl ltac:(discriminate) Ep Hc).
  vm_compute. reflexivity.
Defined.

(** ** What the stages read of the plan *)

Lemma agree_but_plan_refl (r : StageRun) : agree_but_plan r r.
Proof.
  split; [reflexivity|]. destruct (returned r); reflexivity.
Qed.

Ltac same_run := split; [reflexivity | cbn [returned]; reflexivity].

(** Property X18.  Of the plan, the stages read the focus areas (the two
    analysis prompts) and the user intent (the synthesis prompt) and
    nothing else: with another plan that has the same focus areas and
    intent, in particular with [perform_financial_analysis] or
    [perform_sentiment_analysis] switched off, every stage makes the
    same calls and returns the same dictionary, the plan it carries back
    apart. *)
Theorem plan_flags_are_not_read (env : Env) (state : InvestmentState)
  (plan plan' : AnalysisPlan) :
  focus_areas plan = focus_areas plan' ->
  user_intent (plan_context plan) = user_intent (plan_context plan') ->
  agree_but_plan (financial_agent env (with_plan state (Some plan)))
                 (financial_agent env (with_plan state (Some plan')))
  /\ agree_but_plan (sentiment_agent env (with_plan state (Some plan)))
                    (sentiment_agent env (with_plan state (Some plan')))
  /\ agree_but_plan (synthesizer_agent env (with_plan state (Some plan)))
                    (synthesizer_agent env (with_plan state (Some plan'))).
Proof.
  intros Hfocus Hintent. split; [|split].
  - rewrite !financial_agent_cases. cbv zeta.
    cbn [with_plan ticker analysis_plan errors].
    destruct (md_success _); [|same_run].
    unfold _build_analysis_prompt. cbn [pbind]. rewrite Hfocus.
    destruct (format_f 0 true _); cbn [pbind]; [|same_run].
    destruct (completion env _); [|same_run].
    destruct (py_setitem _ _ _); same_run.
  - unfold sentiment_agent.
    change (company_name_of (with_plan state (Some plan)))
      with (company_name_of state).
    change (company_name_of (with_plan state (Some plan')))
      with (company_name_of state).
    destruct (company_name_of state) as [name|e]; [|same_run].
    unfold sentiment_try, bind, get_state, call, lift, assign, ret.
    cbn beta iota delta [with_plan ticker analysis_plan].
    destruct (news env (ticker state) name) as [nd|e]; cbn beta iota;
      [|same_run].
    destruct (nd_success nd); cbn beta iota delta [negb app]; [|same_run].
    destruct (length (nd_articles nd) =? 0); cbn beta iota delta [app];
      [same_run|].
    unfold _build_sentiment_prompt. cbn [pbind]. rewrite Hfocus.
    destruct (completion env _); cbn beta iota delta [app]; [|same_run].
    destruct (py_setitem _ _ _); cbn beta iota delta [app]; same_run.
  - unfold synthesizer_agent. cbv zeta.
    cbn [with_plan financial_analysis sentiment_analysis].
    destruct (negb _ || negb _); [same_run|].
    unfold synthesizer_try, bind, get_state, call, lift, assign, ret.
    cbn beta iota delta [with_plan ticker user_query analysis_plan].
    unfold _build_synthesis_prompt. cbn [pbind]. rewrite Hintent.
    match goal with
    | |- context [lift ?p] => destruct p as [prompt|e]
    | |- context [match ?p with Ok _ => _ | Raise _ => _ end] =>
        destruct p as [prompt|e]
    end; cbn beta iota delta [app]; [|same_run].
    destruct (completion env prompt); cbn beta iota delta [app]; [|same_run].
    destruct (loads_or _ _); cbn beta iota delta [py_get app]; try same_run.
    destruct (format_f 2 false _); cbn beta iota delta [app]; same_run.
Qed.

Lemma plan_flags_are_not_read_witness :
  let skipping :=
    {| plan_ticker := "ignored";
       perform_financial_analysis := false;
       perform_sentiment_analysis := false;
       focus_areas := ["comprehensive"];
       plan_context := {| user_intent := "buy_decision";
                          time_sensitivity := "urgent" |} |} in
  agree_but_plan
    (financial_agent all_good (with_plan both_analysed (Some sample_plan)))
    (financial_agent all_good (with_plan both_analysed (Some skipping)))
  /\ made (financial_agent all_good (with_plan both_analysed (Some skipping)))
     <> [].
Proof.
  intros skipping. split.
  - apply (proj1 (@plan_flags_are_not_read all_good both_analysed
                    sample_plan skipping eq_refl eq_refl)).
  - vm_compute. discriminate.
Defined.

(** ** The market-data readers *)

(** Property X19.  The fundamentals dictionary always holds every
    metric, with [None] for a value the data source does not give: the
    'N/A' default of the fundamentals prompt is never used, and a
    missing metric is printed as "None". *)
Theorem fundamentals_metrics_always_present (info : Dict) (metric source : string) :
  In (metric, source) metric_sources ->
  dict_get metric (_get_fundamentals info) = Some (get_or_none info source)
  /\ (forall default,
        shown (_get_fundamentals info) metric default
        = py_str (get_or_none info source))
  /\ (dict_get source info = None ->
      shown (_get_fundamentals info) metric na = "None").
Proof.
  intros Hin.
  assert (H : dict_get metric (_get_fundamentals info)
              = Some (get_or_none info source)).
  { cbn in Hin.
    repeat (destruct Hin as [[= <- <-]|Hin]; [reflexivity|]).
    contradiction. }
  split; [exact H|]. split.
  - intros default. unfold shown, dict_get_default. now rewrite H.
  - intros Hnone. unfold shown, dict_get_default. rewrite H.
    unfold get_or_none, dict_get_default. now rewrite Hnone.
Qed.

Lemma fundamentals_metrics_always_present_witness :
  shown (_get_fundamentals [("beta", JInt 1)]) "pe_ratio" na = "None".
Proof.
  apply (proj2 (proj2 (@fundamentals_metrics_always_present
                         [("beta", JInt 1)] "pe_ratio" "trailingPE"
                         (or_introl eq_refl)))).
  reflexivity.
Defined.

(** Property X20.  The company information read from [stock.info]:
    reading raises exactly when the business summary is there and is
    neither a text nor a list; otherwise the eight keys are all present,
    the company name is the long name, else the short name, else
    "Unknown", and a text summary is cut to its first 500 characters. *)
Theorem stock_info_shape (info : Dict) :
  let summary := dict_get_default "longBusinessSummary" (JStr "") info in
  (sliceable summary = false <-> exists e, _get_stock_info info = Raise e)
  /\ forall company_info,
      _get_stock_info info = Ok company_info ->
      map fst company_info
      = ["company_name"; "sector"; "industry"; "market_cap"; "current_price";
         "currency"; "exchange"; "description"]
      /\ dict_get "company_name" company_info
         = Some (match dict_get "longName" info, dict_get "shortName" info with
                 | Some name, _ => name
                 | None, Some name => name
                 | None, None => JStr "Unknown"
                 end)
      /\ dict_get "market_cap" company_info
         = Some (get_or_none info "marketCap")
      /\ (forall text, summary = JStr text ->
            exists cut rest,
              dict_get "description" company_info = Some (JStr cut)
              /\ text = (cut ++ rest)%string
              /\ String.length cut <= 500).
Proof.
  intros summary. unfold _get_stock_info. fold summary. split.
  - destruct summary; cbn; split; intros H;
      try discriminate; try (eexists; reflexivity);
      destruct H as [e H]; discriminate.
  - intros company_info H.
    destruct (py_slice_to 500 summary) as [description|e] eqn:Es;
      [|discriminate].
    cbn [pbind] in H. injection H as <-.
    split; [reflexivity|]. split.
    + cbn. unfold dict_get_default, unknown.
      destruct (dict_get "longName" info); [reflexivity|].
      destruct (dict_get "shortName" info); reflexivity.
    + split; [reflexivity|].
      intros text Ht. rewrite Ht in Es. cbn in Es. injection Es as <-.
      destruct (slice_to_prefix 500 text) as [rest Hrest].
      exists (slice_to 500 text), rest.
      split; [reflexivity|]. split; [exact Hrest | apply slice_to_length].
Qed.

Lemma stock_info_shape_witness :
  exists e, _get_stock_info [("longBusinessSummary", JNull)] = Raise e.
Proof.
  apply (proj1 (proj1 (stock_info_shape [("longBusinessSummary", JNull)]))).
  reflexivity.
Defined.

Lemma market_cap_of_stock_info (info company_info : Dict) :
  _get_stock_info info = Ok company_info ->
  dict_get_default "market_cap" (JInt 0) company_info
  = get_or_none info "marketCap".
Proof.
  unfold _get_stock_info.
  destruct (py_slice_to 500 _); [|discriminate].
  cbn [pbind]. intros [= <-]. reflexivity.
Qed.

(** Property X21.  A stock whose information has no market
    capitalisation (or a null one) cannot be analysed: the fetch
    succeeds, building the prompt raises on rendering [None] with a
    number format, no completion call is made and the stage hands back
    the one entry "Financial agent error: unsupported format string
    passed to NoneType.__format__". *)
Theorem missing_market_cap_fails_analysis (env : Env) (state : InvestmentState)
  (stock_info price_history : string -> PyResult Dict)
  (plan : AnalysisPlan) (info company_info history : Dict) :
  yfinance env = yfinance_of stock_info price_history ->
  ticker state <> "" ->
  analysis_plan state = Some plan ->
  stock_info (upper (ticker state)) = Ok info ->
  _get_stock_info info = Ok company_info ->
  price_history (upper (ticker state)) = Ok history ->
  get_or_none info "marketCap" = JNull ->
  md_success (MarketDataMCP_fetch_data env (ticker state)) = true
  /\ financial_agent env state
     = {| made := [CallMarketData (ticker state)];
          returned :=
            Ok (financial_error state
                  "unsupported format string passed to NoneType.__format__") |}.
Proof.
  intros Hy Hne Hplan Hinfo Hci Hhist Hcap.
  assert (Hfetch : MarketDataMCP_fetch_data env (ticker state)
                   = {| md_success := true; md_error := None;
                        md_info := Some company_info;
                        md_history := Some history;
                        md_fundamentals := Some (_get_fundamentals info) |}).
  { unfold MarketDataMCP_fetch_data, is_empty.
    destruct (String.eqb (ticker state) "") eqn:E.
    { apply String.eqb_eq in E. contradiction. }
    rewrite Hy. unfold yfinance_of. rewrite Hinfo. cbn [pbind].
    rewrite Hci. cbn [pbind]. rewrite Hhist. reflexivity. }
  split; [now rewrite Hfetch|].
  rewrite financial_agent_cases. cbv zeta. rewrite Hfetch.
  cbn [md_success md_info md_history md_fundamentals or_else].
  unfold _build_analysis_prompt. rewrite Hplan. cbn [pbind].
  rewrite (market_cap_of_stock_info _ Hci), Hcap. reflexivity.
Qed.

Lemma missing_market_cap_fails_analysis_witness :
  financial_agent fund_only (planned "spy" "")
  = {| made := [CallMarketData "SPY"];
       returned :=
         Ok (errors_only
               ["Financial agent error: unsupported format string passed to NoneType.__format__"]) |}.
Proof.
  destruct (_get_stock_info fund_info) as [company_info|e] eqn:Ei.
  2:{ vm_compute in Ei. discriminate. }
  destruct (analysis_plan (planned "spy" "")) as [plan|] eqn:Ep.
  2:{ vm_compute in Ep. discriminate. }
  apply (proj2 (@missing_market_cap_fails_analysis fund_only (planned "spy" "")
                  (fun _ => Ok fund_info) (fun _ => Ok []) plan fund_info
                  company_info [] eq_refl ltac:(discriminate) Ep eq_refl Ei
                  eq_refl eq_refl)).
Defined.

(** ** The news wrapper *)

(** *** The order of texts *)

Lemma ascii_compare_lt_trans (a b c : ascii) :
  Ascii.compare a b = Lt -> Ascii.compare b c = Lt -> Ascii.compare a c = Lt.
Proof.
  unfold Ascii.compare. rewrite !N.compare_lt_iff. lia.
Qed.

Lemma ascii_compare_refl (a : ascii) : Ascii.compare a a = Eq.
Proof. unfold Ascii.compare. apply N.compare_refl. Qed.

Lemma string_leb_trans (a b c : string) :
  String.leb a b = true -> String.leb b c = true -> String.leb a c = true.
Proof.
  unfold String.leb. revert b c.
  induction a as [|x a IH]; intros [|y b] [|z c]; cbn; try easy.
  destruct (Ascii.compare x y) eqn:Exy; try discriminate;
    destruct (Ascii.compare y z) eqn:Eyz; try discriminate.
  - apply Ascii.compare_eq_iff in Exy, Eyz. subst.
    rewrite ascii_compare_refl. apply IH.
  - apply Ascii.compare_eq_iff in Exy. subst. now rewrite Eyz.
  - apply Ascii.compare_eq_iff in Eyz. subst. now rewrite Exy.
  - now rewrite (ascii_compare_lt_trans _ _ _ Exy Eyz).
Qed.

Lemma string_ltb_leb (a b : string) :
  String.ltb a b = true -> String.leb a b = true.
Proof. unfold String.ltb, String.leb. destruct (String.compare a b); easy. Qed.

Lemma string_not_ltb_leb (a b : string) :
  String.ltb a b = false -> String.leb b a = true.
Proof.
  unfold String.ltb, String.leb. rewrite (String.compare_antisym a b).
  destruct (String.compare b a); cbn; easy.
Qed.

Lemma string_compare_refl (a : string) : String.compare a a = Eq.
Proof.
  induction a as [|c a IH]; cbn; [reflexivity|].
  now rewrite ascii_compare_refl.
Qed.

Lemma string_ltb_neq (a b : string) : String.ltb a b = true -> a <> b.
Proof.
  intros H ->. unfold String.ltb in H.
  now rewrite string_compare_refl in H.
Qed.

(** *** The stable sort *)

Lemma insert_by_date_perm (a : Dict) (l : list Dict) :
  Permutation (a :: l) (insert_by_date a l).
Proof.
  induction l as [|b l IH]; cbn; [apply Permutation_refl|].
  destruct (String.ltb (date_of a) (date_of b)); [|apply Permutation_refl].
  eapply Permutation_trans; [apply perm_swap|]. now apply perm_skip.
Qed.

Lemma sort_newest_first_perm (l : list Dict) :
  Permutation l (sort_newest_first l).
Proof.
  induction l as [|a l IH]; cbn; [constructor|].
  eapply Permutation_trans; [|apply insert_by_date_perm].
  now apply perm_skip.
Qed.

Lemma insert_by_date_sorted (a : Dict) (l : list Dict) :
  StronglySorted not_older l -> StronglySorted not_older (insert_by_date a l).
Proof.
  induction l as [|b l IH]; intros Hs; cbn.
  - repeat constructor.
  - inversion Hs as [|b' l' Hl Hb]; subst.
    destruct (String.ltb (date_of a) (date_of b)) eqn:E.
    + constructor; [now apply IH|].
      eapply Permutation_Forall; [apply insert_by_date_perm|].
      constructor; [|exact Hb]. now apply string_ltb_leb.
    + constructor; [exact Hs|].
      apply string_not_ltb_leb in E.
      constructor; [exact E|].
      eapply Forall_impl; [|exact Hb].
      intros c Hc. unfold not_older in *.
      eapply string_leb_trans; eassumption.
Qed.

Lemma sort_newest_first_sorted (l : list Dict) :
  StronglySorted not_older (sort_newest_first l).
Proof.
  induction l as [|a l IH]; cbn; [constructor|].
  now apply insert_by_date_sorted.
Qed.

Lemma insert_by_date_of_date (date : string) (a : Dict) (l : list Dict) :
  of_date date (insert_by_date a l) = of_date date (a :: l).
Proof.
  unfold of_date. induction l as [|b l IH]; [reflexivity|].
  cbn [insert_by_date].
  destruct (String.ltb (date_of a) (date_of b)) eqn:E; [|reflexivity].
  cbn [filter] in *. rewrite IH.
  destruct (String.eqb (date_of a) date) eqn:Ea; [|reflexivity].
  destruct (String.eqb (date_of b) date) eqn:Eb; [|reflexivity].
  apply String.eqb_eq in Ea, Eb. apply string_ltb_neq in E. congruence.
Qed.

Lemma sort_newest_first_stable (date : string) (l : list Dict) :
  of_date date (sort_newest_first l) = of_date date l.
Proof.
  induction l as [|a l IH]; [reflexivity|].
  cbn [sort_newest_first fold_right].
  rewrite insert_by_date_of_date.
  unfold of_date in *. cbn [filter]. fold (sort_newest_first l).
  now rewrite IH.
Qed.

Lemma strongly_sorted_app (R : Dict -> Dict -> Prop) (l1 l2 : list Dict) :
  StronglySorted R (l1 ++ l2) ->
  forall a b, In a l1 -> In b l2 -> R a b.
Proof.
  induction l1 as [|x l1 IH]; intros Hs a b Ha Hb; [contradiction|].
  inversion Hs as [|x' l' Hl Hx]; subst.
  destruct Ha as [->|Ha].
  - rewrite Forall_forall in Hx. apply Hx. apply in_or_app. now right.
  - now apply IH.
Qed.

(** *** One article *)

Lemma truthy_default (k : string) (d : Dict) :
  truthy (dict_get_default k JNull d) = true ->
  dict_get k d = Some (dict_get_default k JNull d).
Proof.
  unfold dict_get_default. destruct (dict_get k d); [reflexivity|discriminate].
Qed.

Lemma is_str_false (s : string) (v : json) : is_str s v = false -> v <> JStr s.
Proof.
  intros H ->. cbn in H. now rewrite String.eqb_refl in H.
Qed.

Lemma py_slice_to_short (v w : json) :
  py_slice_to 300 v = Ok w -> short_snippet w.
Proof.
  destruct v as [| | | |s|items|]; cbn [py_slice_to]; try discriminate;
    intros E.
  - replace w with (JStr (slice_to 300 s)) by congruence.
    apply slice_to_length.
  - replace w with (JList (firstn 300 items)) by congruence.
    apply firstn_le_length.
Qed.

Lemma process_article_kept (article : json) (a : Dict) :
  process_article article = Ok (Some a) ->
  exists raw, article = JDict raw /\ processed_from raw a.
Proof.
  unfold process_article. intros H.
  destruct article as [| | | | | |raw]; try discriminate.
  cbn [py_get pbind] in H. exists raw. split; [reflexivity|].
  destruct (truthy (dict_get_default "title" JNull raw)) eqn:Et;
    cbn [negb] in H; [|discriminate].
  destruct (truthy (dict_get_default "publishedAt" JNull raw)) eqn:Ed;
    cbn [negb] in H; [|discriminate].
  destruct (is_str "[Removed]" (dict_get_default "title" JNull raw)) eqn:Er;
    [discriminate|].
  destruct (py_get (dict_get_default "source" (JDict []) raw) "name" unknown)
    as [source|e]; cbn [pbind] in H; [|discriminate].
  destruct (if truthy (dict_get_default "content" JNull raw)
            then py_slice_to 300 (dict_get_default "content" (JStr "") raw)
            else Ok (JStr "")) as [snippet|e] eqn:Es;
    cbn [pbind] in H; [|discriminate].
  injection H as <-.
  split; [reflexivity|]. split; [|split].
  - eexists. split; [apply (truthy_default _ _ Et)|].
    split; [reflexivity|]. split; [exact Et | now apply is_str_false].
  - eexists. split; [apply (truthy_default _ _ Ed)|].
    split; [reflexivity | exact Ed].
  - exists snippet. split; [reflexivity|].
    destruct (truthy (dict_get_default "content" JNull raw)).
    + eapply py_slice_to_short; eassumption.
    + injection Es as <-. cbn. lia.
Qed.

(** *** The loop and the sort *)

Lemma process_all_kept (articles : list json) :
  forall kept,
    process_all articles = Ok kept ->
    length kept <= length articles
    /\ forall a, In a kept ->
         exists raw, In (JDict raw) articles /\ processed_from raw a.
Proof.
  induction articles as [|article rest IH]; intros kept H.
  - injection H as <-. split; [reflexivity | contradiction].
  - cbn [process_all] in H.
    destruct (process_article article) as [o|e] eqn:Ea; [|discriminate].
    cbn [pbind] in H.
    destruct (process_all rest) as [kept'|e]; [|discriminate].
    cbn [pbind] in H. injection H as <-.
    destruct (IH kept' eq_refl) as [Hlen Hin].
    destruct o as [a|].
    + split; [cbn; lia|].
      intros b [<-|Hb].
      * destruct (process_article_kept _ Ea) as (raw & -> & Hraw).
        exists raw. split; [now left | exact Hraw].
      * destruct (Hin b Hb) as (raw & Hr & Hraw).
        exists raw. split; [now right | exact Hraw].
    + split; [cbn; lia|].
      intros b Hb. destruct (Hin b Hb) as (raw & Hr & Hraw).
      exists raw. split; [now right | exact Hraw].
Qed.

Lemma process_all_raise (articles : list json) (article : json) (e : string) :
  In article articles -> process_article article = Raise e ->
  exists e', process_all articles = Raise e'.
Proof.
  induction articles as [|x rest IH]; intros Hin He; [contradiction|].
  cbn [process_all]. destruct Hin as [->|Hin].
  - rewrite He. eexists. reflexivity.
  - destruct (process_article x); [|eexists; reflexivity].
    cbn [pbind]. destruct (IH Hin He) as [e' ->]. eexists. reflexivity.
Qed.

Lemma process_articles_inv (articles : list json) (processed : list Dict) :
  _process_articles articles = Ok processed ->
  exists kept, process_all articles = Ok kept
               /\ processed = sort_newest_first kept.
Proof.
  unfold _process_articles.
  destruct (process_all articles) as [kept|e]; [|discriminate].
  cbn [pbind]. intros [= <-]. exists kept. split; reflexivity.
Qed.

Lemma process_articles_members (articles : list json) (processed : list Dict) :
  _process_articles articles = Ok processed ->
  length processed <= length articles
  /\ forall a, In a processed ->
       exists raw, In (JDict raw) articles /\ processed_from raw a.
Proof.
  intros H. destruct (process_articles_inv _ H) as (kept & Hk & ->).
  destruct (process_all_kept _ Hk) as [Hlen Hin].
  pose proof (sort_newest_first_perm kept) as Hp.
  split.
  - rewrite <- (Permutation_length Hp). exact Hlen.
  - intros a Ha. apply Hin.
    eapply Permutation_in; [apply Permutation_sym; exact Hp | exact Ha].
Qed.

(** Property X22.  What the news wrapper keeps of the raw articles: no
    more articles than it was given, each one made from a raw article
    that is a dictionary with a truthy title other than '[Removed]' and
    a truthy date; each has the seven keys of a processed article, the
    title and date of its raw article and a snippet of at most 300
    characters. *)
Theorem processed_articles_kept (articles : list json) (processed : list Dict) :
  _process_articles articles = Ok processed ->
  length processed <= length articles
  /\ forall a, In a processed ->
       exists raw, In (JDict raw) articles /\ processed_from raw a.
Proof. apply process_articles_members. Qed.

(** Property X23.  When the dates of the raw articles are texts, the
    processed articles come newest first in the order of texts, each
    one's sort key being its [published_at]; they are the kept articles
    rearranged, and articles of the same date stay in the order the news
    service gave them. *)
Theorem processed_articles_newest_first (articles : list json)
  (processed : list Dict) :
  Forall dated_by_text articles ->
  _process_articles articles = Ok processed ->
  (forall a, In a processed ->
     dict_get "published_at" a = Some (JStr (date_of a)))
  /\ StronglySorted not_older processed
  /\ exists kept,
      process_all articles = Ok kept
      /\ Permutation kept processed
      /\ forall date, of_date date processed = of_date date kept.
Proof.
  intros Htext H.
  destruct (process_articles_members _ H) as [_ Hin].
  destruct (process_articles_inv _ H) as (kept & Hk & ->).
  split; [|split].
  - intros a Ha. destruct (Hin a Ha) as (raw & Hraw & _ & _ & Hdate & _).
    destruct Hdate as (date & Hd & Hpub & Htruthy).
    rewrite Forall_forall in Htext.
    destruct (Htext _ Hraw raw date eq_refl Hd Htruthy) as [s ->].
    unfold date_of. now rewrite Hpub.
  - apply sort_newest_first_sorted.
  - exists kept. split; [exact Hk|]. split.
    + apply sort_newest_first_perm.
    + intros date. apply sort_newest_first_stable.
Qed.

Lemma sample_articles_dated :
  Forall dated_by_text sample_raw_articles.
Proof.
  repeat constructor; intros d v [= <-] Hv Ht; cbn in Hv;
    try discriminate; injection Hv as <-; try discriminate;
    eexists; reflexivity.
Qed.

Lemma processed_articles_kept_witness :
  length (sort_newest_first sample_processed) <= length sample_raw_articles.
Proof.
  apply (proj1 (@processed_articles_kept sample_raw_articles
                  (sort_newest_first sample_processed) eq_refl)).
Defined.

Lemma processed_articles_newest_first_witness :
  StronglySorted not_older (sort_newest_first sample_processed)
  /\ map date_of (sort_newest_first sample_processed)
     = ["2025-03-02T09:00:00Z"; "2025-03-01T12:00:00Z"; "2025-03-01T12:00:00Z"]
  /\ map (fun a => dict_get "title" a) (sort_newest_first sample_processed)
     = [Some (JStr "Guidance raised"); Some (JStr "Record quarter");
        Some (JStr "Analysts react")].
Proof.
  split; [|split; reflexivity].
  apply (proj1 (proj2 (@processed_articles_newest_first sample_raw_articles
                         (sort_newest_first sample_processed)
                         sample_articles_dated eq_refl))).
Defined.

(** Property X24.  One raw article the loop cannot process makes the
    whole fetch fail: when the service's answer lists an article that is
    not a dictionary, or a kept article whose [source] is null (or any
    value but a dictionary), the fetch reports failure and gives no
    article at all. *)
Theorem one_bad_article_fails_fetch
  (get_everything : string -> Z -> Z -> PyResult json)
  (ticker_arg : string) (company_name : json) (response : Dict)
  (articles : list json) (article : json) :
  get_everything (_build_query ticker_arg company_name) 30%Z 100%Z
  = Ok (JDict response) ->
  dict_get "articles" response = Some (JList articles) ->
  In article articles ->
  (forall raw, article <> JDict raw)
  \/ (exists raw source,
        article = JDict raw
        /\ truthy (dict_get_default "title" JNull raw) = true
        /\ truthy (dict_get_default "publishedAt" JNull raw) = true
        /\ is_str "[Removed]" (dict_get_default "title" JNull raw) = false
        /\ dict_get "source" raw = Some source
        /\ ~ is_record source) ->
  exists e,
    NewsMCP_fetch_data get_everything ticker_arg company_name (Some 30%Z) 100
    = news_error e.
Proof.
  intros Hget Harticles Hin Hbad.
  assert (Hraise : exists e, process_article article = Raise e).
  { destruct Hbad as [Hnot | (raw & source & -> & Ht & Hd & Hr & Hs & Hn)].
    - destruct article; try (eexists; reflexivity).
      exfalso. eapply Hnot. reflexivity.
    - unfold process_article. cbn [py_get pbind].
      rewrite Ht, Hd, Hr. cbn [negb].
      assert (Hsrc : dict_get_default "source" (JDict []) raw = source).
      { unfold dict_get_default. now rewrite Hs. }
      rewrite Hsrc.
      destruct source; try (eexists; reflexivity).
      exfalso. apply Hn. eexists. reflexivity. }
  destruct Hraise as [e He].
  destruct (process_all_raise _ _ Hin He) as [e' He'].
  exists e'. unfold NewsMCP_fetch_data. cbv zeta. cbn [Z.eqb Z.min Z.compare].
  change (Z.min 100 100) with 100%Z.
  rewrite Hget. cbn [pbind py_get]. unfold dict_get_default.
  rewrite Harticles. cbn [py_iter pbind]. unfold _process_articles.
  rewrite He'. reflexivity.
Qed.

Lemma one_bad_article_fails_fetch_witness :
  exists e,
    NewsMCP_fetch_data listing_with_sourceless "NVDA" JNull (Some 30%Z) 100
    = news_error e.
Proof.
  apply (@one_bad_article_fails_fetch listing_with_sourceless "NVDA" JNull
           [("status", JStr "ok");
            ("articles",
             JList [raw_article "Record quarter" "2025-03-01T12:00:00Z";
                    sourceless])]
           [raw_article "Record quarter" "2025-03-01T12:00:00Z"; sourceless]
           sourceless eq_refl eq_refl).
  - right. left. reflexivity.
  - right.
    exists [("source", JNull); ("title", JStr "Anonymous tip");
            ("publishedAt", JStr "2025-03-04T10:00:00Z")], JNull.
    split; [reflexivity|]. split; [reflexivity|]. split; [reflexivity|].
    split; [reflexivity|]. split; [reflexivity|].
    intros [d Hd]. discriminate.
Defined.

Lemma fetch_articles_sorted
  (get_everything : string -> Z -> Z -> PyResult json)
  (ticker_arg : string) (company_name : json) (days : option Z)
  (max_results : Z) :
  StronglySorted not_older
    (nd_articles (NewsMCP_fetch_data get_everything ticker_arg company_name
                                     days max_results)).
Proof.
  unfold NewsMCP_fetch_data. cbv zeta.
  destruct (get_everything _ _ _) as [response|e]; cbn [pbind];
    [|constructor].
  destruct (py_get response "articles" (JList [])) as [articles|e];
    cbn [pbind]; [|constructor].
  destruct (py_iter articles) as [l|e]; cbn [pbind]; [|constructor].
  unfold _process_articles.
  destruct (process_all l) as [kept|e]; cbn [pbind nd_articles news_error];
    [|constructor].
  apply sort_newest_first_sorted.
Qed.

(** Property X25.  The top headlines are the newest articles of the
    seven-day fetch: at most [max_results] of them, a prefix of the
    fetched list, so that no article left out is newer (in the order of
    the sort keys) than one kept; a failed fetch is handed on as it is. *)
Theorem top_headlines_are_newest
  (get_everything : string -> Z -> Z -> PyResult json)
  (ticker_arg : string) (company_name : json) (max_results : nat) :
  let result :=
    NewsMCP_fetch_data get_everything ticker_arg company_name (Some 7%Z) 100 in
  let top := get_top_headlines get_everything ticker_arg company_name
                               max_results in
  nd_success top = nd_success result
  /\ nd_error top = nd_error result
  /\ nd_articles top = firstn max_results (nd_articles result)
  /\ length (nd_articles top) <= max_results
  /\ forall kept left_out,
      In kept (nd_articles top) ->
      In left_out (skipn max_results (nd_articles result)) ->
      not_older kept left_out.
Proof.
  intros result top.
  assert (Harticles : nd_articles top = firstn max_results (nd_articles result)).
  { unfold top, get_top_headlines. fold result.
    destruct (nd_success result) eqn:E; [reflexivity|].
    unfold result, NewsMCP_fetch_data in *. cbv zeta in *.
    destruct (pbind _ _) as [l|e]; [discriminate|].
    cbn [nd_articles news_error]. now rewrite firstn_nil. }
  split; [|split; [|split; [exact Harticles|split]]].
  - unfold top, get_top_headlines. fold result.
    destruct (nd_success result) eqn:E; [reflexivity | exact E].
  - unfold top, get_top_headlines. fold result.
    destruct (nd_success result); reflexivity.
  - rewrite Harticles. apply firstn_le_length.
  - intros kept left_out Hk Hl. rewrite Harticles in Hk.
    pose proof (fetch_articles_sorted get_everything ticker_arg company_name
                  (Some 7%Z) 100) as Hs.
    fold result in Hs.
    rewrite <- (firstn_skipn max_results (nd_articles result)) in Hs.
    exact (@strongly_sorted_app _ _ _ Hs _ _ Hk Hl).
Qed.

Lemma top_headlines_are_newest_witness :
  map date_of (nd_articles (get_top_headlines sample_listing "NVDA" JNull 2))
  = ["2025-03-02T09:00:00Z"; "2025-03-01T12:00:00Z"]
  /\ length (nd_articles (get_top_headlines sample_listing "NVDA" JNull 2))
     <= 2.
Proof.
  split; [reflexivity|].
  apply (proj1 (proj2 (proj2 (proj2
           (top_headlines_are_newest sample_listing "NVDA" JNull 2))))).
Defined.

(** ** The stages in the graph *)

(** Property X26.  Folded into the graph state by the append reducers,
    the state the synthesis stage hands back repeats the log: every
    earlier message and error entry appears twice, followed by the
    stage's one new entry. *)
Theorem synthesizer_fold_repeats_log (env : Env) (state : InvestmentState) :
  exists state' new_messages new_errors,
    snd (run_stage (synthesizer_agent env) state) = Ok state'
    /\ messages state' = messages state ++ messages state ++ new_messages
    /\ errors state' = errors state ++ errors state ++ new_errors
    /\ length new_messages + length new_errors = 1.
Proof.
  destruct (synthesizer_agent_shape env state)
    as (s' & Hret & _ & _ & _ & _ & _ & Hlog).
  unfold run_stage. cbn [snd]. rewrite Hret.
  destruct Hlog as [(m & _ & Hm & He) | (e & Hm & He)].
  - exists (apply_update state (whole s')), [m], [].
    split; [reflexivity|]. cbn [apply_update whole messages errors or_else
                                  u_messages u_errors].
    rewrite Hm, He, app_nil_r. repeat split.
  - exists (apply_update state (whole s')), [], [e].
    split; [reflexivity|]. cbn [apply_update whole messages errors or_else
                                  u_messages u_errors].
    rewrite Hm, He, app_nil_r. repeat split.
Qed.

Lemma financial_agent_no_news (env : Env) (state : InvestmentState)
  (tk : string) (name : json) :
  ~ In (CallNews tk name) (made (financial_agent env state)).
Proof.
  rewrite financial_agent_cases. cbv zeta.
  destruct (md_success _); [|cbn; intuition discriminate].
  destruct (_build_analysis_prompt _ _ _ _ _); [|cbn; intuition discriminate].
  destruct (completion env _); [|cbn; intuition discriminate].
  destruct (py_setitem _ _ _); cbn; intuition discriminate.
Qed.

Lemma synthesizer_agent_no_news (env : Env) (state : InvestmentState)
  (tk : string) (name : json) :
  ~ In (CallNews tk name) (made (synthesizer_agent env state)).
Proof.
  unfold synthesizer_agent. cbv zeta.
  destruct (negb _ || negb _); [cbn; tauto|].
  unfold synthesizer_try, bind, get_state, call, lift, assign, ret.
  cbn beta iota.
  destruct (_build_synthesis_prompt _ _ _ _ _) as [prompt|e];
    cbn beta iota delta [app]; [|cbn; tauto].
  destruct (completion env prompt) as [text|e]; cbn beta iota delta [app];
    [|cbn; intuition discriminate].
  destruct (loads_or text (synthesis_fallback text));
    cbn beta iota delta [py_get app]; try (cbn; intuition discriminate).
  destruct (format_f 2 false _); cbn; intuition discriminate.
Qed.

Lemma sentiment_agent_news_call (env : Env) (state : InvestmentState) :
  financial_analysis state = None ->
  In (CallNews (ticker state) JNull) (made (sentiment_agent env state))
  /\ forall tk name,
      In (CallNews tk name) (made (sentiment_agent env state)) ->
      tk = ticker state /\ name = JNull.
Proof.
  intros Hfin. unfold sentiment_agent, company_name_of. rewrite Hfin.
  cbn [present].
  unfold sentiment_try, bind, get_state, call, lift, assign, ret.
  cbn beta iota.
  assert (Hone : forall tk name,
             In (CallNews tk name) [CallNews (ticker state) JNull] ->
             tk = ticker state /\ name = JNull).
  { intros tk name [[= <- <-]|[]]. split; reflexivity. }
  assert (Htwo : forall prompt tk name,
             In (CallNews tk name)
                [CallNews (ticker state) JNull; CallCompletion prompt] ->
             tk = ticker state /\ name = JNull).
  { intros prompt tk name [[= <- <-]|[H|[]]]; [split; reflexivity|].
    discriminate. }
  destruct (news env (ticker state) JNull) as [nd|e]; cbn beta iota;
    [|split; [now left | exact Hone]].
  destruct (nd_success nd); cbn beta iota delta [negb app];
    [|split; [now left | exact Hone]].
  destruct (length (nd_articles nd) =? 0); cbn beta iota delta [app];
    [split; [now left | exact Hone]|].
  destruct (_build_sentiment_prompt _ _ _) as [prompt|e];
    cbn beta iota delta [app]; [|split; [now left | exact Hone]].
  destruct (completion env prompt); cbn beta iota delta [app];
    [|split; [now left | apply Htwo]].
  destruct (py_setitem _ _ _); cbn beta iota delta [app];
    split; try (now left); apply Htwo.
Qed.

Lemma after_coordinator (state : InvestmentState) :
  let state' := apply_update state (coordinator_agent state) in
  ticker state' = ticker state
  /\ financial_analysis state' = financial_analysis state.
Proof.
  unfold coordinator_agent. cbv zeta.
  destruct (is_empty _); split; reflexivity.
Qed.

(** Property X27.  Run through the graph from an initial state, the
    pipeline asks the news service about the ticker alone: the two
    analysis stages read the same state, so the sentiment stage never
    sees the company name the fundamentals stage fetches. The one news
    call is made with no company name, and its query is the quoted
    ticker. *)
Theorem pipeline_news_query_is_ticker_only (env : Env) (t query : string) :
  let made_calls := fst (run_pipeline env (initial_state t query)) in
  In (CallNews (upper t) JNull) made_calls
  /\ (forall tk name,
        In (CallNews tk name) made_calls ->
        tk = upper t /\ name = JNull
        /\ _build_query tk name = quoted (upper t)).
Proof.
  cbv zeta. unfold run_pipeline. cbv zeta.
  set (s0 := initial_state t query).
  set (s1 := apply_update s0 (coordinator_agent s0)).
  destruct (after_coordinator s0) as [Ht Hf]. fold s1 in Ht, Hf.
  assert (Hfin : financial_analysis s1 = None) by (rewrite Hf; reflexivity).
  assert (Htk : ticker s1 = upper t) by (rewrite Ht; reflexivity).
  destruct (sentiment_agent_news_call env s1 Hfin) as [Hcall Honly].
  rewrite Htk in Hcall.
  assert (Hany : forall l tk name,
             In (CallNews tk name)
                (made (financial_agent env s1)
                 ++ made (sentiment_agent env s1) ++ l) ->
             (forall tk' name', ~ In (CallNews tk' name') l) ->
             tk = upper t /\ name = JNull
             /\ _build_query tk name = quoted (upper t)).
  { intros l tk name Hin Hl.
    apply in_app_or in Hin. destruct Hin as [Hin|Hin].
    { exfalso. exact (financial_agent_no_news _ _ _ _ Hin). }
    apply in_app_or in Hin. destruct Hin as [Hin|Hin].
    2:{ exfalso. exact (Hl _ _ Hin). }
    destruct (Honly _ _ Hin) as [-> ->]. rewrite Htk.
    repeat split. }
  assert (Hnil : forall tk name,
             In (CallNews tk name)
                (made (financial_agent env s1) ++ made (sentiment_agent env s1)) ->
             tk = upper t /\ name = JNull
             /\ _build_query tk name = quoted (upper t)).
  { intros tk name Hin. apply (Hany [] tk name).
    - rewrite app_nil_r. exact Hin.
    - intros ? ? []. }
  assert (Hmade : In (CallNews (upper t) JNull)
                     (made (financial_agent env s1)
                      ++ made (sentiment_agent env s1))).
  { apply in_or_app. right. exact Hcall. }
  clearbody s1. clear Hf Ht.
  generalize dependent (made (sentiment_agent env s1)).
  intros sentiment_calls Hcall Honly Hany Hnil Hmade.
  generalize dependent (made (financial_agent env s1)).
  intros financial_calls Hany Hnil Hmade.
  destruct (returned (financial_agent env s1)) as [uf|e].
  2:{ cbn [fst]. split; [exact Hmade | exact Hnil]. }
  destruct (returned (sentiment_agent env s1)) as [un|e'].
  2:{ cbn [fst]. split; [exact Hmade | exact Hnil]. }
  destruct (scalar_clash uf un).
  { cbn [fst]. split; [exact Hmade | exact Hnil]. }
  unfold run_stage. cbn [fst].
  split.
  - apply in_or_app. right. apply in_or_app. left. exact Hcall.
  - intros tk name Hin. apply (Hany _ tk name Hin).
    intros tk' name'. apply synthesizer_agent_no_news.
Qed.

(** ** The HTTP endpoint *)

Lemma drop_while_isspace_upper (l : chars) :
  drop_while isspace (map upper_char l)
  = map upper_char (drop_while isspace l).
Proof.
  induction l as [|c l IH]; [reflexivity|].
  cbn [map drop_while]. rewrite isspace_upper.
  destruct (isspace c); [exact IH | reflexivity].
Qed.

Lemma strip_l_upper (l : chars) :
  strip_l (map upper_char l) = map upper_char (strip_l l).
Proof.
  unfold strip_l, rstrip_l, lstrip_l.
  rewrite drop_while_isspace_upper, <- map_rev, drop_while_isspace_upper.
  now rewrite map_rev.
Qed.

Lemma upper_char_idempotent (c : ascii) :
  upper_char (upper_char c) = upper_char c.
Proof.
  destruct c as [[] [] [] [] [] [] [] []]; reflexivity.
Qed.

Lemma strip_upper_fixed (t : string) :
  strip (upper (strip (upper t))) = strip (upper t).
Proof.
  unfold strip, upper. rewrite !unpack_pack.
  rewrite !strip_l_upper, strip_l_idempotent.
  rewrite map_map.
  f_equal. apply map_ext. intros c. apply upper_char_idempotent.
Qed.

(** Property X28.  The endpoint never answers with status 400: a ticker
    that is blank or, once trimmed, longer than ten characters is
    refused with status 500, without the graph being run, because the
    body's own exception is raised inside the [try] whose handler turns
    every exception into a 500. For every other ticker the graph runs on
    the trimmed, upper-cased ticker, for which the planner always makes
    a plan (its "No ticker provided" branch cannot be reached through
    the endpoint). *)
Theorem api_ticker_validation (A : Type)
  (workflow : InvestmentState -> PyResult A)
  (request_ticker : string) (request_user_query : option string) :
  let ticker_arg := strip (upper request_ticker) in
  let answer := analyze_stock workflow request_ticker request_user_query in
  fst answer <> HttpError 400
  /\ (ticker_arg = "" \/ 10 < String.length ticker_arg ->
      answer = (HttpError 500, false))
  /\ (ticker_arg <> "" -> String.length ticker_arg <= 10 ->
      exists state,
        ticker state = ticker_arg
        /\ answer
           = (match workflow state with
              | Ok response => Answered response
              | Raise _ => HttpError 500
              end, true)
        /\ exists plan,
            u_analysis_plan (coordinator_agent state) = Some (Some plan)
            /\ plan_ticker plan = ticker_arg
            /\ u_errors (coordinator_agent state) = None).
Proof.
  cbv zeta. unfold analyze_stock. cbv zeta.
  set (ticker_arg := strip (upper request_ticker)).
  set (user_query_arg := match request_user_query with
                         | Some query => _ | None => _ end).
  split; [|split].
  - destruct (is_empty ticker_arg || (10 <? String.length ticker_arg));
      [cbn; discriminate|].
    destruct (workflow _); cbn; discriminate.
  - intros Hbad.
    assert (E : is_empty ticker_arg || (10 <? String.length ticker_arg) = true).
    { destruct Hbad as [->|Hlen]; [reflexivity|].
      apply orb_true_iff. right. now apply Nat.ltb_lt. }
    rewrite E. reflexivity.
  - intros Hne Hlen.
    assert (E : is_empty ticker_arg || (10 <? String.length ticker_arg) = false).
    { apply orb_false_iff. split.
      - unfold is_empty. apply String.eqb_neq. exact Hne.
      - apply Nat.ltb_ge. exact Hlen. }
    rewrite E.
    exists (api_initial_state ticker_arg user_query_arg).
    split; [reflexivity|]. split.
    + destruct (workflow _); reflexivity.
    + unfold coordinator_agent. cbv zeta.
      cbn [api_initial_state ticker].
      assert (Hfix : strip (upper ticker_arg) = ticker_arg)
        by apply strip_upper_fixed.
      rewrite !Hfix.
      assert (E' : is_empty ticker_arg = false).
      { unfold is_empty. apply String.eqb_neq. exact Hne. }
      rewrite E'. eexists. split; [reflexivity|]. split; reflexivity.
Qed.

Lemma api_ticker_validation_witness :
  analyze_stock (fun _ => Ok tt) "   " None = (HttpError 500, false)
  /\ analyze_stock (fun _ => Ok tt) "this-is-not-a-ticker" (Some "Buy?")
     = (HttpError 500, false).
Proof.
  split.
  - apply (proj1 (proj2 (@api_ticker_validation unit (fun _ => Ok tt)
                            "   " None))).
    left. reflexivity.
  - apply (proj1 (proj2 (@api_ticker_validation unit (fun _ => Ok tt)
                            "this-is-not-a-ticker" (Some "Buy?")))).
    right. apply Nat.ltb_lt. vm_compute. reflexivity.
Defined.

(** ** The synthesis prompt *)



(** Property X30.  The records the two analysis stages write when the
    completion text does not decode, and the canned record of the
    zero-article path, never break the synthesis: with a plan in the
    state, the synthesis prompt is built from them without an exception. *)
Theorem fallback_records_reach_synthesis (ticker_arg query : string)
  (plan : AnalysisPlan) (financial_text sentiment_text : string)
  (raw : json) (total_articles : nat) (sample : list Dict) :
  let fin := dict_set "raw_data" raw (financial_fallback financial_text) in
  let sent :=
    dict_set "sample_articles" (JList (map JDict sample))
      (dict_set "article_count" (JInt (Z.of_nat total_articles))
         (sentiment_fallback total_articles sentiment_text)) in
  (exists prompt,
      _build_synthesis_prompt ticker_arg query fin sent (Some plan) = Ok prompt)
  /\ (exists prompt,
        _build_synthesis_prompt ticker_arg query fin no_news_analysis
                                (Some plan) = Ok prompt).
Proof.
  cbv zeta. split; unfold _build_synthesis_prompt; cbv zeta; cbn [pbind].
  - change (dict_get_default "strengths" (JList [])
              (dict_set "raw_data" raw (financial_fallback financial_text)))
      with (JList []).
    change (dict_get_default "concerns" (JList [])
              (dict_set "raw_data" raw (financial_fallback financial_text)))
      with (JList []).
    set (sent := dict_set "sample_articles" _ _).
    change (dict_get_default "sentiment_score" half sent) with half.
    change (dict_get_default "key_themes" (JList []) sent) with (JList []).
    change (dict_get_default "catalysts" (JList []) sent) with (JList []).
    change (dict_get_default "concerns" (JList []) sent) with (JList []).
    cbn [bullets pbind format_f half]. eexists. reflexivity.
  - change (dict_get_default "strengths" (JList [])
              (dict_set "raw_data" raw (financial_fallback financial_text)))
      with (JList []).
    change (dict_get_default "concerns" (JList [])
              (dict_set "raw_data" raw (financial_fallback financial_text)))
      with (JList []).
    change (dict_get_default "sentiment_score" half no_news_analysis) with half.
    change (dict_get_default "key_themes" (JList []) no_news_analysis)
      with (JList []).
    change (dict_get_default "catalysts" (JList []) no_news_analysis)
      with (JList []).
    change (dict_get_default "concerns" (JList []) no_news_analysis)
      with (JList [JStr "No recent news coverage found"]).
    cbn [bullets pbind format_f half]. eexists. reflexivity.
Qed.
